(** * PalatePilot: the tour-generation pipeline

    A shallow embedding of [tools.py], [main.py] and [final-ui.py].

    Python values that travel through the pipeline (decoded JSON, HTTP
    payloads, the output of an execution) are terms of [value].  A [str] is
    a [string] whose characters are the code points below 256.  Everything
    the program obtains from outside (HTTP endpoints, the search provider,
    the agent-execution service, the clock) is an oracle passed as an
    argument; the calls the program makes are recorded in the state that is
    threaded through it.  Printing and the widgets of the UI leave no
    trace in a result and are left out.

    - [Py]: Python values, results, and the [str] and [dict] operations
      the program uses.
    - [Json]: a decoder to run the program on concrete texts.
    - [World]: the outside, and computations over it.
    - [Tools], [Julep], [Main], [FinalUI]: the program.
    - [Schema], [Scenario]: the TourPlan schema and concrete outsides.
    - From [PollingFacts] on: what holds of the program. *)

From Stdlib Require Import ZArith QArith Lia Lqa List Bool Ascii String.
From stdpp Require Import base gmap strings.

Import ListNotations.
Local Open Scope Z_scope.

(** ** Python values and results *)

Module Py.

(** [None], [bool], [int]/[float] (a finite number is a rational), [str],
    [list] and [dict] (insertion-ordered, keys unique). *)
#[warnings="-register-all"]
Inductive value : Type :=
| VNone
| VBool (b : bool)
| VNum (q : Q)
| VStr (s : string)
| VList (l : list value)
| VDict (d : list (string * value)).

(** The result of running a piece of Python: a returned value, a raised
    exception (its class name), or a model run that was given too little
    fuel for its loop. *)
Inductive pyres (A : Type) : Type :=
| Ret (a : A)
| Raise (exc : string)
| OutOfFuel.
Arguments Ret {A} a.
Arguments Raise {A} exc.
Arguments OutOfFuel {A}.

(** [bool(v)] *)
Definition truthy (v : value) : bool :=
  match v with
  | VNone => false
  | VBool b => b
  | VNum q => negb (Qeq_bool q 0)
  | VStr s => negb (String.eqb s "")
  | VList l => match l with [] => false | _ => true end
  | VDict d => match d with [] => false | _ => true end
  end.

(** [d[key]] on the association list of a dict; [None] is [KeyError]. *)
Fixpoint dict_lookup (key : string) (d : list (string * value)) : option value :=
  match d with
  | [] => None
  | (k, v) :: d' => if String.eqb k key then Some v else dict_lookup key d'
  end.

(** [d[key] = v]: an existing key keeps its position. *)
Fixpoint dict_set (key : string) (v : value) (d : list (string * value))
  : list (string * value) :=
  match d with
  | [] => [(key, v)]
  | (k, v0) :: d' =>
      if String.eqb k key then (k, v) :: d' else (k, v0) :: dict_set key v d'
  end.

(** [v[key]] for a string key. *)
Definition getitem (v : value) (key : string) : pyres value :=
  match v with
  | VDict d => match dict_lookup key d with
               | Some x => Ret x
               | None => Raise "KeyError"
               end
  | _ => Raise "TypeError"
  end.

(** [v.get(key)] *)
Definition dict_get (v : value) (key : string) : pyres value :=
  match v with
  | VDict d => match dict_lookup key d with
               | Some x => Ret x
               | None => Ret VNone
               end
  | _ => Raise "AttributeError"
  end.

(** [v[0]] *)
Definition getitem0 (v : value) : pyres value :=
  match v with
  | VList (x :: _) => Ret x
  | VList [] => Raise "IndexError"
  | VStr (String c _) => Ret (VStr (String c EmptyString))
  | VStr EmptyString => Raise "IndexError"
  | VDict _ => Raise "KeyError"
  | _ => Raise "TypeError"
  end.

(** The number a value stands for in a comparison with an [int]: numbers,
    and [bool] as 0 and 1. *)
Definition as_number (v : value) : option Q :=
  match v with
  | VNum q => Some q
  | VBool b => Some (if b then 1%Q else 0%Q)
  | _ => None
  end.

(** [v == n]: a value that is not a number is simply different. *)
Definition eq_num (v : value) (n : Q) : bool :=
  match as_number v with
  | Some q => Qeq_bool q n
  | None => false
  end.

(** [v <= n] and [v > n]: ordering a non-number against an [int] raises. *)
Definition le_num (v : value) (n : Q) : pyres bool :=
  match as_number v with
  | Some q => Ret (Qle_bool q n)
  | None => Raise "TypeError"
  end.

Definition gt_num (v : value) (n : Q) : pyres bool :=
  match as_number v with
  | Some q => Ret (negb (Qle_bool q n))
  | None => Raise "TypeError"
  end.

(** [reversed(v)] as the list of items a [for] loop visits. *)
Definition reversed (v : value) : pyres (list value) :=
  match v with
  | VList l => Ret (rev l)
  | VDict d => Ret (rev (map (fun kv => VStr (fst kv)) d))
  | VStr s =>
      Ret (rev (map (fun c => VStr (String c EmptyString)) (list_ascii_of_string s)))
  | _ => Raise "TypeError"
  end.

(** *** [str] methods *)

Definition len (s : string) : Z := Z.of_nat (String.length s).

(** [s.startswith(p)] *)
Definition startswith (s p : string) : bool := String.prefix p s.

(** [s.find(sub)], counting from index [i]; -1 when absent. *)
Fixpoint find_from (sub s : string) (i : Z) : Z :=
  if String.prefix sub s then i
  else match s with
       | EmptyString => -1
       | String _ r => find_from sub r (i + 1)
       end.

Definition find (s sub : string) : Z := find_from sub s 0.

(** [s.rfind(sub)], counting from index [i]; -1 when absent. *)
Fixpoint rfind_from (sub s : string) (i : Z) : Z :=
  match s with
  | EmptyString => if String.prefix sub EmptyString then i else -1
  | String _ r =>
      let later := rfind_from sub r (i + 1) in
      if 0 <=? later then later
      else if String.prefix sub s then i else -1
  end.

Definition rfind (s sub : string) : Z := rfind_from sub s 0.

(** A slice bound as Python normalises it: negative counts from the end,
    then clamped to [0, len]. *)
Definition clamp (n : Z) (i : Z) : Z :=
  let j := if i <? 0 then i + n else i in
  Z.max 0 (Z.min n j).

(** [s[start:stop]] *)
Definition slice (s : string) (start stop : Z) : string :=
  let n := len s in
  let a := clamp n start in
  let b := clamp n stop in
  String.substring (Z.to_nat a) (Z.to_nat (b - a)) s.

(** [s[:stop]] *)
Definition slice_to (s : string) (stop : Z) : string := slice s 0 stop.

(** Whitespace of [str.strip()] among the code points below 256. *)
Definition isspace (c : ascii) : bool :=
  let n := N_of_ascii c in
  ((9 <=? n) && (n <=? 13) || (28 <=? n) && (n <=? 32)
   || (n =? 133) || (n =? 160))%N.

Fixpoint lstrip (s : string) : string :=
  match s with
  | EmptyString => EmptyString
  | String c r => if isspace c then lstrip r else s
  end.

Fixpoint rstrip (s : string) : string :=
  match s with
  | EmptyString => EmptyString
  | String c r =>
      match rstrip r with
      | EmptyString => if isspace c then EmptyString else String c EmptyString
      | r' => String c r'
      end
  end.

(** [s.strip()] *)
Definition strip (s : string) : string := rstrip (lstrip s).

(** [s.replace(old, new)] for a non-empty [old]: leftmost occurrences,
    not overlapping.  [skip] counts the characters of a match still to be
    dropped. *)
Fixpoint replace_aux (old new s : string) (skip : nat) : string :=
  match s with
  | EmptyString => EmptyString
  | String c r =>
      match skip with
      | S k => replace_aux old new r k
      | O =>
          if String.prefix old s
          then new +:+ replace_aux old new r (String.length old - 1)
          else String c (replace_aux old new r 0)
      end
  end.

Definition replace (s old new : string) : string := replace_aux old new s 0.

(** No character of [s] is [c]. *)
Fixpoint lacks (c : ascii) (s : string) : bool :=
  match s with
  | EmptyString => true
  | String a r => negb (Ascii.eqb a c) && lacks c r
  end.

(** [sep.join(l)] *)
Definition join (sep : string) (l : list string) : string := String.concat sep l.

End Py.

(** ** [json.loads]

    The decoder of the standard library is not part of the repository.  The
    pipeline is parametric in it (an argument [json_loads] whose [None] is
    a raised [JSONDecodeError]); [Json.loads] is a decoder for RFC 8259
    texts to run the pipeline on concrete service outputs.  It follows the
    scanner of CPython: the same whitespace, the same number syntax, strict
    strings, the last of two equal keys wins, and nothing but whitespace
    may follow the value.  A number literal denotes its exact rational
    value; [\u] escapes are decoded below code point 256 only, and the
    non-standard literals [NaN] and [Infinity] are not recognised. *)

Module Json.
Import Py.

Definition dquote : ascii := "034"%char.
Definition backslash : ascii := "092"%char.

Definition is_ws (c : ascii) : bool :=
  (Ascii.eqb c " " || Ascii.eqb c "009" || Ascii.eqb c "010" || Ascii.eqb c "013")%char.

Fixpoint skip_ws (s : string) : string :=
  match s with
  | String c r => if is_ws c then skip_ws r else s
  | EmptyString => s
  end.

Definition digit_of (c : ascii) : option Z :=
  let n := Z.of_N (N_of_ascii c) in
  if (48 <=? n) && (n <=? 57) then Some (n - 48) else None.

Definition hex_of (c : ascii) : option Z :=
  let n := Z.of_N (N_of_ascii c) in
  if (48 <=? n) && (n <=? 57) then Some (n - 48)
  else if (65 <=? n) && (n <=? 70) then Some (n - 55)
  else if (97 <=? n) && (n <=? 102) then Some (n - 87)
  else None.

(** The longest run of digits at the head of [s]: its value on top of
    [acc], how many digits were read on top of [n], and the rest. *)
Fixpoint take_digits (s : string) (acc : Z) (n : nat) : Z * nat * string :=
  match s with
  | String c r =>
      match digit_of c with
      | Some d => take_digits r (10 * acc + d) (S n)
      | None => (acc, n, s)
      end
  | EmptyString => (acc, n, s)
  end.

(** An optional minus sign, then a single 0 or a run of digits that does
    not start with 0. *)
Definition scan_int (s : string) : option (bool * Z * string) :=
  let '(neg, s1) :=
    match s with
    | String c r => if Ascii.eqb c "-" then (true, r) else (false, s)
    | EmptyString => (false, s)
    end in
  match s1 with
  | String c r =>
      match digit_of c with
      | Some 0 => Some (neg, 0, r)
      | Some _ => let '(v, _, r') := take_digits s1 0 0 in Some (neg, v, r')
      | None => None
      end
  | EmptyString => None
  end.

(** An optional fraction (a dot and at least one digit): the mantissa
    extended by the fraction digits, and their number. *)
Definition scan_frac (m : Z) (s : string) : Z * nat * string :=
  match s with
  | String c r =>
      if Ascii.eqb c "." then
        match take_digits r m 0 with
        | (_, O, _) => (m, O, s)
        | res => res
        end
      else (m, O, s)
  | EmptyString => (m, O, s)
  end.

(** An optional exponent: e or E, an optional sign, at least one digit. *)
Definition scan_exp (s : string) : Z * string :=
  match s with
  | String c r =>
      if Ascii.eqb c "e" || Ascii.eqb c "E" then
        let '(neg, r1) :=
          match r with
          | String sg r' =>
              if Ascii.eqb sg "-" then (true, r')
              else if Ascii.eqb sg "+" then (false, r') else (false, r)
          | EmptyString => (false, r)
          end in
        match take_digits r1 0 0 with
        | (_, O, _) => (0, s)
        | (e, _, r2) => (if neg then - e else e, r2)
        end
      else (0, s)
  | EmptyString => (0, s)
  end.

Definition scan_number (s : string) : option (Q * string) :=
  match scan_int s with
  | None => None
  | Some (neg, i, r) =>
      let '(m, k, r1) := scan_frac i r in
      let '(e, r2) := scan_exp r1 in
      let m' := if neg then - m else m in
      let e' := e - Z.of_nat k in
      let q := if 0 <=? e' then Qmake (m' * 10 ^ e') 1
               else Qmake m' (Z.to_pos (10 ^ (- e'))) in
      Some (q, r2)
  end.

Definition unescape (c : ascii) : option ascii :=
  (if Ascii.eqb c dquote then Some dquote
   else if Ascii.eqb c backslash then Some backslash
   else if Ascii.eqb c "/" then Some "/"
   else if Ascii.eqb c "b" then Some "008"
   else if Ascii.eqb c "f" then Some "012"
   else if Ascii.eqb c "n" then Some "010"
   else if Ascii.eqb c "r" then Some "013"
   else if Ascii.eqb c "t" then Some "009"
   else None)%char.

Definition hex4 (a b c d : ascii) : option ascii :=
  match hex_of a, hex_of b, hex_of c, hex_of d with
  | Some x, Some y, Some z, Some w =>
      let n := ((x * 16 + y) * 16 + z) * 16 + w in
      if n <? 256 then Some (ascii_of_N (Z.to_N n)) else None
  | _, _, _, _ => None
  end.

(** The characters of a string literal after its opening quote, up to the
    closing quote. *)
Fixpoint scan_string (s : string) : option (string * string) :=
  match s with
  | EmptyString => None
  | String c r =>
      if Ascii.eqb c dquote then Some (EmptyString, r)
      else if Ascii.eqb c backslash then
        match r with
        | String e r1 =>
            if Ascii.eqb e "u" then
              match r1 with
              | String h1 (String h2 (String h3 (String h4 r2))) =>
                  match hex4 h1 h2 h3 h4, scan_string r2 with
                  | Some ch, Some (body, rest) => Some (String ch body, rest)
                  | _, _ => None
                  end
              | _ => None
              end
            else
              match unescape e, scan_string r1 with
              | Some ch, Some (body, rest) => Some (String ch body, rest)
              | _, _ => None
              end
        | EmptyString => None
        end
      else if (N_of_ascii c <? 32)%N then None
      else
        match scan_string r with
        | Some (body, rest) => Some (String c body, rest)
        | None => None
        end
  end.

(** One value at the head of [s] (no leading whitespace), and the rest. *)
Fixpoint scan_value (fuel : nat) (s : string) : option (value * string) :=
  match fuel with
  | O => None
  | S f =>
      match s with
      | EmptyString => None
      | String c r =>
          if Ascii.eqb c dquote then
            match scan_string r with
            | Some (str, rest) => Some (VStr str, rest)
            | None => None
            end
          else if Ascii.eqb c "{" then
            match skip_ws r with
            | String c1 r1 =>
                if Ascii.eqb c1 "}" then Some (VDict [], r1)
                else scan_members f (skip_ws r) []
            | EmptyString => None
            end
          else if Ascii.eqb c "[" then
            match skip_ws r with
            | String c1 r1 =>
                if Ascii.eqb c1 "]" then Some (VList [], r1)
                else scan_elements f (skip_ws r) []
            | EmptyString => None
            end
          else if String.prefix "null" s then Some (VNone, String.substring 4 (String.length s - 4) s)
          else if String.prefix "true" s then Some (VBool true, String.substring 4 (String.length s - 4) s)
          else if String.prefix "false" s then Some (VBool false, String.substring 5 (String.length s - 5) s)
          else
            match scan_number s with
            | Some (q, rest) => Some (VNum q, rest)
            | None => None
            end
      end
  end

(** The elements of an array from the head of [s] (an element starts
    there) up to the closing bracket; [acc] holds the elements read so
    far, latest first. *)
with scan_elements (fuel : nat) (s : string) (acc : list value)
  : option (value * string) :=
  match fuel with
  | O => None
  | S f =>
      match scan_value f s with
      | Some (v, r) =>
          match skip_ws r with
          | String c r1 =>
              if Ascii.eqb c "," then scan_elements f (skip_ws r1) (v :: acc)
              else if Ascii.eqb c "]" then Some (VList (rev (v :: acc)), r1)
              else None
          | EmptyString => None
          end
      | None => None
      end
  end

(** The members of an object from the head of [s] (a key starts there)
    up to the closing brace. *)
with scan_members (fuel : nat) (s : string) (acc : list (string * value))
  : option (value * string) :=
  match fuel with
  | O => None
  | S f =>
      match s with
      | String q r =>
          if Ascii.eqb q dquote then
            match scan_string r with
            | Some (key, r1) =>
                match skip_ws r1 with
                | String c r2 =>
                    if Ascii.eqb c ":" then
                      match scan_value f (skip_ws r2) with
                      | Some (v, r3) =>
                          match skip_ws r3 with
                          | String c' r4 =>
                              if Ascii.eqb c' "," then
                                scan_members f (skip_ws r4) (dict_set key v acc)
                              else if Ascii.eqb c' "}" then
                                Some (VDict (dict_set key v acc), r4)
                              else None
                          | EmptyString => None
                          end
                      | None => None
                      end
                    else None
                | EmptyString => None
                end
            | None => None
            end
          else None
      | EmptyString => None
      end
  end.

(** [json.loads(s)]; [None] when the decoder raises. *)
Definition loads (s : string) : option value :=
  match scan_value (2 * String.length s + 2) (skip_ws s) with
  | Some (v, r) =>
      match skip_ws r with
      | EmptyString => Some v
      | _ => None
      end
  | None => None
  end.

(** Writes a text with apostrophes in place of double quotes. *)
Fixpoint dq (s : string) : string :=
  match s with
  | EmptyString => EmptyString
  | String c r => String (if Ascii.eqb c "'" then dquote else c) (dq r)
  end.

End Json.

(** ** The outside world

    Time is counted in milliseconds.  [calls] is the history of what the
    program asked of the outside, latest first.  An answer of the outside
    is a function of the whole history up to and including the request, so
    an endpoint may answer the same request differently at different
    times.  The clock does not run backwards: a request takes some time or
    none, and [time.sleep(s)] takes [s] seconds at least, as its
    documentation promises. *)

Module World.
Import Py.

Inductive event : Type :=
| HttpGet (url : string)
| Search (query : string)
| TasksCreate (prompt : string)
| ExecutionsCreate (input : value)
| ExecutionsGet
| Sleep (seconds : Z).

Record world : Type := { clock : Z; calls : list event }.

(** What [client.executions.get] returns. *)
Record execution : Type :=
  { status : string; output : value; error : value }.

Record env : Type := {
  (** [session.get(url)] followed by [res.json()]; [None] when either
      raises (no connection, timeout, a body that is not JSON). *)
  http_json : world -> option value;
  (** [session.get(url)], [res.text()], the markup stripped and the text
      stripped of surrounding whitespace; [None] when any step raises. *)
  page_content : world -> option string;
  (** Whether [from googlesearch import search] succeeds. *)
  googlesearch_installed : bool;
  (** The URLs the search generator yields, and whether it raises after
      the last of them. *)
  search : world -> list string * bool;
  (** Whether [client.tasks.create] and [client.executions.create]
      return; they raise otherwise. *)
  tasks_create_ok : world -> bool;
  executions_create_ok : world -> bool;
  (** [client.executions.get]; [None] when it raises. *)
  executions_get : world -> option execution;
  (** How long the request just issued takes. *)
  duration : world -> N;
  (** By how much the [time.sleep] just started overshoots. *)
  oversleep : world -> N;
  (** [str(v)] for a value that is not a [str]. *)
  render : value -> string
}.

(** Computations: state passing over [world], with exceptions. *)
Definition M (A : Type) : Type := world -> pyres A * world.

Definition ret {A} (a : A) : M A := fun w => (Ret a, w).

Definition bind {A B} (m : M A) (k : A -> M B) : M B :=
  fun w =>
    match m w with
    | (Ret a, w') => k a w'
    | (Raise e, w') => (Raise e, w')
    | (OutOfFuel, w') => (OutOfFuel, w')
    end.

(** A returned value or a raised exception of a pure computation. *)
Definition lift {A} (r : pyres A) : M A := fun w => (r, w).

(** [try: m except Exception: handler] *)
Definition try_except {A} (m : M A) (handler : M A) : M A :=
  fun w =>
    match m w with
    | (Raise _, w') => handler w'
    | other => other
    end.

(** Sequencing of pure computations that may raise. *)
Definition pbind {A B} (r : pyres A) (k : A -> pyres B) : pyres B :=
  match r with
  | Ret a => k a
  | Raise e => Raise e
  | OutOfFuel => OutOfFuel
  end.

Declare Scope py_scope.
Delimit Scope py_scope with py.
Notation "x <- m ;; k" := (bind m (fun x => k))
  (at level 100, m at next level, k at level 200, right associativity) : py_scope.
Notation "m ;; k" := (bind m (fun _ => k))
  (at level 100, k at level 200, right associativity) : py_scope.
Notation "x <~ r ;; k" := (pbind r (fun x => k))
  (at level 100, r at next level, k at level 200, right associativity) : py_scope.

Section Operations.
Variable E : env.

(** A request: it enters the history and takes its time. *)
Definition request (e : event) : M unit :=
  fun w =>
    let w1 := {| clock := clock w; calls := e :: calls w |} in
    (Ret tt, {| clock := clock w + Z.of_N (duration E w1); calls := e :: calls w |}).

(** [time.time()] *)
Definition time_time : M Z := fun w => (Ret (clock w), w).

(** [time.sleep(seconds)]: at least that long. *)
Definition time_sleep (seconds : Z) : M unit :=
  fun w =>
    let w1 := {| clock := clock w; calls := Sleep seconds :: calls w |} in
    (Ret tt, {| clock := clock w + 1000 * seconds + Z.of_N (oversleep E w1);
                calls := Sleep seconds :: calls w |}).

Definition get_json (url : string) : M value :=
  fun w =>
    match request (HttpGet url) w with
    | (_, w') =>
        match http_json E w' with
        | Some data => (Ret data, w')
        | None => (Raise "ClientError", w')
        end
    end.

Definition get_page (url : string) : M string :=
  fun w =>
    match request (HttpGet url) w with
    | (_, w') =>
        match page_content E w' with
        | Some text => (Ret text, w')
        | None => (Raise "ClientError", w')
        end
    end.

(** [str(v)], as an f-string formats a value. *)
Definition str (v : value) : string :=
  match v with
  | VStr s => s
  | _ => render E v
  end.

End Operations.

(** Kinds of events, and how often one occurs in a history. *)
Definition is_get (e : event) : bool :=
  match e with ExecutionsGet => true | _ => false end.
Definition is_create (e : event) : bool :=
  match e with ExecutionsCreate _ => true | _ => false end.
Definition is_sleep (e : event) : bool :=
  match e with Sleep _ => true | _ => false end.
Definition is_julep (e : event) : bool :=
  match e with
  | TasksCreate _ | ExecutionsCreate _ | ExecutionsGet => true
  | _ => false
  end.
Definition count (p : event -> bool) (w : world) : nat :=
  List.length (List.filter p (calls w)).

End World.

(** ** tools.py *)

Module Tools.
Import Py World.
Local Open Scope py_scope.

(** What [get_coordinates] hands back: the 2-tuple of a [return a, b], or
    the [None] of a function that ends without a [return]. *)
Definition coords : Type := option (value * value).

(** The dict [get_weather] returns. *)
Record weather : Type :=
  { temperature : value; condition : string; recommendation : string }.

Definition default_weather : weather :=
  {| temperature := VNum 20; condition := "unknown"; recommendation := "indoor" |}.

(** [a, b = c] *)
Definition unpack2 (c : coords) : pyres (value * value) :=
  match c with
  | Some p => Ret p
  | None => Raise "TypeError"
  end.

(** [v is None] *)
Definition is_none (v : value) : bool :=
  match v with VNone => true | _ => false end.

Section WithEnv.
Variable E : env.

Definition geocoding_url (city : string) : string :=
  "https://geocoding-api.open-meteo.com/v1/search?name=" +:+ city
  +:+ "&count=1&language=en&format=json".

Definition forecast_url (lat lon : value) : string :=
  "https://api.open-meteo.com/v1/forecast?latitude=" +:+ str E lat
  +:+ "&longitude=" +:+ str E lon
  +:+ "&current=temperature_2m,weather_code&timezone=auto".

Definition get_coordinates (city : string) : M coords :=
  try_except
    (let url := geocoding_url city in
     data <- get_json E url ;;
     found <- lift (dict_get data "results") ;;
     if truthy found then
       results <- lift (getitem data "results") ;;
       loc <- lift (getitem0 results) ;;
       lat <- lift (getitem loc "latitude") ;;
       lon <- lift (getitem loc "longitude") ;;
       ret (Some (lat, lon))
     else
       (* the function ends here without a return *)
       ret None)
    (ret (Some (VNone, VNone))).

(** The [if]/[elif] chain on the weather code. *)
Definition condition_of_code (code : value) : pyres string :=
  if eq_num code 0 then Ret "clear"
  else
    c3 <~ le_num code 3 ;;
    if c3 then Ret "cloudy"
    else
      c67 <~ le_num code 67 ;;
      if c67 then Ret "rainy" else Ret "stormy".

(** [condition == "clear" and temp > 15] *)
Definition is_outdoor (condition : string) (temp : value) : pyres bool :=
  if String.eqb condition "clear" then gt_num temp 15 else Ret false.

Definition get_weather (city : string) : M weather :=
  c <- get_coordinates city ;;
  p <- lift (unpack2 c) ;;
  let '(lat, lon) := p in
  if is_none lat then ret default_weather
  else
    try_except
      (let url := forecast_url lat lon in
       data <- get_json E url ;;
       current <- lift (getitem data "current") ;;
       temp <- lift (getitem current "temperature_2m") ;;
       current' <- lift (getitem data "current") ;;
       code <- lift (getitem current' "weather_code") ;;
       condition <- lift (condition_of_code code) ;;
       outdoor <- lift (is_outdoor condition temp) ;;
       let recommendation := if outdoor then "outdoor" else "indoor" in
       ret {| temperature := temp; condition := condition;
              recommendation := recommendation |})
      (ret default_weather).

(** The body of the [for url in search(...)] loop, over the URLs the
    generator yields: a page that cannot be fetched is skipped. *)
Fixpoint scrape_urls (urls : list string) (results : list string) : M (list string) :=
  match urls with
  | [] => ret results
  | url :: urls' =>
      results' <-
        try_except
          (content <- get_page E url ;;
           if 200 <? len content
           then ret (results ++ [slice_to content 2000])
           else ret results)
          (ret results) ;;
      scrape_urls urls' results'
  end.

Definition scrape_restaurants_for_dish (city dish : string) : M (list string) :=
  if negb (googlesearch_installed E) then ret []
  else
    let query := "best restaurants in " +:+ city +:+ " serving " +:+ dish in
    request E (Search query) ;;
    fun w =>
      let '(urls, raises) := search E w in
      (* an exception of the generator ends the loop; [results] is
         returned as it stands either way *)
      scrape_urls urls [] w.

(** [_coordinate_cache] is a module-level dict: it is passed in and the
    updated dict is passed out. *)
Definition get_coordinates_cached (city : string)
  (_coordinate_cache : gmap string coords) : M (coords * gmap string coords) :=
  match _coordinate_cache !! city with
  | Some c => ret (c, _coordinate_cache)
  | None =>
      c <- get_coordinates city ;;
      ret (c, <[city := c]> _coordinate_cache)
  end.

End WithEnv.
End Tools.

(** ** The agent-execution service: calls and the polling loop *)

Module Julep.
Import Py World.
Local Open Scope py_scope.

Definition nl : string := String "010" EmptyString.

(** A block of text, one line per element. *)
Definition text_of_lines (l : list string) : string := join nl l.

Definition fallback_dishes : list value :=
  [VStr "Traditional Dish 1"; VStr "Traditional Dish 2"; VStr "Traditional Dish 3"].

(** [status not in ['succeeded', 'failed']], negated. *)
Definition terminal (s : string) : bool :=
  String.eqb s "succeeded" || String.eqb s "failed".

(** [item["role"] == "assistant"] *)
Definition is_assistant (role : value) : bool :=
  match role with
  | VStr s => String.eqb s "assistant"
  | _ => false
  end.

(** The loop test [item["role"] == "assistant" and item.get("content")]
    on an item on which it does not raise: an assistant message with
    content. *)
Definition is_reply (item : value) : bool :=
  match getitem item "role", dict_get item "content" with
  | Ret role, Ret content => is_assistant role && truthy content
  | _, _ => false
  end.

(** An item on which the loop test does not raise: a dict with a role. *)
Definition has_role (item : value) : Prop :=
  exists role, getitem item "role" = Ret role.

(** The history of [n] rounds of the polling loop, latest first: a round
    is a poll followed by a sleep of 2 seconds. *)
Fixpoint rounds (n : nat) : list event :=
  match n with
  | O => []
  | S n' => Sleep 2 :: ExecutionsGet :: rounds n'
  end.

(** Each of the first [n] polls after the history [base] was answered,
    with a status that is not terminal. *)
Definition polls_pending (E : env) (base : list event) (n : nat) : Prop :=
  forall i, (i < n)%nat ->
    exists wi xi,
      calls wi = ExecutionsGet :: rounds i ++ base
      /\ executions_get E wi = Some xi
      /\ terminal (status xi) = false.

(** How a run against the service ends: the deadline passed, a poll
    reported a terminal status, or a call to the service raised. *)
Inductive ending : Type :=
| TimedOut
| Terminal (result : execution)
| CallRaised.

(** A run that started in [w] with a deadline [secs] seconds ahead has
    ended in [w']: what it asked of the service, latest first, and what it
    was told.  It created one task and one execution, went through [n]
    rounds whose polls were all answered with a status that is not
    terminal, and then either found the deadline passed after the sleep of
    the last round, or polled once more and got a terminal status, or had
    a call raise. *)
Definition ended (E : env) (secs : Z) (w w' : world) (how : ending) : Prop :=
  exists (n : nat) (started : Z) (prompt : string) (input : value),
    let created := ExecutionsCreate input :: TasksCreate prompt :: calls w in
    clock w <= started <= clock w'
    /\ polls_pending E created n
    /\ match how with
       | TimedOut =>
           calls w' = rounds n ++ created
           /\ (1 <= n)%nat
           /\ 2000 * Z.of_nat n <= 1000 * secs + 2000
           /\ started + 1000 * secs < clock w'
       | Terminal x =>
           calls w' = ExecutionsGet :: rounds n ++ created
           /\ 2000 * Z.of_nat n <= 1000 * secs
           /\ executions_get E w' = Some x
           /\ terminal (status x) = true
       | CallRaised =>
           calls w' = TasksCreate prompt :: calls w
             /\ tasks_create_ok E w' = false
           \/ calls w' = created /\ executions_create_ok E w' = false
           \/ calls w' = ExecutionsGet :: rounds n ++ created
              /\ 2000 * Z.of_nat n <= 1000 * secs
              /\ executions_get E w' = None
       end.

Section WithEnv.
Variable E : env.

(** [client.tasks.create(agent_id=agent_id, **task_definition)] *)
Definition tasks_create (prompt : string) : M unit :=
  request E (TasksCreate prompt) ;;
  fun w => if tasks_create_ok E w then (Ret tt, w) else (Raise "APIError", w).

(** [client.executions.create(task_id=task.id, input=input)] *)
Definition executions_create (input : value) : M unit :=
  request E (ExecutionsCreate input) ;;
  fun w => if executions_create_ok E w then (Ret tt, w) else (Raise "APIError", w).

(** [client.executions.get(execution.id)] *)
Definition executions_get_call : M execution :=
  request E ExecutionsGet ;;
  fun w =>
    match executions_get E w with
    | Some result => (Ret result, w)
    | None => (Raise "APIError", w)
    end.

(** The loop
    [while (result := client.executions.get(execution.id)).status
           not in ['succeeded', 'failed']:
         time.sleep(2)
         if time.time() > timeout: return ...]
    that both callers contain.  [Some result] when the loop ends normally,
    [None] when it leaves the function through the [return] of the
    deadline test; [fuel] bounds the number of iterations. *)
Fixpoint poll_execution (timeout : Z) (fuel : nat) : M (option execution) :=
  match fuel with
  | O => lift OutOfFuel
  | S fuel' =>
      result <- executions_get_call ;;
      if terminal (status result) then ret (Some result)
      else
        time_sleep E 2 ;;
        now <- time_time ;;
        if timeout <? now then ret None
        else poll_execution timeout fuel'
  end.

End WithEnv.
End Julep.

(** ** main.py *)

Module Main.
Import Py World Julep.
Local Open Scope py_scope.

Section WithEnv.
Variable json_loads : string -> option value.
Variable E : env.

(** [text[start:end+1]] between the first opening and the last closing
    brace of [text]. *)
Definition json_span (text : string) : string :=
  let start := find text "{" in
  let end_ := rfind text "}" in
  slice text start (end_ + 1).

(** The body of [for item in reversed(output_list)] in
    [extract_final_json_from_output]. *)
Fixpoint final_json_of_items (items : list value) : pyres value :=
  match items with
  | [] => Ret VNone
  | item :: items' =>
      role <~ getitem item "role" ;;
      if is_assistant role then
        content <~ dict_get item "content" ;;
        if truthy content then
          text <~ getitem item "content" ;;
          match text with
          | VStr t =>
              let json_str := json_span t in
              match json_loads json_str with
              | Some v => Ret v
              | None => Ret VNone
              end
          | _ => Ret VNone  (* [text.find] raises inside the [try] *)
          end
        else final_json_of_items items'
      else final_json_of_items items'
  end.

Definition extract_final_json_from_output (output_list : value) : pyres value :=
  items <~ reversed output_list ;;
  final_json_of_items items.

(** What [generate_foodie_tour] makes of what the polling loop left: the
    lines after the loop, as a function of their own. *)
Definition tour_of_polled (polled : option execution) : pyres value :=
  match polled with
  | None => Ret VNone
  | Some result =>
      if String.eqb (status result) "succeeded"
      then extract_final_json_from_output (output result)
      else Ret VNone
  end.

Definition dining_type_of (w : Tools.weather) : string :=
  if String.eqb (Tools.recommendation w) "outdoor" then "outdoor" else "indoor".

(** One pass of the loop that builds [restaurant_context]. *)
Definition context_line (dish : value) (restaurants : list string) : string :=
  nl +:+ str E dish +:+ ": " +:+ join "; " (firstn 3 restaurants).

Definition restaurant_context (dishes : list value)
  (restaurant_infos : list (list string)) : string :=
  fold_left (fun acc p => acc +:+ context_line (fst p) (snd p))
            (combine dishes restaurant_infos) EmptyString.

(** The prompt of [generate_foodie_tour].  The two characters before the
    C of the temperature are not ASCII in the source; they stand here as
    the bytes of their UTF-8 encoding. *)
Definition tour_prompt (city : string) (weather : Tools.weather)
  (dining_type context : string) : string :=
  text_of_lines
    [ "";
      "    Create a one-day foodie tour for " +:+ city +:+ ". Today's weather is "
        +:+ Tools.condition weather +:+ " with a temperature of "
        +:+ str E (Tools.temperature weather) +:+ "¬∞C, suitable for "
        +:+ dining_type +:+ " dining.";
      "    ";
      "    Use these dishes and restaurant information:";
      "    " +:+ context;
      "    ";
      "    Follow these steps:";
      "    1. Use the three provided dishes as the iconic dishes for " +:+ city +:+ ".";
      "    2. Select appropriate restaurants from the provided information that serve these dishes.";
      "    3. Generate a narrative for breakfast, lunch, and dinner, including restaurant names, addresses, dish descriptions, and how the weather influences the dining experience.";
      "    4. Output the response as a JSON object with fields: 'city' (string), 'weather' (object with 'temperature' as a number, 'condition' as a string, 'dining' as a string), 'iconic_dishes' (array of three strings), and 'tour' (object with 'breakfast', 'lunch', 'dinner', each containing 'restaurant', 'address', 'dish', 'description', 'weather_consideration' as strings).";
      "    ";
      "    Ensure the narrative is engaging, culturally relevant, and reflects the "
        +:+ dining_type +:+ " dining environment.";
      "    Return only valid JSON with no extra text, backticks, or markdown formatting.";
      "    " ].

Definition generate_foodie_tour (fuel : nat) (city : string)
  (weather : Tools.weather) (dishes : list value)
  (restaurant_infos : list (list string)) : M value :=
  let dining_type := dining_type_of weather in
  let context := restaurant_context dishes restaurant_infos in
  let prompt := tour_prompt city weather dining_type context in
  try_except
    (tasks_create E prompt ;;
     executions_create E
       (VDict [("city", VStr city);
               ("temperature", Tools.temperature weather);
               ("condition", VStr (Tools.condition weather));
               ("dining_type", VStr dining_type);
               ("dishes", VList dishes);
               ("restaurant_infos",
                VList (map (fun l => VList (map VStr l)) restaurant_infos))]) ;;
     now <- time_time ;;
     let timeout := now + 1000 * 60 in
     polled <- poll_execution E timeout fuel ;;
     match polled with
     | None => ret VNone
     | Some result =>
         if String.eqb (status result) "succeeded"
         then lift (extract_final_json_from_output (output result))
         else ret VNone
     end)
    (ret VNone).

(** The message text stripped, and freed of code-fence markers when it
    starts with one. *)
Definition clean_content (c : string) : string :=
  let content := strip c in
  if startswith content "```json"
  then strip (replace (replace content "```json" "") "```" "")
  else if startswith content "```"
  then strip (replace content "```" "")
  else content.

(** A text between a line that opens a code fence and a line that closes
    it. *)
Definition fenced (opening body : string) : string :=
  opening +:+ nl +:+ body +:+ nl +:+ "```".

(** The [try] block around one assistant message in
    [extract_dishes_from_text]: [Some dishes] when it returns, [None]
    when it raises or falls through to the next message. *)
Definition dishes_of_content (content : value) : option (list value) :=
  match content with
  | VStr c =>
      let content := clean_content c in
      match json_loads content with
      | Some (VList dishes) =>
          if 3 <=? Z.of_nat (List.length dishes) then Some (firstn 3 dishes) else None
      | _ => None
      end
  | _ => None
  end.

(** The body of [for item in reversed(result.output)]. *)
Fixpoint dishes_of_items (items : list value) : pyres (list value) :=
  match items with
  | [] => Ret fallback_dishes
  | item :: items' =>
      role <~ getitem item "role" ;;
      if is_assistant role then
        content <~ dict_get item "content" ;;
        if truthy content then
          match dishes_of_content content with
          | Some dishes => Ret dishes
          | None => dishes_of_items items'
          end
        else dishes_of_items items'
      else dishes_of_items items'
  end.

(** What one message contributes: the dishes the [try] block returns for
    an assistant message with content, nothing for any other message. *)
Definition dishes_of_message (item : value) : option (list value) :=
  if is_reply item then
    match dict_get item "content" with
    | Ret content => dishes_of_content content
    | _ => None
    end
  else None.

(** What [extract_dishes_from_text] makes of what the polling loop left:
    the lines after the loop, as a function of their own. *)
Definition dishes_of_polled (polled : option execution) : pyres (list value) :=
  match polled with
  | None => Ret fallback_dishes
  | Some result =>
      if String.eqb (status result) "succeeded"
      then items <~ reversed (output result) ;; dishes_of_items items
      else Ret fallback_dishes
  end.

(** [dish_text[:n]]: [None] is not subscriptable. *)
Definition text_prefix (dish_text : option string) (n : Z) : pyres string :=
  match dish_text with
  | Some t => Ret (slice_to t n)
  | None => Raise "TypeError"
  end.

Definition dish_prompt (city excerpt : string) : string :=
  text_of_lines
    [ "";
      "    Extract exactly 3 iconic dishes from the following text about " +:+ city +:+ ":";
      "    ";
      "    " +:+ excerpt;
      "    ";
      "    Return only a JSON array of 3 dish names, for example: "
        +:+ Json.dq "['Dish 1', 'Dish 2', 'Dish 3']";
      "    " ].

Definition value_of_text (dish_text : option string) : value :=
  match dish_text with
  | Some t => VStr t
  | None => VNone
  end.

(** The [try] block both versions of [extract_dishes_from_text] share. *)
Definition extract_with_service (fuel : nat) (city : string)
  (dish_text : option string) (prompt : string) : M (list value) :=
  try_except
    (tasks_create E prompt ;;
     executions_create E
       (VDict [("city", VStr city); ("text", value_of_text dish_text)]) ;;
     now <- time_time ;;
     let timeout := now + 1000 * 30 in
     polled <- poll_execution E timeout fuel ;;
     match polled with
     | None => ret fallback_dishes
     | Some result =>
         if String.eqb (status result) "succeeded"
         then
           items <- lift (reversed (output result)) ;;
           lift (dishes_of_items items)
         else ret fallback_dishes
     end)
    (ret fallback_dishes).

Definition extract_dishes_from_text (fuel : nat) (city : string)
  (dish_text : option string) : M (list value) :=
  excerpt <- lift (text_prefix dish_text 3000) ;;
  extract_with_service fuel city dish_text (dish_prompt city excerpt).

(** [not dish_text] *)
Definition no_text (dish_text : option string) : bool :=
  match dish_text with
  | None => true
  | Some t => String.eqb t ""
  end.

(** The dish step of [run_workflow]: the [if not dish_text: ... else: ...]
    that follows the scrape. *)
Definition run_workflow_dishes (fuel : nat) (city : string)
  (dish_text : option string) : M (list value) :=
  if no_text dish_text then ret fallback_dishes
  else extract_dishes_from_text fuel city dish_text.

End WithEnv.
End Main.

(** ** final-ui.py *)

Module FinalUI.
Import Py World Julep.
Local Open Scope py_scope.

Section WithEnv.
Variable json_loads : string -> option value.
Variable E : env.

(** The same function as in main.py, reporting through the UI. *)
Definition extract_final_json_from_output : value -> pyres value :=
  Main.extract_final_json_from_output json_loads.

Definition context_line (dish : value) (restaurants : list string) : string :=
  match restaurants with
  | _ :: _ => nl +:+ str E dish +:+ ": " +:+ join "; " (firstn 2 restaurants)
  | [] => nl +:+ str E dish +:+ ": Popular local restaurants"
  end.

Definition restaurant_context (dishes : list value)
  (restaurant_infos : list (list string)) : string :=
  fold_left (fun acc p => acc +:+ context_line (fst p) (snd p))
            (combine dishes restaurant_infos) EmptyString.

(** The prompt of [generate_tour]; the degree sign stands as the bytes of
    its UTF-8 encoding. *)
Definition tour_prompt (city : string) (weather : Tools.weather)
  (dining_type context : string) : string :=
  text_of_lines
    [ "";
      "    Create a day long PalatePilot tour for " +:+ city +:+ ". Today's weather is "
        +:+ Tools.condition weather +:+ " with a temperature of "
        +:+ str E (Tools.temperature weather) +:+ "°C, suitable for "
        +:+ dining_type +:+ " dining.";
      "    ";
      "    Use these dishes and restaurant information:";
      "    " +:+ context;
      "    ";
      "    Follow these steps:";
      "    1. Use the three provided dishes as the iconic dishes for " +:+ city +:+ ".";
      "    2. Select appropriate restaurants from the provided information that serve these dishes, or suggest well-known establishments.";
      "    3. Generate a narrative for breakfast, lunch, and dinner, including restaurant names, addresses, dish descriptions, and how the weather influences the dining experience.";
      "    4. Output the response as a JSON object with fields: 'city' (string), 'weather' (object with 'temperature' as a number, 'condition' as a string, 'dining' as a string), 'iconic_dishes' (array of three strings), and 'tour' (object with 'breakfast', 'lunch', 'dinner', each containing 'restaurant', 'address', 'dish', 'description', 'weather_consideration' as strings).";
      "    ";
      "    Ensure the narrative is engaging, culturally relevant, and reflects the "
        +:+ dining_type +:+ " dining environment.";
      "    Return only valid JSON with no extra text, backticks, or markdown formatting.";
      "    " ].

Definition generate_tour (fuel : nat) (city : string)
  (weather : Tools.weather) (dishes : list value)
  (restaurant_infos : list (list string)) : M value :=
  let dining_type := Main.dining_type_of weather in
  let context := restaurant_context dishes restaurant_infos in
  let prompt := tour_prompt city weather dining_type context in
  try_except
    (tasks_create E prompt ;;
     executions_create E
       (VDict [("city", VStr city);
               ("temperature", Tools.temperature weather);
               ("condition", VStr (Tools.condition weather));
               ("dining_type", VStr dining_type)]) ;;
     now <- time_time ;;
     let timeout := now + 1000 * 60 in
     polled <- poll_execution E timeout fuel ;;
     match polled with
     | None => ret VNone
     | Some result =>
         if String.eqb (status result) "succeeded"
         then lift (extract_final_json_from_output (output result))
         else ret VNone
     end)
    (ret VNone).

Definition extract_dishes_from_text (fuel : nat) (city : string)
  (dish_text : option string) : M (list value) :=
  if Main.no_text dish_text then ret Julep.fallback_dishes
  else
    excerpt <- lift (Main.text_prefix dish_text 2000) ;;
    Main.extract_with_service json_loads E fuel city dish_text
      (Main.dish_prompt city excerpt).

End WithEnv.
End FinalUI.

(** ** The TourPlan schema, as the specification words it *)

Module Schema.
Import Py.

Definition is_str (v : value) : bool :=
  match v with VStr _ => true | _ => false end.

Definition is_num (v : value) : bool :=
  match v with VNum _ => true | _ => false end.

(** The dict has the key, and the value under it passes the test. *)
Definition field (d : list (string * value)) (key : string)
  (test : value -> bool) : bool :=
  match dict_lookup key d with
  | Some v => test v
  | None => false
  end.

Definition is_weather (v : value) : bool :=
  match v with
  | VDict d =>
      field d "temperature" is_num && field d "condition" is_str
      && field d "dining" is_str
  | _ => false
  end.

Definition is_three_strings (v : value) : bool :=
  match v with
  | VList ([a; b; c]) => is_str a && is_str b && is_str c
  | _ => false
  end.

Definition is_meal (v : value) : bool :=
  match v with
  | VDict d =>
      field d "restaurant" is_str && field d "address" is_str
      && field d "dish" is_str && field d "description" is_str
      && field d "weather_consideration" is_str
  | _ => false
  end.

Definition is_tour (v : value) : bool :=
  match v with
  | VDict d =>
      field d "breakfast" is_meal && field d "lunch" is_meal
      && field d "dinner" is_meal
  | _ => false
  end.

Definition satisfies_TourPlan (v : value) : bool :=
  match v with
  | VDict d =>
      field d "city" is_str && field d "weather" is_weather
      && field d "iconic_dishes" is_three_strings && field d "tour" is_tour
  | _ => false
  end.

End Schema.

(** ** Concrete environments to run the pipeline in *)

Module Scenario.
Import Py World.

Definition w0 : world := {| clock := 0; calls := [] |}.

(** Every request is answered at once; the HTTP endpoints answer [json],
    pages answer [page], the search yields [urls], the service accepts
    tasks and executions and answers [exec] to a poll. *)
Definition instant (json : world -> option value)
  (page : world -> option string) (urls : list string)
  (exec : world -> option execution) : env :=
  {| http_json := json;
     page_content := page;
     googlesearch_installed := true;
     search := fun _ => (urls, false);
     tasks_create_ok := fun _ => true;
     executions_create_ok := fun _ => true;
     executions_get := exec;
     duration := fun _ => 0%N;
     oversleep := fun _ => 0%N;
     render := fun _ => "?" |}.

Definition assistant (text : string) : value :=
  VDict [("role", VStr "assistant"); ("content", VStr text)].

Definition user (text : string) : value :=
  VDict [("role", VStr "user"); ("content", VStr text)].

(** The service reports [succeeded] at the first poll, with these
    messages as output. *)
Definition succeeds_with (messages : list value) : env :=
  instant (fun _ => None) (fun _ => None) []
    (fun _ => Some {| status := "succeeded"; output := VList messages; error := VNone |}).

(** The service reports [failed] at the first poll. *)
Definition fails : env :=
  instant (fun _ => None) (fun _ => None) []
    (fun _ => Some {| status := "failed"; output := VNone; error := VStr "boom" |}).

(** The service never leaves [running]. *)
Definition keeps_running : env :=
  instant (fun _ => None) (fun _ => None) []
    (fun _ => Some {| status := "running"; output := VNone; error := VNone |}).

(** The service reports [running] for the first [n] polls and then
    [succeeded] with these messages. *)
Definition succeeds_after (n : nat) (messages : list value) : env :=
  instant (fun _ => None) (fun _ => None) []
    (fun w =>
       if (n <? count is_get w)%nat
       then Some {| status := "succeeded"; output := VList messages; error := VNone |}
       else Some {| status := "running"; output := VNone; error := VNone |}).

(** The geocoding endpoint answers [geo] to the first request, and the
    forecast endpoint [forecast] to the second. *)
Definition weather_service (geo forecast : option value) : env :=
  instant (fun w => match calls w with [_] => geo | _ => forecast end)
    (fun _ => None) [] (fun _ => None).

Definition paris_geo : value :=
  VDict [("results",
          VList [VDict [("latitude", VNum (4885341 # 100000));
                        ("longitude", VNum (23488 # 10000))]])].

Definition forecast_of (temp code : Q) : value :=
  VDict [("current", VDict [("temperature_2m", VNum temp); ("weather_code", VNum code)])].

(** A page text of [n] characters. *)
Definition page_of_length (n : nat) : string :=
  string_of_list_ascii (repeat "a"%char n).

(** The search yields these URLs; the page at a URL is looked up in
    [pages], and the request fails when the URL is not listed. *)
Definition search_service (urls : list string) (pages : list (string * string)) : env :=
  instant (fun _ => None)
    (fun w =>
       match calls w with
       | HttpGet url :: _ =>
           match List.find (fun p => String.eqb (fst p) url) pages with
           | Some p => Some (snd p)
           | None => None
           end
       | _ => None
       end)
    urls (fun _ => None).

(** A tour plan with every field of the schema, as a service would write
    it. *)
Definition paris_plan_text : string :=
  Json.dq "{'city': 'Paris', 'weather': {'temperature': 22, 'condition': 'clear', 'dining': 'outdoor'}, 'iconic_dishes': ['Croissant', 'Steak frites', 'Crepe'], 'tour': {'breakfast': {'restaurant': 'Du Pain et des Idees', 'address': '34 Rue Yves Toudic', 'dish': 'Croissant', 'description': 'Flaky and warm.', 'weather_consideration': 'Eat it on the canal bank.'}, 'lunch': {'restaurant': 'Le Relais', 'address': '15 Rue Marbeuf', 'dish': 'Steak frites', 'description': 'With the house sauce.', 'weather_consideration': 'The terrace is open.'}, 'dinner': {'restaurant': 'Breizh Cafe', 'address': '109 Rue Vieille du Temple', 'dish': 'Crepe', 'description': 'Buckwheat, with cider.', 'weather_consideration': 'Mild enough to sit outside.'}}}".

Definition sunny : Tools.weather :=
  {| Tools.temperature := VNum 22; Tools.condition := "clear";
     Tools.recommendation := "outdoor" |}.

End Scenario.

(** ** tools.py: the dish scrape and the two formatters *)

Module ToolsRest.
Import Py World.
Local Open Scope py_scope.

(** [s.split(sep)] for a separator of one character. *)
Fixpoint split_on (sep : ascii) (s : string) : list string :=
  match s with
  | EmptyString => [EmptyString]
  | String a r =>
      if Ascii.eqb a sep then EmptyString :: split_on sep r
      else
        match split_on sep r with
        | piece :: pieces => String a piece :: pieces
        | [] => [String a EmptyString]
        end
  end.

Definition newline : ascii := "010"%char.

(** The separator of the dish snippets, a blank line. *)
Definition paragraph_break : string := String newline (String newline EmptyString).

(** What the snippets of both scrapes satisfy. *)
Definition bounded_snippet (s : string) : Prop := 200 < len s <= 2000.

(** What a reading of [get_weather] satisfies. *)
Definition sound_reading (r : Tools.weather) : Prop :=
  In (Tools.condition r) ["clear"; "cloudy"; "rainy"; "stormy"; "unknown"]
  /\ In (Tools.recommendation r) ["outdoor"; "indoor"]
  /\ (Tools.recommendation r = "outdoor" ->
      Tools.condition r = "clear"
      /\ exists q, as_number (Tools.temperature r) = Some q /\ (15 < q)%Q)
  /\ (Tools.condition r = "unknown" -> r = Tools.default_weather).

Section WithEnv.
Variable E : env.

(** [None] is the [None] of Python, [Some text] a [str]. *)
Definition scrape_top_dish_results (city : string) : M (option string) :=
  if negb (googlesearch_installed E) then ret None
  else
    let query := "famous traditional dishes in " +:+ city in
    request E (Search query) ;;
    snippets <- (fun w =>
                   let '(urls, raises) := search E w in
                   (* the same loop as in [scrape_restaurants_for_dish],
                      and the same [except] around it *)
                   Tools.scrape_urls E urls [] w) ;;
    match snippets with
    | _ :: _ => ret (Some (join paragraph_break snippets))
    | [] => ret None
    end.

(** The dict [format_weather_for_prompt] returns. *)
Definition format_weather_for_prompt (weather : Tools.weather) : value :=
  let dining_type :=
    if String.eqb (Tools.recommendation weather) "outdoor" then "outdoor" else "indoor" in
  VDict [("temperature", Tools.temperature weather);
         ("condition", VStr (Tools.condition weather));
         ("dining", VStr dining_type)].

(** [[line.strip() for line in lines if len(line.strip()) > 20][:5]] *)
Definition relevant_lines (lines : list string) : list string :=
  firstn 5 (map strip (List.filter (fun line => 20 <? len (strip line)) lines)).

(** The summary of one scraped text. *)
Definition restaurant_summary (restaurant_text : string) : string :=
  let lines := split_on newline restaurant_text in
  join " " (relevant_lines lines).

(** One pass of the loop of [format_restaurant_info_for_prompt]: the
    entry appended to [formatted]. *)
Definition formatted_entry (dish : value) (restaurants : list string) : string :=
  match restaurants with
  | _ :: _ =>
      let restaurant_summaries := map restaurant_summary (firstn 3 restaurants) in
      str E dish +:+ ": " +:+ join "; " restaurant_summaries
  | [] => str E dish +:+ ": No specific restaurants found"
  end.

(** The list [formatted] when the loop is over. *)
Definition formatted_entries (dishes : list value)
  (restaurant_infos : list (list string)) : list string :=
  map (fun p => formatted_entry (fst p) (snd p)) (combine dishes restaurant_infos).

Definition format_restaurant_info_for_prompt (dishes : list value)
  (restaurant_infos : list (list string)) : string :=
  join (String newline EmptyString) (formatted_entries dishes restaurant_infos).

End WithEnv.
End ToolsRest.

(** ** The two pipelines and their drivers *)

Module Pipeline.
Import Py World Julep.
Local Open Scope py_scope.

(** [asyncio.gather] over the tasks: the results in the order of the
    tasks, and the first exception when a task raises.  The tasks share
    one thread and take turns at their requests; here one runs after the
    other.  What the outside answers is a function of the whole history in
    either case, so the answers of an interleaved run are those of a run
    in sequence against another environment. *)
Fixpoint gather {A : Type} (tasks : list (M A)) : M (list A) :=
  match tasks with
  | [] => ret []
  | task :: tasks' =>
      a <- task ;;
      rest <- gather tasks' ;;
      ret (a :: rest)
  end.

(** [[c.strip() for c in city_input.split(',') if c.strip()]], behind
    [if city_input:]. *)
Definition selected_cities (city_input : string) : list string :=
  if String.eqb city_input "" then []
  else
    map strip
      (List.filter (fun c => negb (String.eqb (strip c) ""))
         (ToolsRest.split_on "," city_input)).

Section WithEnv.
Variable json_loads : string -> option value.
Variable E : env.

(** The restaurant step both pipelines share:
    [try: restaurant_infos = await asyncio.gather(...)
     except Exception: restaurant_infos = [[] for _ in dishes]] *)
Definition restaurant_step (city : string) (dishes : list value)
  : M (list (list string)) :=
  try_except
    (gather (map (fun dish => Tools.scrape_restaurants_for_dish E city (str E dish))
                 dishes))
    (ret (map (fun _ => []) dishes)).

(** main.py *)
Definition run_workflow (fuel : nat) (city : string) : M value :=
  weather <- Tools.get_weather E city ;;
  dish_text <- ToolsRest.scrape_top_dish_results E city ;;
  dishes <- Main.run_workflow_dishes json_loads E fuel city dish_text ;;
  restaurant_infos <- restaurant_step city dishes ;;
  tour_result <- Main.generate_foodie_tour json_loads E fuel city weather dishes
                   restaurant_infos ;;
  if truthy tour_result then ret tour_result else ret VNone.

(** final-ui.py *)
Definition process_city (fuel : nat) (city : string) : M value :=
  weather <- Tools.get_weather E city ;;
  dish_text <- ToolsRest.scrape_top_dish_results E city ;;
  dishes <- FinalUI.extract_dishes_from_text json_loads E fuel city dish_text ;;
  restaurant_infos <- restaurant_step city dishes ;;
  FinalUI.generate_tour json_loads E fuel city weather dishes restaurant_infos.

(** The loop of [run_all] in main.py: [results] when it is over. *)
Fixpoint run_cities (fuel : nat) (cities : list string) (results : list value)
  : M (list value) :=
  match cities with
  | [] => ret results
  | city :: cities' =>
      result <- run_workflow fuel city ;;
      run_cities fuel cities'
        (if truthy result then results ++ [result] else results)
  end.

Definition cities : list string := ["London"; "Paris"; "Tokyo"].

(** [run_all]: the object it dumps to [foodie_tours.json], [None] when it
    writes no file. *)
Definition run_all (fuel : nat) : M (option value) :=
  results <- run_cities fuel cities [] ;;
  match results with
  | _ :: _ => ret (Some (VDict [("foodie_tours", VList results)]))
  | [] => ret None
  end.

(** The loop behind the button of final-ui.py:
    [st.session_state.tour_results] when it is over. *)
Fixpoint generate_tours (fuel : nat) (selected : list string) (tour_results : list value)
  : M (list value) :=
  match selected with
  | [] => ret tour_results
  | city :: selected' =>
      tour_results' <-
        try_except
          (result <- process_city fuel city ;;
           if truthy result then ret (tour_results ++ [result]) else ret tour_results)
          (ret tour_results) ;;
      time_sleep E 1 ;;
      generate_tours fuel selected' tour_results'
  end.

End WithEnv.

(** How a city went through a pipeline from [w] to [w']: the stages that
    ran, and what each handed on. *)
Definition staged (E : env)
  (dishes_of : option string -> M (list value))
  (tour_of : Tools.weather -> list value -> list (list string) -> M value)
  (city : string) (w w' : world) (tour : value) : Prop :=
  exists weather dish_text dishes restaurant_infos w1 w2 w3 w4,
    Tools.get_weather E city w = (Ret weather, w1)
    /\ ToolsRest.scrape_top_dish_results E city w1 = (Ret dish_text, w2)
    /\ dishes_of dish_text w2 = (Ret dishes, w3)
    /\ List.length dishes = 3%nat
    /\ restaurant_step E city dishes w3 = (Ret restaurant_infos, w4)
    /\ List.length restaurant_infos = 3%nat
    /\ Forall (Forall ToolsRest.bounded_snippet) restaurant_infos
    /\ tour_of weather dishes restaurant_infos w4 = (Ret tour, w').

End Pipeline.

(** ** final-ui.py: the two renderers of the download section

    [str.capitalize] and the date [datetime.now().strftime('%B %d, %Y')]
    come from the standard library and the clock of the day: they are
    arguments.  The degree sign of the literals stands as the bytes of its
    UTF-8 encoding. *)

Module Render.
Import Py World.
Local Open Scope py_scope.

Definition nl : string := String "010" EmptyString.

Definition meal_types : list string := ["breakfast"; "lunch"; "dinner"].

(** What a [for] loop, or [join], visits in a value. *)
Definition iterate (v : value) : pyres (list value) :=
  match v with
  | VList l => Ret l
  | VDict d => Ret (map (fun kv => VStr (fst kv)) d)
  | VStr s => Ret (map (fun c => VStr (String c EmptyString)) (list_ascii_of_string s))
  | _ => Raise "TypeError"
  end.

(** The items as the strings [sep.join] wants. *)
Fixpoint strings_of (items : list value) : pyres (list string) :=
  match items with
  | [] => Ret []
  | VStr s :: items' => rest <~ strings_of items' ;; Ret (s :: rest)
  | _ :: _ => Raise "TypeError"
  end.

(** [sep.join(v)] *)
Definition join_value (sep : string) (v : value) : pyres string :=
  items <~ iterate v ;;
  strings <~ strings_of items ;;
  Ret (join sep strings).

(** [v.capitalize()] *)
Definition capitalized (capitalize : string -> string) (v : value) : pyres string :=
  match v with
  | VStr s => Ret (capitalize s)
  | _ => Raise "AttributeError"
  end.

(** A loop that appends the lines of each element to [lines]. *)
Fixpoint extend_each {A : Type} (f : A -> pyres (list string)) (l : list A)
  (lines : list string) : pyres (list string) :=
  match l with
  | [] => Ret lines
  | x :: l' => more <~ f x ;; extend_each f l' (lines ++ more)
  end.

(** A loop that appends the text of each element to [text]. *)
Fixpoint append_each {A : Type} (f : A -> pyres string) (l : list A)
  (text : string) : pyres string :=
  match l with
  | [] => Ret text
  | x :: l' => more <~ f x ;; append_each f l' (text +:+ more)
  end.

(** What the schema gives the renderers to read. *)
Record readable (tour : value) : Prop := {
  has_city : exists s, getitem tour "city" = Ret (VStr s);
  has_weather :
    exists weather temperature condition dining,
      getitem tour "weather" = Ret weather
      /\ getitem weather "temperature" = Ret temperature
      /\ getitem weather "condition" = Ret (VStr condition)
      /\ getitem weather "dining" = Ret (VStr dining);
  has_dishes :
    exists a b c, getitem tour "iconic_dishes" = Ret (VList [VStr a; VStr b; VStr c]);
  has_meals :
    exists meals,
      getitem tour "tour" = Ret meals
      /\ Forall (fun meal_type =>
                   exists meal r a d t c,
                     getitem meals meal_type = Ret meal
                     /\ getitem meal "restaurant" = Ret (VStr r)
                     /\ getitem meal "address" = Ret (VStr a)
                     /\ getitem meal "dish" = Ret (VStr d)
                     /\ getitem meal "description" = Ret (VStr t)
                     /\ getitem meal "weather_consideration" = Ret (VStr c))
           meal_types
}.

Section WithEnv.
Variable capitalize : string -> string.
Variable generated_on : string.
Variable E : env.

(** *** [create_text_content] *)

(** The lines one pass of the inner loop appends. *)
Definition text_meal_lines (tour : value) (meal_type : string) : pyres (list string) :=
  meals <~ getitem tour "tour" ;;
  meal <~ getitem meals meal_type ;;
  restaurant <~ getitem meal "restaurant" ;;
  address <~ getitem meal "address" ;;
  dish <~ getitem meal "dish" ;;
  description <~ getitem meal "description" ;;
  consideration <~ getitem meal "weather_consideration" ;;
  Ret [ "    " +:+ capitalize meal_type +:+ ":";
        "      Restaurant: " +:+ str E restaurant;
        "      Address: " +:+ str E address;
        "      Dish: " +:+ str E dish;
        "      Description: " +:+ str E description;
        "      Weather Consideration: " +:+ str E consideration ].

(** The lines one pass of the outer loop appends. *)
Definition text_tour_lines (tour : value) : pyres (list string) :=
  city <~ getitem tour "city" ;;
  weather <~ getitem tour "weather" ;;
  dishes <~ getitem tour "iconic_dishes" ;;
  condition <~ getitem weather "condition" ;;
  condition' <~ capitalized capitalize condition ;;
  temperature <~ getitem weather "temperature" ;;
  dining <~ getitem weather "dining" ;;
  dining' <~ capitalized capitalize dining ;;
  joined <~ join_value ", " dishes ;;
  meals <~ extend_each (text_meal_lines tour) meal_types [] ;;
  Ret ([ "City: " +:+ str E city;
         "  Weather: " +:+ condition' +:+ ", " +:+ str E temperature +:+ "°C, "
           +:+ dining' +:+ " dining";
         "  Iconic Dishes: " +:+ joined;
         "  Daily Itinerary:" ]
        ++ meals ++ [ EmptyString ]).

Definition create_text_content (tours : list value) : pyres string :=
  lines <~ extend_each text_tour_lines tours
             [ "PalatePilot Tour Guide" +:+ nl +:+ "Generated on " +:+ generated_on
               +:+ nl +:+ nl ] ;;
  Ret (join nl lines).

(** *** [create_markdown_content] *)

(** The text one pass of the inner loop appends. *)
Definition markdown_meal (tour : value) (meal_type : string) : pyres string :=
  meals <~ getitem tour "tour" ;;
  meal <~ getitem meals meal_type ;;
  restaurant <~ getitem meal "restaurant" ;;
  address <~ getitem meal "address" ;;
  dish <~ getitem meal "dish" ;;
  description <~ getitem meal "description" ;;
  consideration <~ getitem meal "weather_consideration" ;;
  Ret (join nl
         [ "#### " +:+ capitalize meal_type;
           "";
           "**Restaurant**: " +:+ str E restaurant +:+ "  ";
           "**Address**: " +:+ str E address +:+ "  ";
           "**Dish**: " +:+ str E dish +:+ "  ";
           "";
           "**Description**: " +:+ str E description;
           "";
           "**Weather Consideration**: " +:+ str E consideration;
           "";
           "---";
           "";
           "" ]).

(** The text one pass of the outer loop appends. *)
Definition markdown_tour (tour : value) : pyres string :=
  city <~ getitem tour "city" ;;
  weather <~ getitem tour "weather" ;;
  dishes <~ getitem tour "iconic_dishes" ;;
  temperature <~ getitem weather "temperature" ;;
  condition <~ getitem weather "condition" ;;
  condition' <~ capitalized capitalize condition ;;
  dining <~ getitem weather "dining" ;;
  dining' <~ capitalized capitalize dining ;;
  items <~ iterate dishes ;;
  let bold := map (fun dish => "**" +:+ str E dish +:+ "**") items in
  let header :=
    join nl
      [ "## " +:+ str E city +:+ " PalatePilot Tour";
        "";
        "### Weather Information";
        "- **Temperature**: " +:+ str E temperature +:+ "°C";
        "- **Condition**: " +:+ condition';
        "- **Dining Recommendation**: " +:+ dining';
        "";
        "### Iconic Dishes";
        join ", " bold;
        "";
        "### Daily Itinerary";
        "";
        "" ] in
  append_each (markdown_meal tour) meal_types header.

Definition create_markdown_content (tours : list value) : pyres string :=
  append_each markdown_tour tours
    (join nl
       [ "# PalatePilot Tour Guide";
         "*Generated on " +:+ generated_on +:+ "*";
         "";
         "---";
         "";
         "" ]).

End WithEnv.
End Render.

(** * Properties *)

(** ** The polling loop *)

Module PollingFacts.
Import Py World Julep.

Lemma rounds_snoc (n : nat) (l : list event) :
  rounds n ++ Sleep 2 :: ExecutionsGet :: l = rounds (S n) ++ l.
Proof.
  induction n as [|n IH]; [reflexivity|].
  change (rounds (S n)) with (Sleep 2 :: ExecutionsGet :: rounds n) at 1.
  rewrite <- !app_comm_cons, IH. reflexivity.
Qed.

Lemma rounds_gets (n : nat) : List.length (List.filter is_get (rounds n)) = n.
Proof. induction n; simpl; auto. Qed.

Lemma rounds_creates (n : nat) : List.filter is_create (rounds n) = [].
Proof. induction n; simpl; auto. Qed.

Lemma rounds_sleeps (n : nat) :
  Forall (fun e => is_sleep e = true -> e = Sleep 2) (rounds n).
Proof.
  induction n as [|n IH]; simpl; [apply List.Forall_nil|].
  apply List.Forall_cons; [reflexivity|].
  apply List.Forall_cons; [discriminate|exact IH].
Qed.

Section WithEnv.
Variable E : env.

Lemma request_calls (e : event) (w : world) :
  exists w', request E e w = (Ret tt, w')
             /\ calls w' = e :: calls w /\ clock w <= clock w'.
Proof.
  eexists; split; [reflexivity|]. simpl. split; [reflexivity|lia].
Qed.

Lemma time_sleep_calls (s : Z) (w : world) :
  exists w', time_sleep E s w = (Ret tt, w')
             /\ calls w' = Sleep s :: calls w
             /\ clock w + 1000 * s <= clock w'.
Proof.
  eexists; split; [reflexivity|]. simpl. split; [reflexivity|lia].
Qed.

Lemma executions_get_call_spec (w : world) :
  exists r w', executions_get_call E w = (r, w')
    /\ calls w' = ExecutionsGet :: calls w /\ clock w <= clock w'
    /\ match r with
       | Ret x => executions_get E w' = Some x
       | Raise _ => executions_get E w' = None
       | OutOfFuel => False
       end.
Proof.
  unfold executions_get_call, bind.
  destruct (request_calls ExecutionsGet w) as (w1 & -> & Hc & Ht).
  destruct (executions_get E w1) as [x|] eqn:Hx;
    eexists _, w1; (split; [reflexivity|]); auto.
Qed.

Lemma polls_pending_step (w w1 w2 : world) (x : execution) (n : nat) :
  calls w1 = ExecutionsGet :: calls w ->
  executions_get E w1 = Some x -> terminal (status x) = false ->
  calls w2 = Sleep 2 :: calls w1 ->
  polls_pending E (calls w2) n ->
  polls_pending E (calls w) (S n).
Proof.
  intros Hc1 Hx Hterm Hc2 Hpend [|i] Hi.
  - exists w1, x. auto.
  - destruct (Hpend i) as (wi & xi & Hci & Hxi & Hti); [lia|].
    exists wi, xi. repeat split; auto.
    rewrite Hci, Hc2, Hc1. rewrite rounds_snoc. reflexivity.
Qed.

(** What one run of the loop does.  It always ends when the fuel covers
    the time left.  It goes through some number [n] of rounds, in each of
    which the poll is answered with a status that is not terminal, and
    ends in one of three ways: a further poll reports a terminal status, a
    further poll raises, or (after at least one round) the deadline has
    passed when the last sleep is over.  One round takes 2 seconds at
    least, which bounds [n] by the time left. *)
Lemma poll_execution_spec (timeout : Z) (fuel : nat) :
  forall w : world,
    (1 <= fuel)%nat ->
    timeout - clock w < 2000 * Z.of_nat fuel ->
    exists r w' n,
      poll_execution E timeout fuel w = (r, w')
      /\ clock w <= clock w'
      /\ polls_pending E (calls w) n
      /\ match r with
         | Ret (Some x) =>
             calls w' = ExecutionsGet :: rounds n ++ calls w
             /\ 2000 * Z.of_nat n <= Z.max 0 (timeout - clock w)
             /\ executions_get E w' = Some x
             /\ terminal (status x) = true
         | Ret None =>
             calls w' = rounds n ++ calls w
             /\ (1 <= n)%nat
             /\ 2000 * Z.of_nat n <= Z.max 0 (timeout - clock w) + 2000
             /\ timeout < clock w'
         | Raise _ =>
             calls w' = ExecutionsGet :: rounds n ++ calls w
             /\ 2000 * Z.of_nat n <= Z.max 0 (timeout - clock w)
             /\ executions_get E w' = None
         | OutOfFuel => False
         end.
Proof.
  induction fuel as [|f IH]; intros w Hf Ht; [lia|].
  simpl. unfold bind at 1.
  destruct (executions_get_call_spec w) as (r & w1 & -> & Hc1 & Hk1 & Hr).
  assert (Hnone : polls_pending E (calls w) 0) by (intros i Hi; lia).
  destruct r as [x|e|];
    [|exists (Raise e), w1, 0%nat; simpl; repeat split; auto; lia|contradiction].
  destruct (terminal (status x)) eqn:Hterm.
  - exists (Ret (Some x)), w1, 0%nat. simpl. repeat split; auto; lia.
  - unfold bind at 1.
    destruct (time_sleep_calls 2 w1) as (w2 & -> & Hc2 & Hk2).
    unfold bind, time_time.
    assert (Hone : polls_pending E (calls w) 1).
    { eapply polls_pending_step; eauto. intros i Hi; lia. }
    destruct (timeout <? clock w2) eqn:Hlate.
    + exists (Ret None), w2, 1%nat. simpl.
      rewrite Hc2, Hc1. apply Z.ltb_lt in Hlate.
      repeat split; auto; lia.
    + apply Z.ltb_ge in Hlate.
      destruct (IH w2) as (r & w3 & n & Hp & Hk3 & Hpend & Hres); [lia|lia|].
      exists r, w3, (S n). rewrite Hp.
      split; [reflexivity|]. split; [lia|].
      split; [eapply polls_pending_step; eauto|].
      destruct r as [[y|]|e|]; auto.
      * destruct Hres as (Hc3 & Hb & Hy & Hty). repeat split; auto; try lia.
        rewrite Hc3, Hc2, Hc1, rounds_snoc. reflexivity.
      * destruct Hres as (Hc3 & Hn & Hb & Hlt). repeat split; auto; try lia.
        rewrite Hc3, Hc2, Hc1, rounds_snoc. reflexivity.
      * destruct Hres as (Hc3 & Hb & Hy). repeat split; auto; try lia.
        rewrite Hc3, Hc2, Hc1, rounds_snoc. reflexivity.
Qed.

(** More fuel than needed changes nothing. *)
Lemma poll_execution_more_fuel (timeout : Z) (fuel : nat) :
  forall (w : world) r w',
    poll_execution E timeout fuel w = (r, w') ->
    r <> OutOfFuel ->
    forall fuel', (fuel <= fuel')%nat ->
    poll_execution E timeout fuel' w = (r, w').
Proof.
  induction fuel as [|f IH]; intros w r w' Hp Hr fuel' Hle.
  - simpl in Hp. inversion Hp; subst. congruence.
  - destruct fuel' as [|f']; [lia|].
    simpl in *. unfold bind at 1 in Hp. unfold bind at 1.
    destruct (executions_get_call E w) as [[x|e|] w1]; auto.
    destruct (terminal (status x)); auto.
    unfold bind at 1 in Hp. unfold bind at 1.
    destruct (time_sleep E 2 w1) as [[[]|e|] w2]; auto.
    unfold bind at 1 in Hp. unfold bind at 1.
    destruct (time_time w2) as [[now|e|] w3]; auto.
    destruct (timeout <? now); auto.
    apply IH; auto. lia.
Qed.

(** The shape all four callers share: create the task and the execution,
    poll until the deadline [secs] seconds ahead, turn what the loop left
    into the result with [after], and answer [d] to any exception. *)
Lemma run_spec {A : Type} (prompt : string) (input : value) (secs : Z)
  (after : option execution -> M A) (f : option execution -> pyres A)
  (d : A) (fuel : nat) (w : world) :
  (forall p w1, after p w1 = (f p, w1)) ->
  (forall p, f p <> OutOfFuel) ->
  0 <= secs -> 1000 * secs < 2000 * Z.of_nat fuel ->
  exists a w' n started,
    let created := ExecutionsCreate input :: TasksCreate prompt :: calls w in
    try_except
      (tasks_create E prompt ;;
       executions_create E input ;;
       now <- time_time ;;
       polled <- poll_execution E (now + 1000 * secs) fuel ;;
       after polled)%py
      (ret d) w = (Ret a, w')
    /\ clock w <= started <= clock w'
    /\ polls_pending E created n
    /\ ((calls w' = rounds n ++ created
         /\ (1 <= n)%nat /\ 2000 * Z.of_nat n <= 1000 * secs + 2000
         /\ started + 1000 * secs < clock w'
         /\ (f None = Ret a \/ (exists e, f None = Raise e) /\ a = d))
        \/ (exists x, calls w' = ExecutionsGet :: rounds n ++ created
                      /\ 2000 * Z.of_nat n <= 1000 * secs
                      /\ executions_get E w' = Some x
                      /\ terminal (status x) = true
                      /\ (f (Some x) = Ret a
                          \/ (exists e, f (Some x) = Raise e) /\ a = d))
        \/ (a = d
            /\ (calls w' = TasksCreate prompt :: calls w
                   /\ tasks_create_ok E w' = false
                \/ calls w' = created /\ executions_create_ok E w' = false
                \/ calls w' = ExecutionsGet :: rounds n ++ created
                   /\ 2000 * Z.of_nat n <= 1000 * secs
                   /\ executions_get E w' = None))).
Proof.
  intros Hafter Hf Hsecs Hfuel.
  assert (Hnone : forall base, polls_pending E base 0) by (intros base i Hi; lia).
  unfold try_except, tasks_create, executions_create.
  unfold bind at 1. unfold bind at 1.
  destruct (request_calls (TasksCreate prompt) w) as (w1 & -> & Hc1 & Hk1).
  destruct (tasks_create_ok E w1) eqn:Ht.
  2:{ exists d, w1, 0%nat, (clock w). simpl.
      repeat split; auto; try lia. right. right. auto. }
  unfold bind at 1. unfold bind at 1.
  destruct (request_calls (ExecutionsCreate input) w1) as (w2 & -> & Hc2 & Hk2).
  rewrite Hc1 in Hc2.
  destruct (executions_create_ok E w2) eqn:Hx.
  2:{ exists d, w2, 0%nat, (clock w). simpl.
      repeat split; auto; try lia. right. right. auto. }
  unfold bind at 1. unfold time_time at 1.
  unfold bind at 1.
  destruct (poll_execution_spec (clock w2 + 1000 * secs) fuel w2)
    as (r & w3 & n & -> & Hk3 & Hpend & Hres); [lia|lia|].
  rewrite Hc2 in Hpend, Hres.
  replace (Z.max 0 (clock w2 + 1000 * secs - clock w2)) with (1000 * secs) in Hres by lia.
  destruct r as [p|e|]; [|destruct Hres as (Hc3 & Hb & Hnone')|contradiction].
  - rewrite Hafter. specialize (Hf p).
    destruct p as [x|].
    + destruct Hres as (Hc3 & Hb & Hget & Hterm).
      destruct (f (Some x)) as [a|e|] eqn:Hfp; [| |congruence].
      * exists a, w3, n, (clock w2). simpl. repeat split; auto; try lia.
        right. left. exists x. repeat split; auto.
      * exists d, w3, n, (clock w2). simpl. repeat split; auto; try lia.
        right. left. exists x. repeat split; auto. right. split; eauto.
    + destruct Hres as (Hc3 & Hn & Hb & Hlate).
      destruct (f None) as [a|e|] eqn:Hfp; [| |congruence].
      * exists a, w3, n, (clock w2). simpl. repeat split; auto; try lia.
        left. repeat split; auto; lia.
      * exists d, w3, n, (clock w2). simpl. repeat split; auto; try lia.
        left. repeat split; auto; try lia. right. split; eauto.
  - exists d, w3, n, (clock w2). simpl. repeat split; auto; try lia.
    right. right. split; auto.
Qed.

End WithEnv.
End PollingFacts.

(** ** Strings *)

Module StrFacts.
Import Py.

Lemma append_nil (b : string) : EmptyString +:+ b = b.
Proof. reflexivity. Qed.

Lemma append_cons (x : ascii) (a b : string) :
  String x a +:+ b = String x (a +:+ b).
Proof. reflexivity. Qed.

Ltac sapp := rewrite ?append_cons, ?append_nil.

Lemma append_assoc (a b c : string) : (a +:+ b) +:+ c = a +:+ (b +:+ c).
Proof. induction a as [|x a IH]; sapp; [reflexivity|]. f_equal. exact IH. Qed.

Lemma append_empty_r (a : string) : a +:+ EmptyString = a.
Proof. induction a as [|x a IH]; sapp; [reflexivity|]. f_equal. exact IH. Qed.

Lemma substring_0_length (n : nat) (s : string) :
  String.length (String.substring 0 n s) = Nat.min n (String.length s).
Proof.
  revert n. induction s as [|c s IH]; intros [|n]; simpl; auto.
Qed.

(** [len(s[:n])] is [min(n, len(s))]. *)
Lemma len_slice_to (s : string) (n : Z) :
  0 <= n -> len (slice_to s n) = Z.min n (len s).
Proof.
  intros Hn. unfold slice_to, slice, clamp, len.
  set (L := Z.of_nat (String.length s)).
  assert (HL : 0 <= L) by (unfold L; lia).
  replace (0 <? 0) with false by reflexivity.
  destruct (n <? 0) eqn:Hneg; [apply Z.ltb_lt in Hneg; lia|].
  replace (Z.to_nat (Z.max 0 (Z.min L 0))) with 0%nat by lia.
  rewrite substring_0_length. unfold L. lia.
Qed.

(** Trailing whitespace goes. *)
Lemma rstrip_app_space (s : string) (c : ascii) :
  isspace c = true -> rstrip (s +:+ String c EmptyString) = rstrip s.
Proof.
  intros Hc. induction s as [|a s IH]; sapp; cbn [rstrip].
  - rewrite Hc. reflexivity.
  - rewrite IH. reflexivity.
Qed.

(** A text that ends in something [rstrip] keeps is kept whole. *)
Lemma rstrip_keep (s t : string) :
  rstrip t = t -> t <> EmptyString -> rstrip (s +:+ t) = s +:+ t.
Proof.
  intros Ht Hne. induction s as [|a s IH]; sapp; cbn [rstrip]; [exact Ht|].
  rewrite IH. destruct (s +:+ t) eqn:Hst; [|reflexivity].
  destruct s; rewrite ?append_cons, ?append_nil in Hst; [congruence|discriminate].
Qed.

Lemma prefix_other (c a : ascii) (old s : string) :
  Ascii.eqb a c = false -> String.prefix (String c old) (String a s) = false.
Proof.
  intros Hac. simpl. destruct (ascii_dec c a) as [->|]; [|reflexivity].
  rewrite Ascii.eqb_refl in Hac. discriminate.
Qed.

(** [replace] copies a stretch that lacks the first character of [old]. *)
Lemma replace_aux_lacks (c : ascii) (old new s t : string) :
  lacks c s = true ->
  replace_aux (String c old) new (s +:+ t) 0
  = s +:+ replace_aux (String c old) new t 0.
Proof.
  induction s as [|a s IH]; intros Hs; [reflexivity|].
  simpl in Hs. apply andb_true_iff in Hs. destruct Hs as [Ha Hs].
  apply negb_true_iff in Ha.
  sapp. cbn [replace_aux]. rewrite (prefix_other c a old (s +:+ t) Ha).
  rewrite IH by assumption. reflexivity.
Qed.

End StrFacts.

(** ** Code fences *)

Module FenceFacts.
Import Py Julep StrFacts.

Lemma lstrip_length (s : string) :
  (String.length (lstrip s) <= String.length s)%nat.
Proof. induction s as [|c s IH]; simpl; [lia|]. destruct (isspace c); simpl; lia. Qed.

(** A text that [lstrip] keeps starts with a character that is no space. *)
Lemma lstrip_fixed (c : ascii) (s : string) :
  lstrip (String c s) = String c s -> isspace c = false.
Proof.
  simpl. destruct (isspace c); [|reflexivity]. intros H.
  pose proof (lstrip_length s) as Hl. rewrite H in Hl. simpl in Hl. lia.
Qed.

Lemma lstrip_app (s t : string) :
  lstrip s = s -> s <> EmptyString -> lstrip (s +:+ t) = s +:+ t.
Proof.
  destruct s as [|c s]; [congruence|]. intros H _.
  sapp. cbn [lstrip]. rewrite (lstrip_fixed c s H). reflexivity.
Qed.

Section Body.
Variable body : string.
Hypothesis body_lacks : lacks "`" body = true.
Hypothesis body_lstrip : lstrip body = body.
Hypothesis body_rstrip : rstrip body = body.
Hypothesis body_some : body <> EmptyString.

Lemma strip_between_newlines : strip (nl +:+ body +:+ nl) = body.
Proof.
  unfold strip, nl. sapp. cbn [lstrip].
  replace (isspace "010") with true by reflexivity.
  rewrite lstrip_app by assumption.
  rewrite rstrip_app_space by reflexivity. exact body_rstrip.
Qed.

Lemma strip_fenced (opening : string) (c : ascii) :
  isspace c = false ->
  strip (Main.fenced (String c opening) body) = Main.fenced (String c opening) body.
Proof.
  intros Hc. unfold strip, Main.fenced. sapp. cbn [lstrip]. rewrite Hc.
  rewrite <- append_cons, <- !append_assoc.
  apply rstrip_keep; [reflexivity|discriminate].
Qed.

Lemma replace_opening_gone (old : string) :
  replace_aux (String "`" old) "" (nl +:+ body +:+ nl +:+ "```") 0
  = nl +:+ body +:+ replace_aux (String "`" old) "" (nl +:+ "```") 0.
Proof.
  unfold nl at 1 2. sapp. cbn [replace_aux].
  rewrite prefix_other by reflexivity.
  rewrite replace_aux_lacks by assumption. reflexivity.
Qed.

Lemma clean_content_json_fence :
  Main.clean_content (Main.fenced "```json" body) = body.
Proof.
  unfold Main.clean_content.
  rewrite (strip_fenced "``json" "`") by reflexivity.
  replace (startswith (Main.fenced "```json" body) "```json") with true by reflexivity.
  replace (replace (Main.fenced "```json" body) "```json" "")
    with (nl +:+ body +:+ nl +:+ "```").
  2:{ unfold replace, Main.fenced.
      change (replace_aux "```json" "" ("```json" +:+ nl +:+ body +:+ nl +:+ "```") 0)
        with (replace_aux "```json" "" (nl +:+ body +:+ nl +:+ "```") 0).
      rewrite replace_opening_gone. reflexivity. }
  unfold replace. rewrite replace_opening_gone.
  change (replace_aux "```" "" (nl +:+ "```") 0) with nl.
  apply strip_between_newlines.
Qed.

Lemma clean_content_plain_fence :
  Main.clean_content (Main.fenced "```" body) = body.
Proof.
  unfold Main.clean_content.
  rewrite (strip_fenced "``" "`") by reflexivity.
  replace (startswith (Main.fenced "```" body) "```json") with false by reflexivity.
  replace (startswith (Main.fenced "```" body) "```") with true by reflexivity.
  unfold replace, Main.fenced.
  change (replace_aux "```" "" ("```" +:+ nl +:+ body +:+ nl +:+ "```") 0)
    with (replace_aux "```" "" (nl +:+ body +:+ nl +:+ "```") 0).
  rewrite replace_opening_gone.
  change (replace_aux "```" "" (nl +:+ "```") 0) with nl.
  apply strip_between_newlines.
Qed.

Lemma clean_content_bare : Main.clean_content body = body.
Proof.
  unfold Main.clean_content, strip. rewrite body_lstrip, body_rstrip.
  destruct body as [|c b] eqn:Hb; [congruence|].
  simpl in body_lacks. apply andb_true_iff in body_lacks.
  destruct body_lacks as [Hc _]. apply negb_true_iff in Hc.
  unfold startswith. rewrite !prefix_other by assumption. reflexivity.
Qed.

End Body.
End FenceFacts.

(** ** Tour generation *)

Module TourFacts.
Import Py World Julep.

Section WithEnv.
Variable json_loads : string -> option value.
Variable E : env.

Lemma getitem_dict_get (item : value) (key : string) (v : value) :
  getitem item key = Ret v -> dict_get item key = Ret v.
Proof.
  destruct item; simpl; try discriminate.
  destruct (dict_lookup key d); congruence.
Qed.

Lemma is_reply_false_step (item : value) (items : list value) :
  has_role item -> is_reply item = false ->
  Main.final_json_of_items json_loads (item :: items)
  = Main.final_json_of_items json_loads items.
Proof.
  intros [role Hrole] Hrep. unfold is_reply in Hrep. simpl.
  rewrite Hrole in *. simpl.
  destruct (is_assistant role); auto.
  destruct item; try discriminate. simpl in *.
  destruct (dict_lookup "content" d); simpl in *; [|reflexivity].
  rewrite Hrep. reflexivity.
Qed.

(** Items without an assistant message with content are passed over. *)
Lemma final_json_skips (skipped items : list value) :
  Forall (fun m => has_role m /\ is_reply m = false) skipped ->
  Main.final_json_of_items json_loads (skipped ++ items)
  = Main.final_json_of_items json_loads items.
Proof.
  induction 1 as [|m l [Hr Hn] _ IH]; [reflexivity|].
  rewrite <- app_comm_cons, is_reply_false_step; auto.
Qed.

(** The first assistant message with text decides. *)
Lemma final_json_of_reply (item : value) (items : list value) (t : string) :
  getitem item "role" = Ret (VStr "assistant") ->
  getitem item "content" = Ret (VStr t) -> t <> EmptyString ->
  Main.final_json_of_items json_loads (item :: items)
  = Ret (match json_loads (Main.json_span t) with Some v => v | None => VNone end).
Proof.
  intros Hrole Hc Ht. simpl. rewrite Hrole. simpl.
  rewrite (getitem_dict_get _ _ _ Hc). simpl.
  apply String.eqb_neq in Ht. rewrite Ht. simpl. rewrite Hc. simpl.
  destruct (json_loads (Main.json_span t)); reflexivity.
Qed.

(** A value other than [None] comes out of the decoder, applied to the
    span of the first assistant message with content. *)
Lemma final_json_of_items_value (items : list value) (v : value) :
  Main.final_json_of_items json_loads items = Ret v -> v <> VNone ->
  exists skipped item rest t,
    items = skipped ++ item :: rest
    /\ Forall (fun m => has_role m /\ is_reply m = false) skipped
    /\ getitem item "role" = Ret (VStr "assistant")
    /\ getitem item "content" = Ret (VStr t)
    /\ t <> EmptyString
    /\ json_loads (Main.json_span t) = Some v.
Proof.
  induction items as [|item items IH]; intros Hv Hne; simpl in Hv.
  - inversion Hv. congruence.
  - destruct (getitem item "role") as [role| |] eqn:Hrole; simpl in Hv; try discriminate.
    assert (Hskip : is_reply item = false ->
              Main.final_json_of_items json_loads items = Ret v ->
              exists skipped item0 rest t,
                item :: items = skipped ++ item0 :: rest
                /\ Forall (fun m => has_role m /\ is_reply m = false) skipped
                /\ getitem item0 "role" = Ret (VStr "assistant")
                /\ getitem item0 "content" = Ret (VStr t)
                /\ t <> EmptyString
                /\ json_loads (Main.json_span t) = Some v).
    { intros Hrep Hrest.
      destruct (IH Hrest Hne) as (sk & it & rest & t & -> & Hall & H1 & H2 & H3 & H4).
      exists (item :: sk), it, rest, t. repeat split; auto.
      apply List.Forall_cons; auto. split; auto. exists role; auto. }
    destruct (is_assistant role) eqn:Has.
    + destruct (dict_get item "content") as [content| |] eqn:Hget; simpl in Hv;
        try discriminate.
      destruct (truthy content) eqn:Htr.
      * destruct (getitem item "content") as [text| |] eqn:Hc; simpl in Hv;
          try discriminate.
        rewrite (getitem_dict_get _ _ _ Hc) in Hget. inversion Hget; subst content.
        destruct text as [| | |t| |]; try (inversion Hv; congruence).
        destruct (json_loads (Main.json_span t)) as [v0|] eqn:Hl;
          [|inversion Hv; congruence].
        inversion Hv; subst v0.
        exists [], item, items, t. repeat split; auto.
        -- destruct role; try discriminate. simpl in Has.
           apply String.eqb_eq in Has. subst. exact Hrole.
        -- intros ->. discriminate.
      * apply Hskip; auto. unfold is_reply. rewrite Hrole, Hget, Has, Htr. reflexivity.
    + apply Hskip; auto. unfold is_reply. rewrite Hrole.
      destruct (dict_get item "content"); auto. rewrite Has. reflexivity.
Qed.

Lemma final_json_of_items_total (items : list value) :
  Main.final_json_of_items json_loads items <> OutOfFuel.
Proof.
  induction items as [|item items IH]; simpl; [discriminate|].
  destruct (getitem item "role") as [role| |] eqn:Hrole; simpl; try discriminate.
  - destruct (is_assistant role); auto.
    destruct (dict_get item "content") as [content| |] eqn:Hc; simpl; try discriminate.
    + destruct (truthy content); auto.
      destruct (getitem item "content") as [text| |] eqn:Hg; simpl; try discriminate.
      * destruct text; try discriminate.
        destruct (json_loads (Main.json_span s)); discriminate.
      * destruct item; simpl in Hg; try discriminate.
        destruct (dict_lookup "content" d); discriminate.
    + destruct item; simpl in Hc; try discriminate.
      destruct (dict_lookup "content" d); discriminate.
  - destruct item; simpl in Hrole; try discriminate.
    destruct (dict_lookup "role" d); discriminate.
Qed.

Lemma extract_final_json_total (out : value) :
  Main.extract_final_json_from_output json_loads out <> OutOfFuel.
Proof.
  unfold Main.extract_final_json_from_output.
  destruct out; simpl; try discriminate; apply final_json_of_items_total.
Qed.

Lemma tour_of_polled_total (p : option execution) : (Main.tour_of_polled json_loads) p <> OutOfFuel.
Proof.
  destruct p as [x|]; simpl; [|discriminate].
  destruct (String.eqb (status x) "succeeded"); [|discriminate].
  apply extract_final_json_total.
Qed.

(** A value other than [None] is the decoded span of the latest assistant
    message with content of a succeeded execution. *)
Lemma tour_of_polled_value (x : execution) (v : value) :
  (Main.tour_of_polled json_loads) (Some x) = Ret v -> v <> VNone ->
  exists earlier item later t,
    status x = "succeeded"
    /\ output x = VList (earlier ++ item :: later)
    /\ Forall (fun m => has_role m /\ is_reply m = false) later
    /\ getitem item "role" = Ret (VStr "assistant")
    /\ getitem item "content" = Ret (VStr t)
    /\ json_loads (Main.json_span t) = Some v.
Proof.
  simpl. intros Hv Hne.
  destruct (String.eqb (status x) "succeeded") eqn:Hs; [|inversion Hv; congruence].
  apply String.eqb_eq in Hs.
  unfold Main.extract_final_json_from_output in Hv.
  destruct (reversed (output x)) as [items| |] eqn:Hrev; simpl in Hv; try discriminate.
  destruct (final_json_of_items_value items v Hv Hne)
    as (sk & item & rest & t & Hitems & Hall & Hrole & Hc & _ & Hl).
  destruct (output x) as [| | | |l|d] eqn:Hout; simpl in Hrev; try discriminate.
  - (* a str: its items are characters, which have no role *)
    inversion Hrev as [Hi]. rewrite Hitems in Hi.
    assert (Hin : In item (rev (map (fun c => VStr (String c EmptyString))
                                    (list_ascii_of_string s)))).
    { rewrite Hi. apply in_or_app. right. left. reflexivity. }
    apply in_rev, in_map_iff in Hin. destruct Hin as (c & <- & _). discriminate.
  - inversion Hrev as [Hi]. rewrite Hitems in Hi.
    exists (rev rest), item, (rev sk), t.
    repeat split; auto.
    + rewrite <- (rev_involutive l), Hi, rev_app_distr. simpl.
      rewrite <- app_assoc. reflexivity.
    + apply List.Forall_rev. exact Hall.
  - (* a dict: its items are keys, which have no role *)
    inversion Hrev as [Hi]. rewrite Hitems in Hi.
    assert (Hin : In item (rev (map (fun kv : string * value => VStr (fst kv)) d))).
    { rewrite Hi. apply in_or_app. right. left. reflexivity. }
    apply in_rev, in_map_iff in Hin. destruct Hin as (c & <- & _). discriminate.
Qed.

(** The latest assistant message with text of a succeeded execution
    decides the result. *)
Lemma tour_of_polled_reply (x : execution) (earlier later : list value)
  (item : value) (t : string) :
  status x = "succeeded" ->
  output x = VList (earlier ++ item :: later) ->
  Forall (fun m => has_role m /\ is_reply m = false) later ->
  getitem item "role" = Ret (VStr "assistant") ->
  getitem item "content" = Ret (VStr t) -> t <> EmptyString ->
  (Main.tour_of_polled json_loads) (Some x)
  = Ret (match json_loads (Main.json_span t) with Some v => v | None => VNone end).
Proof.
  intros Hs Hout Hall Hrole Hc Ht. simpl. rewrite Hs. simpl.
  unfold Main.extract_final_json_from_output. rewrite Hout. simpl.
  rewrite rev_app_distr. simpl. rewrite <- app_assoc. simpl.
  rewrite final_json_skips by (apply List.Forall_rev; exact Hall).
  apply final_json_of_reply; auto.
Qed.

(** Both tour generators, as one statement about their common shape. *)
Lemma tour_run_spec (prompt : string) (input : value) (fuel : nat) (w : world) :
  (31 <= fuel)%nat ->
  exists v w',
    try_except
      (tasks_create E prompt ;;
       executions_create E input ;;
       now <- time_time ;;
       polled <- poll_execution E (now + 1000 * 60) fuel ;;
       match polled with
       | None => ret VNone
       | Some result =>
           if String.eqb (status result) "succeeded"
           then lift (Main.extract_final_json_from_output json_loads (output result))
           else ret VNone
       end)%py
      (ret VNone) w = (Ret v, w')
    /\ (v <> VNone ->
        exists x earlier item later t,
          hd_error (calls w') = Some ExecutionsGet
          /\ executions_get E w' = Some x
          /\ status x = "succeeded"
          /\ output x = VList (earlier ++ item :: later)
          /\ Forall (fun m => has_role m /\ is_reply m = false) later
          /\ getitem item "role" = Ret (VStr "assistant")
          /\ getitem item "content" = Ret (VStr t)
          /\ json_loads (Main.json_span t) = Some v)
    /\ (forall x earlier item later t,
          hd_error (calls w') = Some ExecutionsGet ->
          executions_get E w' = Some x ->
          status x = "succeeded" ->
          output x = VList (earlier ++ item :: later) ->
          Forall (fun m => has_role m /\ is_reply m = false) later ->
          getitem item "role" = Ret (VStr "assistant") ->
          getitem item "content" = Ret (VStr t) -> t <> EmptyString ->
          v = match json_loads (Main.json_span t) with
              | Some v0 => v0
              | None => VNone
              end).
Proof.
  intros Hfuel.
  destruct (PollingFacts.run_spec E prompt input 60
              (fun polled =>
                 match polled with
                 | None => ret VNone
                 | Some result =>
                     if String.eqb (status result) "succeeded"
                     then lift (Main.extract_final_json_from_output json_loads
                                  (output result))
                     else ret VNone
                 end)
              (Main.tour_of_polled json_loads) VNone fuel w)
    as (v & w' & n & started & Hrun & _ & _ & Hout).
  { intros [x|] w1; simpl; [|reflexivity].
    destruct (String.eqb (status x) "succeeded"); reflexivity. }
  { apply tour_of_polled_total. }
  { lia. }
  { lia. }
  exists v, w'. split; [exact Hrun|].
  split.
  - intros Hne.
    destruct Hout as [(_ & _ & _ & _ & [Hn|[_ Hn]])
                     |[(x & Hc & _ & Hget & _ & [Hx|[_ Hx]])|[Hd _]]];
      try congruence.
    + inversion Hn. congruence.
    + destruct (tour_of_polled_value x v Hx Hne)
        as (earlier & item & later & t & H1 & H2 & H3 & H4 & H5 & H6).
      exists x, earlier, item, later, t. rewrite Hc. repeat split; auto.
  - intros x earlier item later t Hlast Hget Hs Ho Hall Hrole Hc Ht.
    destruct Hout as [(Hh & Hn & _)
                     |[(x' & _ & _ & Hget' & _ & Hx)
                      |(_ & [[Hh _]|[[Hh _]|(_ & _ & Hn)]])]];
      try (rewrite Hh in Hlast; simpl in Hlast; congruence); try congruence.
    + rewrite Hh in Hlast. destruct n; [lia|]. simpl in Hlast. congruence.
    + assert (x' = x) by congruence. subst x'.
      rewrite (tour_of_polled_reply x earlier later item t) in Hx by assumption.
      destruct Hx as [Hx|[[e Hx] _]]; [congruence|discriminate].
Qed.

End WithEnv.

End TourFacts.

(** ** Dish extraction *)

Module DishFacts.
Import Py World Julep.

Section WithEnv.
Variable json_loads : string -> option value.
Variable E : env.

Lemma dishes_of_content_length (c : value) (l : list value) :
  Main.dishes_of_content json_loads c = Some l -> List.length l = 3%nat.
Proof.
  unfold Main.dishes_of_content. destruct c; try discriminate.
  destruct (json_loads (Main.clean_content s)) as [[| | | |ds|]|]; try discriminate.
  destruct (3 <=? Z.of_nat (List.length ds)) eqn:Hlen; [|discriminate].
  apply Z.leb_le in Hlen. intros H. inversion H.
  rewrite List.length_firstn. lia.
Qed.

(** The loop body on one item, in terms of what the item contributes. *)
Lemma dishes_of_items_cons (item : value) (items : list value) :
  has_role item ->
  Main.dishes_of_items json_loads (item :: items)
  = match Main.dishes_of_message json_loads item with
    | Some l => Ret l
    | None => Main.dishes_of_items json_loads items
    end.
Proof.
  intros [role Hrole]. unfold Main.dishes_of_message, is_reply.
  cbn [Main.dishes_of_items]. rewrite Hrole. cbn [pbind].
  destruct (is_assistant role); cbn [andb]; [|destruct (dict_get item "content"); reflexivity].
  destruct item; try discriminate. cbn [dict_get] in *.
  destruct (dict_lookup "content" d) as [c|]; cbn [pbind truthy].
  - destruct (truthy c); reflexivity.
  - reflexivity.
Qed.

(** Messages that contribute nothing are passed over. *)
Lemma dishes_of_items_skips (skipped items : list value) :
  Forall (fun m => has_role m /\ Main.dishes_of_message json_loads m = None) skipped ->
  Main.dishes_of_items json_loads (skipped ++ items)
  = Main.dishes_of_items json_loads items.
Proof.
  induction 1 as [|m l [Hr Hn] _ IH]; [reflexivity|].
  rewrite <- app_comm_cons, dishes_of_items_cons, Hn; auto.
Qed.

Lemma dishes_of_message_length (item : value) (l : list value) :
  Main.dishes_of_message json_loads item = Some l -> List.length l = 3%nat.
Proof.
  unfold Main.dishes_of_message. destruct (is_reply item); [|discriminate].
  destruct (dict_get item "content"); try discriminate.
  apply dishes_of_content_length.
Qed.

(** The loop returns three dishes, or an item without a role raises. *)
Lemma dishes_of_items_three (items : list value) :
  (exists l, Main.dishes_of_items json_loads items = Ret l /\ List.length l = 3%nat)
  \/ (exists e, Main.dishes_of_items json_loads items = Raise e).
Proof.
  induction items as [|item items IH]; [left; exists fallback_dishes; auto|].
  destruct (getitem item "role") as [role|e|] eqn:Hrole.
  - rewrite dishes_of_items_cons by (exists role; exact Hrole).
    destruct (Main.dishes_of_message json_loads item) as [l|] eqn:Hm; [|exact IH].
    left. exists l. split; [reflexivity|]. eapply dishes_of_message_length; eauto.
  - right. exists e. cbn [Main.dishes_of_items]. rewrite Hrole. reflexivity.
  - destruct item; simpl in Hrole; try discriminate.
    destruct (dict_lookup "role" d); discriminate.
Qed.

Lemma dishes_of_polled_three (p : option execution) :
  (exists l, Main.dishes_of_polled json_loads p = Ret l /\ List.length l = 3%nat)
  \/ (exists e, Main.dishes_of_polled json_loads p = Raise e).
Proof.
  destruct p as [x|]; simpl; [|left; exists fallback_dishes; auto].
  destruct (String.eqb (status x) "succeeded"); [|left; exists fallback_dishes; auto].
  destruct (reversed (output x)) as [items|e|] eqn:Hrev; simpl.
  - apply dishes_of_items_three.
  - right. exists e. reflexivity.
  - destruct (output x); discriminate.
Qed.

Lemma dishes_of_polled_total (p : option execution) :
  Main.dishes_of_polled json_loads p <> OutOfFuel.
Proof.
  destruct (dishes_of_polled_three p) as [(l & -> & _)|(e & ->)]; discriminate.
Qed.

(** The latest message of a succeeded execution that contributes decides. *)
Lemma dishes_of_polled_latest (x : execution) (earlier later : list value)
  (item : value) (l : list value) :
  status x = "succeeded" ->
  output x = VList (earlier ++ item :: later) ->
  Forall (fun m => has_role m /\ Main.dishes_of_message json_loads m = None) later ->
  has_role item ->
  Main.dishes_of_message json_loads item = Some l ->
  Main.dishes_of_polled json_loads (Some x) = Ret l.
Proof.
  intros Hs Hout Hall Hrole Hm. simpl. rewrite Hs, Hout. simpl.
  rewrite rev_app_distr. simpl. rewrite <- app_assoc. simpl.
  rewrite dishes_of_items_skips by (apply List.Forall_rev; exact Hall).
  rewrite dishes_of_items_cons, Hm by assumption. reflexivity.
Qed.

(** When no message contributes, the fallback list is returned. *)
Lemma dishes_of_polled_none (x : execution) (messages : list value) :
  status x = "succeeded" ->
  output x = VList messages ->
  Forall (fun m => has_role m /\ Main.dishes_of_message json_loads m = None) messages ->
  Main.dishes_of_polled json_loads (Some x) = Ret fallback_dishes.
Proof.
  intros Hs Hout Hall. simpl. rewrite Hs, Hout. simpl.
  rewrite <- (app_nil_r (rev messages)).
  rewrite dishes_of_items_skips by (apply List.Forall_rev; exact Hall).
  reflexivity.
Qed.

(** What an assistant message with text [c] contributes. *)
Lemma dishes_of_message_text (c : string) :
  c <> EmptyString ->
  Main.dishes_of_message json_loads (Scenario.assistant c)
  = Main.dishes_of_content json_loads (VStr c).
Proof.
  intros Hc. unfold Main.dishes_of_message, is_reply, Scenario.assistant. simpl.
  apply String.eqb_neq in Hc. rewrite Hc. reflexivity.
Qed.

(** The [try] block of the two versions of [extract_dishes_from_text]:
    three dishes come back whatever the service does, and when the run
    ends on a poll that reports a succeeded execution, they are those of
    [dishes_of_polled]. *)
Lemma extract_with_service_spec (fuel : nat) (city : string)
  (dish_text : option string) (prompt : string) (w : world) :
  (16 <= fuel)%nat ->
  exists l w',
    Main.extract_with_service json_loads E fuel city dish_text prompt w = (Ret l, w')
    /\ List.length l = 3%nat
    /\ (forall x l',
          hd_error (calls w') = Some ExecutionsGet ->
          executions_get E w' = Some x ->
          Main.dishes_of_polled json_loads (Some x) = Ret l' -> l = l').
Proof.
  intros Hfuel. unfold Main.extract_with_service.
  destruct (PollingFacts.run_spec E prompt
              (VDict [("city", VStr city); ("text", Main.value_of_text dish_text)]) 30
              (fun polled =>
                 match polled with
                 | None => ret fallback_dishes
                 | Some result =>
                     if String.eqb (status result) "succeeded"
                     then (items <- lift (reversed (output result)) ;;
                           lift (Main.dishes_of_items json_loads items))%py
                     else ret fallback_dishes
                 end)
              (Main.dishes_of_polled json_loads) fallback_dishes fuel w)
    as (l & w' & n & started & Hrun & _ & _ & Hout).
  { intros [x|] w1; simpl; [|reflexivity].
    destruct (String.eqb (status x) "succeeded"); [|reflexivity].
    unfold bind, lift. destruct (reversed (output x)); reflexivity. }
  { apply dishes_of_polled_total. }
  { lia. }
  { lia. }
  exists l, w'. split; [exact Hrun|]. split.
  - destruct Hout as [(_ & _ & _ & _ & Hr)|[(x & _ & _ & _ & _ & Hr)|[-> _]]];
      [| |reflexivity].
    + destruct Hr as [Hr|[_ ->]]; [|reflexivity].
      destruct (dishes_of_polled_three None) as [(l0 & Hl0 & Hlen)|(e & He)]; congruence.
    + destruct Hr as [Hr|[_ ->]]; [|reflexivity].
      destruct (dishes_of_polled_three (Some x)) as [(l0 & Hl0 & Hlen)|(e & He)]; congruence.
  - intros x l' Hlast Hget Hl'.
    destruct Hout as [(Hh & Hn & _)
                     |[(x' & _ & _ & Hget' & _ & Hx)
                      |(_ & [[Hh _]|[[Hh _]|(_ & _ & Hn)]])]];
      try (rewrite Hh in Hlast; simpl in Hlast; congruence); try congruence.
    + rewrite Hh in Hlast. destruct n; [lia|]. simpl in Hlast. congruence.
    + assert (x' = x) by congruence. subst x'.
      destruct Hx as [Hx|[[e Hx] _]]; congruence.
Qed.

End WithEnv.

(** C3, as the code has it: on the null text and on the empty text,
    final-ui.py's [extract_dishes_from_text] returns the fallback list at
    once, the outside untouched; in main.py it is the caller,
    [run_workflow], that does so, without calling
    [extract_dishes_from_text] at all. *)
Theorem no_text_gives_fallback
  (json_loads : string -> option value) (E : env) (fuel : nat)
  (city : string) (w : world) :
  FinalUI.extract_dishes_from_text json_loads E fuel city None w
  = (Ret fallback_dishes, w)
  /\ FinalUI.extract_dishes_from_text json_loads E fuel city (Some EmptyString) w
     = (Ret fallback_dishes, w)
  /\ Main.run_workflow_dishes json_loads E fuel city None w
     = (Ret fallback_dishes, w)
  /\ Main.run_workflow_dishes json_loads E fuel city (Some EmptyString) w
     = (Ret fallback_dishes, w)
  /\ List.length fallback_dishes = 3%nat.
Proof. repeat split; reflexivity. Qed.

(** C3 as stated fails for main.py's [extract_dishes_from_text]: on the
    empty text it goes to the service (a task, an execution, a poll) and
    returns what the service answered, not the fallback list. *)
Lemma main_extract_on_empty_text_asks_service :
  let E := Scenario.succeeds_with [Scenario.assistant (Json.dq "['Ramen', 'Sushi', 'Udon']")] in
  let r := Main.extract_dishes_from_text Json.loads E 16 "Tokyo" (Some EmptyString)
             Scenario.w0 in
  fst r = Ret [VStr "Ramen"; VStr "Sushi"; VStr "Udon"]
  /\ List.map is_julep (calls (snd r)) = [true; true; true].
Proof. vm_compute. split; reflexivity. Qed.

(** C4, as the code has it: whatever the service does, three dishes come
    back from final-ui.py's [extract_dishes_from_text] for every text,
    null included, from the dish step of main.py's [run_workflow] for
    every text, null included, and from main.py's
    [extract_dishes_from_text] for every text that is a string. *)
Theorem dishes_are_three
  (json_loads : string -> option value) (E : env) (fuel : nat)
  (city : string) (dish_text : option string) (w : world) :
  (16 <= fuel)%nat ->
  (exists l w',
      FinalUI.extract_dishes_from_text json_loads E fuel city dish_text w = (Ret l, w')
      /\ List.length l = 3%nat)
  /\ (exists l w',
         Main.run_workflow_dishes json_loads E fuel city dish_text w = (Ret l, w')
         /\ List.length l = 3%nat)
  /\ (forall t, dish_text = Some t ->
       exists l w',
         Main.extract_dishes_from_text json_loads E fuel city dish_text w = (Ret l, w')
         /\ List.length l = 3%nat).
Proof.
  intros Hfuel.
  assert (Hmain : forall t, exists l w',
            Main.extract_dishes_from_text json_loads E fuel city (Some t) w = (Ret l, w')
            /\ List.length l = 3%nat).
  { intros t. unfold Main.extract_dishes_from_text, bind, lift. simpl.
    destruct (extract_with_service_spec json_loads E fuel city (Some t)
                (Main.dish_prompt city (slice_to t 3000)) w Hfuel)
      as (l & w' & H & Hlen & _).
    exists l, w'. auto. }
  split; [|split].
  - unfold FinalUI.extract_dishes_from_text.
    destruct (Main.no_text dish_text) eqn:Hno; [exists fallback_dishes, w; auto|].
    destruct dish_text as [t|]; [|discriminate].
    unfold bind, lift. simpl.
    destruct (extract_with_service_spec json_loads E fuel city (Some t)
                (Main.dish_prompt city (slice_to t 2000)) w Hfuel)
      as (l & w' & H & Hlen & _).
    exists l, w'. auto.
  - unfold Main.run_workflow_dishes.
    destruct (Main.no_text dish_text) eqn:Hno; [exists fallback_dishes, w; auto|].
    destruct dish_text as [t|]; [|discriminate]. apply Hmain.
  - intros t ->. apply Hmain.
Qed.

Lemma dishes_are_three_witness :
  exists l w',
    FinalUI.extract_dishes_from_text Json.loads Scenario.keeps_running 16 "Tokyo"
      (Some "ramen, sushi, udon") Scenario.w0 = (Ret l, w')
    /\ List.length l = 3%nat.
Proof.
  apply (dishes_are_three Json.loads Scenario.keeps_running 16 "Tokyo"
           (Some "ramen, sushi, udon") Scenario.w0).
  lia.
Defined.

(** C4 as stated fails for main.py's [extract_dishes_from_text] on the
    null text: the slice of the prompt raises before the [try], and no
    list comes back. *)
Lemma main_extract_on_null_text_raises :
  Main.extract_dishes_from_text Json.loads Scenario.fails 16 "Tokyo" None Scenario.w0
  = (Raise "TypeError", Scenario.w0).
Proof. reflexivity. Qed.

End DishFacts.

(** ** Termination of the polling protocol *)

Module ProtocolFacts.
Import Py World Julep.

Section WithEnv.
Variable E : env.

(** Fuel beyond what the deadline needs does not change a run. *)
Lemma run_more_fuel {A : Type} (prompt : string) (input : value) (secs : Z)
  (after : option execution -> M A) (d : A) (fuel fuel' : nat) (w : world) :
  0 <= secs -> 1000 * secs < 2000 * Z.of_nat fuel -> (fuel <= fuel')%nat ->
  try_except
    (tasks_create E prompt ;;
     executions_create E input ;;
     now <- time_time ;;
     polled <- poll_execution E (now + 1000 * secs) fuel' ;;
     after polled)%py
    (ret d) w
  = try_except
      (tasks_create E prompt ;;
       executions_create E input ;;
       now <- time_time ;;
       polled <- poll_execution E (now + 1000 * secs) fuel ;;
       after polled)%py
      (ret d) w.
Proof.
  intros Hsecs Hfuel Hle.
  assert (Hpoll : forall w2,
            poll_execution E (clock w2 + 1000 * secs) fuel' w2
            = poll_execution E (clock w2 + 1000 * secs) fuel w2).
  { intros w2.
    destruct (PollingFacts.poll_execution_spec E (clock w2 + 1000 * secs) fuel w2)
      as (r & w3 & n & Hp & _ & _ & Hres); [lia|lia|].
    rewrite Hp. apply (PollingFacts.poll_execution_more_fuel E _ _ _ _ _ Hp);
      [|exact Hle].
    intros ->. exact Hres. }
  unfold try_except, bind, time_time.
  destruct (tasks_create E prompt w) as [[[]|e|] w1]; try reflexivity.
  destruct (executions_create E input w1) as [[[]|e|] w2]; try reflexivity.
  rewrite Hpoll. reflexivity.
Qed.

(** A run ends, in one of the three ways, and its result is [f] of what
    the loop left, or [d] when a call raised. *)
Lemma run_ended {A : Type} (prompt : string) (input : value) (secs : Z)
  (after : option execution -> M A) (f : option execution -> pyres A)
  (d : A) (fuel : nat) (w : world) :
  (forall p w1, after p w1 = (f p, w1)) ->
  (forall p, f p <> OutOfFuel) ->
  0 <= secs -> 1000 * secs < 2000 * Z.of_nat fuel ->
  exists a w' how,
    try_except
      (tasks_create E prompt ;;
       executions_create E input ;;
       now <- time_time ;;
       polled <- poll_execution E (now + 1000 * secs) fuel ;;
       after polled)%py
      (ret d) w = (Ret a, w')
    /\ ended E secs w w' how
    /\ match how with
       | TimedOut => f None = Ret a \/ (exists e, f None = Raise e) /\ a = d
       | Terminal x => f (Some x) = Ret a \/ (exists e, f (Some x) = Raise e) /\ a = d
       | CallRaised => a = d
       end.
Proof.
  intros Hafter Hf Hsecs Hfuel.
  destruct (PollingFacts.run_spec E prompt input secs after f d fuel w
              Hafter Hf Hsecs Hfuel)
    as (a & w' & n & started & Hrun & Hst & Hpend & Hout).
  exists a, w'.
  destruct Hout as [(Hc & Hn & Hb & Hlate & Hr)
                   |[(x & Hc & Hb & Hget & Hterm & Hr)|(Hd & Hraise)]].
  - exists TimedOut. split; [exact Hrun|]. split; [|exact Hr].
    exists n, started, prompt, input. simpl. repeat split; auto; lia.
  - exists (Terminal x). split; [exact Hrun|]. split; [|exact Hr].
    exists n, started, prompt, input. simpl. repeat split; auto; lia.
  - exists CallRaised. split; [exact Hrun|]. split; [|exact Hd].
    exists n, started, prompt, input. simpl. repeat split; auto; lia.
Qed.

End WithEnv.

(** C9.  Whatever statuses the service reports, and however long its
    answers take, both callers return, with 31 rounds of fuel for the 60
    seconds of tour generation and 16 for the 30 seconds of dish
    extraction, and more fuel changes nothing.  The run creates one task
    and one execution, never a second one.  It polls, sleeps 2 seconds,
    and polls again for as long as the status is not terminal: it ends on
    the first poll that reports succeeded or failed, or, the deadline
    passed, after the sleep of a round, and then the tour is [None] and
    the dishes are the fallback list; when a call raises they are the
    same, and no exception leaves the function. *)
Theorem polling_ends_at_terminal_status_or_deadline
  (json_loads : string -> option value) (E : env) (fuel : nat)
  (city text : string) (weather : Tools.weather) (dishes : list value)
  (restaurant_infos : list (list string)) (w : world) :
  (31 <= fuel)%nat ->
  (exists v w' how,
      Main.generate_foodie_tour json_loads E fuel city weather dishes
        restaurant_infos w = (Ret v, w')
      /\ Main.generate_foodie_tour json_loads E 31 city weather dishes
           restaurant_infos w = (Ret v, w')
      /\ ended E 60 w w' how
      /\ match how with
         | TimedOut | CallRaised => v = VNone
         | Terminal x =>
             (status x = "succeeded" \/ status x = "failed")
             /\ (status x = "failed" -> v = VNone)
         end)
  /\ (exists l w' how,
         Main.extract_dishes_from_text json_loads E fuel city (Some text) w
         = (Ret l, w')
         /\ Main.extract_dishes_from_text json_loads E 16 city (Some text) w
            = (Ret l, w')
         /\ ended E 30 w w' how
         /\ match how with
            | TimedOut | CallRaised => l = fallback_dishes
            | Terminal x =>
                (status x = "succeeded" \/ status x = "failed")
                /\ (status x = "failed" -> l = fallback_dishes)
            end).
Proof.
  intros Hfuel.
  assert (Hterm : forall x, terminal (status x) = true ->
            status x = "succeeded" \/ status x = "failed").
  { intros x Hx. unfold terminal in Hx. apply orb_true_iff in Hx.
    destruct Hx as [Hx|Hx]; apply String.eqb_eq in Hx; auto. }
  split.
  - unfold Main.generate_foodie_tour.
    set (prompt := Main.tour_prompt E city weather (Main.dining_type_of weather)
                     (Main.restaurant_context E dishes restaurant_infos)).
    set (input := VDict _).
    set (after := fun polled : option execution => _).
    destruct (run_ended E prompt input 60 after (Main.tour_of_polled json_loads)
                VNone fuel w) as (v & w' & how & Hrun & Hend & Hres); try lia.
    { intros [x|] w1; simpl; [|reflexivity].
      destruct (String.eqb (status x) "succeeded"); reflexivity. }
    { apply TourFacts.tour_of_polled_total. }
    exists v, w', how. split; [exact Hrun|].
    split; [rewrite <- Hrun; symmetry; apply run_more_fuel; lia|].
    split; [exact Hend|].
    destruct how as [|x|]; auto.
    + destruct Hres as [Hr|[_ Hr]]; [inversion Hr; reflexivity|exact Hr].
    + destruct Hend as (n & st & p & i & _ & _ & _ & _ & _ & Ht).
      split; [apply Hterm; exact Ht|].
      intros Hfail. simpl in Hres. rewrite Hfail in Hres. simpl in Hres.
      destruct Hres as [Hr|[_ Hr]]; [inversion Hr; reflexivity|exact Hr].
  - unfold Main.extract_dishes_from_text, bind, lift. simpl.
    unfold Main.extract_with_service.
    set (prompt := Main.dish_prompt city (slice_to text 3000)).
    set (input := VDict _).
    set (after := fun polled : option execution => _).
    destruct (run_ended E prompt input 30 after (Main.dishes_of_polled json_loads)
                fallback_dishes fuel w) as (l & w' & how & Hrun & Hend & Hres); try lia.
    { intros [x|] w1; simpl; [|reflexivity].
      destruct (String.eqb (status x) "succeeded"); [|reflexivity].
      unfold bind, lift. destruct (reversed (output x)); reflexivity. }
    { apply DishFacts.dishes_of_polled_total. }
    exists l, w', how. split; [exact Hrun|].
    split; [rewrite <- Hrun; symmetry; apply run_more_fuel; lia|].
    split; [exact Hend|].
    destruct how as [|x|]; auto.
    + destruct Hres as [Hr|[_ Hr]]; [inversion Hr; reflexivity|exact Hr].
    + destruct Hend as (n & st & p & i & _ & _ & _ & _ & _ & Ht).
      split; [apply Hterm; exact Ht|].
      intros Hfail. simpl in Hres. rewrite Hfail in Hres. simpl in Hres.
      destruct Hres as [Hr|[_ Hr]]; [inversion Hr; reflexivity|exact Hr].
Qed.

(** A service that never leaves [running]: the tour is [None] after the
    deadline. *)
Lemma polling_ends_at_terminal_status_or_deadline_witness :
  exists v w',
    Main.generate_foodie_tour Json.loads Scenario.keeps_running 31 "Paris"
      Scenario.sunny fallback_dishes [[]; []; []] Scenario.w0 = (Ret v, w')
    /\ ended Scenario.keeps_running 60 Scenario.w0 w' TimedOut
    /\ v = VNone.
Proof.
  destruct (polling_ends_at_terminal_status_or_deadline Json.loads
              Scenario.keeps_running 31 "Paris" "baguette, crepe, quiche"
              Scenario.sunny fallback_dishes [[]; []; []] Scenario.w0)
    as [(v & w' & how & H & _ & Hend & Hres) _]; [lia|].
  exists v, w'. split; [exact H|].
  destruct how as [|x|].
  - split; assumption.
  - exfalso. destruct Hend as (n & st & p & i & _ & _ & _ & _ & Hget & Ht).
    simpl in Hget. inversion Hget; subst x. discriminate.
  - exfalso. destruct Hend as (n & st & p & i & _ & _ & [[_ Hf]|[[_ Hf]|(_ & _ & Hf)]]);
      discriminate.
Defined.

End ProtocolFacts.

(** ** What the callers make of the output of an execution *)

Module ReplyFacts.
Import Py World Julep.

Lemma terminal_status (x : execution) :
  terminal (status x) = true -> status x = "succeeded" \/ status x = "failed".
Proof.
  intros Hx. unfold terminal in Hx. apply orb_true_iff in Hx.
  destruct Hx as [Hx|Hx]; apply String.eqb_eq in Hx; auto.
Qed.

(** The loop test raises on an item without a role. *)
Lemma no_role_raises (item : value) :
  ~ has_role item -> exists e, getitem item "role" = Raise e.
Proof.
  intros H. destruct (getitem item "role") as [role|e|] eqn:Hrole.
  - exfalso. apply H. exists role. exact Hrole.
  - exists e. reflexivity.
  - destruct item; simpl in Hrole; try discriminate.
    destruct (dict_lookup "role" d); discriminate.
Qed.

(** What a result [r] of the lines after the loop leaves in [a], the
    value returned: the result, or the default after an exception. *)
Lemma returned_value {A : Type} (r : pyres A) (a d b : A) :
  r = Ret a \/ (exists e, r = Raise e) /\ a = d ->
  r = Ret b -> a = b.
Proof. intros [H|[[e H] _]] Hb; congruence. Qed.

Lemma returned_default {A : Type} (r : pyres A) (a d : A) :
  r = Ret a \/ (exists e, r = Raise e) /\ a = d ->
  (exists e, r = Raise e) -> a = d.
Proof. intros [H|[_ H]] [e He]; congruence. Qed.

(** Going back from the latest message, the loop passes over messages
    until it meets one it does not pass over, if there is one. *)
Lemma latest_kept {P : value -> Prop} (messages : list value) :
  (forall m, P m \/ ~ P m) ->
  Forall P messages
  \/ exists earlier item later,
       messages = earlier ++ item :: later /\ Forall P later /\ ~ P item.
Proof.
  intros Hdec. induction messages as [|m messages IH] using rev_ind.
  - left. apply List.Forall_nil.
  - destruct (Hdec m) as [Hm|Hm].
    + destruct IH as [Hall|(earlier & item & later & -> & Hlater & Hitem)].
      * left. apply List.Forall_app. split; [exact Hall|].
        apply List.Forall_cons; [exact Hm|apply List.Forall_nil].
      * right. exists earlier, item, (later ++ [m]).
        rewrite <- app_assoc. split; [reflexivity|]. split; [|exact Hitem].
        apply List.Forall_app. split; [exact Hlater|].
        apply List.Forall_cons; [exact Hm|apply List.Forall_nil].
    + right. exists messages, m, []. split; [reflexivity|].
      split; [apply List.Forall_nil|exact Hm].
Qed.

Lemma has_role_decided (item : value) : has_role item \/ ~ has_role item.
Proof.
  unfold has_role. destruct (getitem item "role") as [role|e|]; [left; eauto| |];
    right; intros [role H]; discriminate.
Qed.

(** The items of an output that is a text or an object are characters and
    keys: none has a role. *)
Lemma items_without_list (out : value) (items : list value) :
  (forall messages, out <> VList messages) ->
  reversed out = Ret items ->
  Forall (fun item => ~ has_role item) items.
Proof.
  intros Hno Hrev. destruct out as [| | |s|l|d]; simpl in Hrev; try discriminate.
  - inversion Hrev. apply List.Forall_rev, List.Forall_forall.
    intros item Hin. apply in_map_iff in Hin. destruct Hin as (c & <- & _).
    intros [role H]. discriminate.
  - exfalso. apply (Hno l). reflexivity.
  - inversion Hrev. apply List.Forall_rev, List.Forall_forall.
    intros item Hin. apply in_map_iff in Hin. destruct Hin as (c & <- & _).
    intros [role H]. discriminate.
Qed.

Lemma reversed_total (out : value) : reversed out <> OutOfFuel.
Proof. destruct out; discriminate. Qed.

Section WithEnv.
Variable json_loads : string -> option value.
Variable E : env.

(** *** The tour *)

Lemma final_json_no_role (item : value) (items : list value) :
  ~ has_role item ->
  exists e, Main.final_json_of_items json_loads (item :: items) = Raise e.
Proof.
  intros H. destruct (no_role_raises item H) as (e & He).
  exists e. simpl. rewrite He. reflexivity.
Qed.

(** The first assistant message with content decides, whatever its
    content is. *)
Lemma final_json_of_content (item : value) (items : list value) (content : value) :
  getitem item "role" = Ret (VStr "assistant") ->
  getitem item "content" = Ret content ->
  truthy content = true ->
  Main.final_json_of_items json_loads (item :: items)
  = Ret match content with
        | VStr t => match json_loads (Main.json_span t) with
                    | Some v => v
                    | None => VNone
                    end
        | _ => VNone
        end.
Proof.
  intros Hrole Hc Ht. simpl. rewrite Hrole. simpl.
  rewrite (TourFacts.getitem_dict_get _ _ _ Hc). simpl.
  rewrite Ht, Hc. simpl.
  destruct content; try reflexivity.
  destruct (json_loads (Main.json_span s)); reflexivity.
Qed.

Lemma extract_final_json_latest (earlier later : list value) (item : value) :
  Forall (fun m => has_role m /\ is_reply m = false) later ->
  Main.extract_final_json_from_output json_loads (VList (earlier ++ item :: later))
  = Main.final_json_of_items json_loads (item :: rev earlier).
Proof.
  intros Hall. unfold Main.extract_final_json_from_output. simpl.
  rewrite rev_app_distr. simpl. rewrite <- app_assoc. simpl.
  apply TourFacts.final_json_skips, List.Forall_rev, Hall.
Qed.

Lemma extract_final_json_skipped (messages : list value) :
  Forall (fun m => has_role m /\ is_reply m = false) messages ->
  Main.extract_final_json_from_output json_loads (VList messages) = Ret VNone.
Proof.
  intros Hall. unfold Main.extract_final_json_from_output. simpl.
  rewrite <- (app_nil_r (rev messages)).
  rewrite TourFacts.final_json_skips by (apply List.Forall_rev; exact Hall).
  reflexivity.
Qed.

Lemma extract_final_json_no_list (out : value) :
  (forall messages, out <> VList messages) ->
  Main.extract_final_json_from_output json_loads out = Ret VNone
  \/ exists e, Main.extract_final_json_from_output json_loads out = Raise e.
Proof.
  intros Hno. unfold Main.extract_final_json_from_output.
  destruct (reversed out) as [items|e|] eqn:Hrev; simpl.
  - pose proof (items_without_list out items Hno Hrev) as Hall.
    destruct Hall as [|item items Hitem _]; [left; reflexivity|].
    right. apply final_json_no_role. exact Hitem.
  - right. exists e. reflexivity.
  - exfalso. exact (reversed_total out Hrev).
Qed.

(** A message that the loop does not pass over has no role, or is an
    assistant message with content. *)
Lemma kept_by_tour_loop (item : value) :
  ~ (has_role item /\ is_reply item = false) ->
  ~ has_role item
  \/ exists content,
       getitem item "role" = Ret (VStr "assistant")
       /\ getitem item "content" = Ret content
       /\ truthy content = true.
Proof.
  intros Hkept. destruct (has_role_decided item) as [[role Hrole]|Hno]; [|left; exact Hno].
  right. destruct (is_reply item) eqn:Hreply.
  2:{ exfalso. apply Hkept. split; [exists role; exact Hrole|reflexivity]. }
  unfold is_reply in Hreply. rewrite Hrole in Hreply.
  destruct item as [| | | | |d]; try discriminate. simpl in *.
  destruct (dict_lookup "content" d) as [content|]; simpl in Hreply.
  - apply andb_true_iff in Hreply. destruct Hreply as [Has Htruthy].
    exists content. split; [|auto].
    destruct role; try discriminate. simpl in Has.
    apply String.eqb_eq in Has. subst. exact Hrole.
  - rewrite andb_false_r in Hreply. discriminate.
Qed.

(** *** The dishes *)

Lemma dishes_no_role (item : value) (items : list value) :
  ~ has_role item ->
  exists e, Main.dishes_of_items json_loads (item :: items) = Raise e.
Proof.
  intros H. destruct (no_role_raises item H) as (e & He).
  exists e. simpl. rewrite He. reflexivity.
Qed.

Lemma dishes_of_polled_no_role (x : execution) (earlier later : list value)
  (item : value) :
  status x = "succeeded" ->
  output x = VList (earlier ++ item :: later) ->
  Forall (fun m => has_role m /\ Main.dishes_of_message json_loads m = None) later ->
  ~ has_role item ->
  exists e, Main.dishes_of_polled json_loads (Some x) = Raise e.
Proof.
  intros Hs Hout Hall Hno. simpl. rewrite Hs, Hout. simpl.
  rewrite rev_app_distr. simpl. rewrite <- app_assoc. simpl.
  rewrite DishFacts.dishes_of_items_skips by (apply List.Forall_rev; exact Hall).
  apply dishes_no_role. exact Hno.
Qed.

Lemma dishes_of_polled_no_list (x : execution) :
  status x = "succeeded" ->
  (forall messages, output x <> VList messages) ->
  Main.dishes_of_polled json_loads (Some x) = Ret fallback_dishes
  \/ exists e, Main.dishes_of_polled json_loads (Some x) = Raise e.
Proof.
  intros Hs Hno. simpl. rewrite Hs. simpl.
  destruct (reversed (output x)) as [items|e|] eqn:Hrev; simpl.
  - pose proof (items_without_list (output x) items Hno Hrev) as Hall.
    destruct Hall as [|item items Hitem _]; [left; reflexivity|].
    right. apply dishes_no_role. exact Hitem.
  - right. exists e. reflexivity.
  - exfalso. exact (reversed_total (output x) Hrev).
Qed.

(** When a message yields dishes. *)
Lemma dishes_of_message_yields (item : value) (dishes : list value) :
  Main.dishes_of_message json_loads item = Some dishes
  <-> exists c ds,
        getitem item "role" = Ret (VStr "assistant")
        /\ getitem item "content" = Ret (VStr c)
        /\ c <> EmptyString
        /\ json_loads (Main.clean_content c) = Some (VList ds)
        /\ (3 <= List.length ds)%nat
        /\ dishes = firstn 3 ds.
Proof.
  unfold Main.dishes_of_message, is_reply. split.
  - destruct (getitem item "role") as [role| |] eqn:Hrole; try discriminate.
    destruct item as [| | | | |d]; try discriminate. simpl in *.
    destruct (dict_lookup "content" d) as [content|] eqn:Hc; simpl.
    2:{ rewrite andb_false_r. discriminate. }
    destruct (is_assistant role) eqn:Has; [|discriminate]. simpl.
    destruct (truthy content) eqn:Ht; [|discriminate].
    destruct content as [| | |c| |]; try discriminate. simpl.
    destruct (json_loads (Main.clean_content c)) as [[| | | |ds|]|] eqn:Hl;
      try discriminate.
    destruct (3 <=? Z.of_nat (List.length ds)) eqn:Hlen; [|discriminate].
    intros [= <-]. exists c, ds.
    destruct role; try discriminate. simpl in Has. apply String.eqb_eq in Has. subst.
    apply Z.leb_le in Hlen. simpl in Ht. apply negb_true_iff, String.eqb_neq in Ht.
    repeat split; auto. lia.
  - intros (c & ds & Hrole & Hc & Hne & Hl & Hlen & ->).
    rewrite Hrole, (TourFacts.getitem_dict_get _ _ _ Hc). simpl.
    apply String.eqb_neq in Hne. rewrite Hne. simpl. rewrite Hl.
    replace (3 <=? Z.of_nat (List.length ds)) with true
      by (symmetry; apply Z.leb_le; lia).
    reflexivity.
Qed.

Lemma kept_by_dish_loop (item : value) :
  ~ (has_role item /\ Main.dishes_of_message json_loads item = None) ->
  ~ has_role item
  \/ exists dishes,
       has_role item /\ Main.dishes_of_message json_loads item = Some dishes.
Proof.
  intros Hkept. destruct (has_role_decided item) as [Hrole|Hno]; [|left; exact Hno].
  right. destruct (Main.dishes_of_message json_loads item) as [dishes|] eqn:Hm.
  - exists dishes. auto.
  - exfalso. apply Hkept. auto.
Qed.

End WithEnv.

(** Against a service that reports [succeeded] at once, a run ends on its
    first poll. *)
Lemma succeeds_with_ends_on_poll (messages : list value) (secs : Z)
  (w w' : world) (how : ending) :
  ended (Scenario.succeeds_with messages) secs w w' how ->
  how = Terminal {| status := "succeeded"; output := VList messages; error := VNone |}.
Proof.
  intros (n & st & p & i & _ & Hpend & Hhow). destruct how as [|x|].
  - exfalso. destruct Hhow as (_ & Hn & _).
    destruct (Hpend 0%nat) as (wi & xi & _ & Hx & Hnot); [lia|].
    simpl in Hx. inversion Hx; subst xi. discriminate.
  - destruct Hhow as (_ & _ & Hget & _). simpl in Hget. inversion Hget. reflexivity.
  - exfalso. destruct Hhow as [[_ Hf]|[[_ Hf]|(_ & _ & Hf)]]; discriminate.
Qed.

(** C1, as the code has it.  [generate_foodie_tour] always returns, with
    31 rounds of fuel for its 60 seconds, and the run ends in one of the
    three ways of the polling protocol.  The tour is [None] when the
    deadline passed, when a call to the service raised and when the
    execution failed.  When the execution succeeded the tour is what
    [extract_final_json_from_output] returns for the output, or [None]
    when that raises; going back from the latest message over the
    messages that have a role and are no assistant message with content,
    that is: [None] when the output is no list, when every message is
    passed over, and when the first message not passed over has no role;
    and when that message is an assistant message with content, the value
    the decoder made of the span between the first opening and the last
    closing brace of its text -- whatever that value is, with no check
    against the TourPlan schema -- or [None] when the decoder rejects the
    span or the content is no text.  These cases are all there are; and a
    tour that is not [None] is such a decoded span. *)
Theorem generate_foodie_tour_returns_decoded_span
  (json_loads : string -> option value) (E : env) (fuel : nat)
  (city : string) (weather : Tools.weather) (dishes : list value)
  (restaurant_infos : list (list string)) (w : world) :
  (31 <= fuel)%nat ->
  exists v w' how,
    Main.generate_foodie_tour json_loads E fuel city weather dishes
      restaurant_infos w = (Ret v, w')
    /\ ended E 60 w w' how
    /\ match how with
       | TimedOut | CallRaised => v = VNone
       | Terminal x =>
           (status x = "succeeded" \/ status x = "failed")
           /\ (status x = "failed" -> v = VNone)
           /\ (status x = "succeeded" ->
               (Main.extract_final_json_from_output json_loads (output x) = Ret v
                \/ (exists e,
                      Main.extract_final_json_from_output json_loads (output x)
                      = Raise e)
                   /\ v = VNone)
               /\ ((forall messages, output x <> VList messages) -> v = VNone)
               /\ (forall messages,
                     output x = VList messages ->
                     Forall (fun m => has_role m /\ is_reply m = false) messages ->
                     v = VNone)
               /\ (forall earlier item later,
                     output x = VList (earlier ++ item :: later) ->
                     Forall (fun m => has_role m /\ is_reply m = false) later ->
                     ~ has_role item ->
                     v = VNone)
               /\ (forall earlier item later content,
                     output x = VList (earlier ++ item :: later) ->
                     Forall (fun m => has_role m /\ is_reply m = false) later ->
                     getitem item "role" = Ret (VStr "assistant") ->
                     getitem item "content" = Ret content ->
                     truthy content = true ->
                     v = match content with
                         | VStr t => match json_loads (Main.json_span t) with
                                     | Some v0 => v0
                                     | None => VNone
                                     end
                         | _ => VNone
                         end))
       end
    /\ (v <> VNone ->
        exists x earlier item later t,
          how = Terminal x
          /\ status x = "succeeded"
          /\ output x = VList (earlier ++ item :: later)
          /\ Forall (fun m => has_role m /\ is_reply m = false) later
          /\ getitem item "role" = Ret (VStr "assistant")
          /\ getitem item "content" = Ret (VStr t)
          /\ json_loads (Main.json_span t) = Some v)
    /\ (forall messages : list value,
          Forall (fun m => has_role m /\ is_reply m = false) messages
          \/ exists earlier item later,
               messages = earlier ++ item :: later
               /\ Forall (fun m => has_role m /\ is_reply m = false) later
               /\ (~ has_role item
                   \/ exists content,
                        getitem item "role" = Ret (VStr "assistant")
                        /\ getitem item "content" = Ret content
                        /\ truthy content = true)).
Proof.
  intros Hfuel. unfold Main.generate_foodie_tour.
  set (prompt := Main.tour_prompt E city weather (Main.dining_type_of weather)
                   (Main.restaurant_context E dishes restaurant_infos)).
  set (input := VDict _).
  set (after := fun polled : option execution => _).
  destruct (ProtocolFacts.run_ended E prompt input 60 after
              (Main.tour_of_polled json_loads) VNone fuel w)
    as (v & w' & how & Hrun & Hend & Hres); try lia.
  { intros [x|] w1; simpl; [|reflexivity].
    destruct (String.eqb (status x) "succeeded"); reflexivity. }
  { apply TourFacts.tour_of_polled_total. }
  exists v, w', how. split; [exact Hrun|]. split; [exact Hend|].
  split; [|split].
  - destruct how as [|x|]; [|destruct Hend as (n & st & p & i & _ & _ & _ & _ & _ & Ht)|];
      [eapply returned_value; [exact Hres|reflexivity]| |exact Hres].
    split; [apply terminal_status; exact Ht|]. split.
    { intros Hfail. simpl in Hres. rewrite Hfail in Hres. simpl in Hres.
      eapply returned_value; [exact Hres|reflexivity]. }
    intros Hok. simpl in Hres. rewrite Hok in Hres. simpl in Hres.
    split; [exact Hres|]. split; [|split; [|split]].
    + intros Hno.
      destruct (extract_final_json_no_list json_loads (output x) Hno) as [H|H].
      * eapply returned_value; [exact Hres|exact H].
      * eapply returned_default; [exact Hres|exact H].
    + intros messages Hout Hall. rewrite Hout in Hres.
      eapply returned_value; [exact Hres|].
      apply extract_final_json_skipped. exact Hall.
    + intros earlier item later Hout Hall Hno. rewrite Hout in Hres.
      rewrite extract_final_json_latest in Hres by exact Hall.
      eapply returned_default; [exact Hres|].
      apply final_json_no_role. exact Hno.
    + intros earlier item later content Hout Hall Hrole Hc Htruthy.
      rewrite Hout in Hres.
      rewrite extract_final_json_latest in Hres by exact Hall.
      eapply returned_value; [exact Hres|].
      apply final_json_of_content; assumption.
  - intros Hne. destruct how as [|x|].
    + exfalso. apply Hne. eapply returned_value; [exact Hres|reflexivity].
    + destruct Hres as [Hx|[_ Hx]]; [|congruence].
      destruct (TourFacts.tour_of_polled_value json_loads x v Hx Hne)
        as (earlier & item & later & t & H1 & H2 & H3 & H4 & H5 & H6).
      exists x, earlier, item, later, t. repeat split; auto.
    + congruence.
  - intros messages.
    destruct (latest_kept (P := fun m => has_role m /\ is_reply m = false) messages)
      as [Hall|(earlier & item & later & Hm & Hlater & Hitem)].
    { intros m. destruct (has_role_decided m) as [Hr|Hr]; [|right; tauto].
      destruct (is_reply m); [right; intros [_ H]; discriminate|left; auto]. }
    + left. exact Hall.
    + right. exists earlier, item, later. split; [exact Hm|]. split; [exact Hlater|].
      apply kept_by_tour_loop. exact Hitem.
Qed.

(** A succeeded execution whose assistant message holds a full TourPlan
    between some words: the plan comes back. *)
Lemma generate_foodie_tour_returns_decoded_span_witness :
  let reply := Scenario.assistant
                 ("Here is the tour: " +:+ Scenario.paris_plan_text +:+ " Enjoy!") in
  exists v w',
    Main.generate_foodie_tour Json.loads (Scenario.succeeds_with [Scenario.user "hi"; reply])
      31 "Paris" Scenario.sunny fallback_dishes [[]; []; []] Scenario.w0
    = (Ret v, w')
    /\ Json.loads Scenario.paris_plan_text = Some v
    /\ Schema.satisfies_TourPlan v = true.
Proof.
  intros reply.
  destruct (generate_foodie_tour_returns_decoded_span Json.loads
              (Scenario.succeeds_with [Scenario.user "hi"; reply])
              31 "Paris" Scenario.sunny fallback_dishes [[]; []; []] Scenario.w0)
    as (v & w' & how & H & Hend & Hhow & _); [lia|].
  exists v, w'. split; [exact H|].
  rewrite (succeeds_with_ends_on_poll _ _ _ _ _ Hend) in Hhow.
  destruct Hhow as (_ & _ & Hok).
  destruct (Hok eq_refl) as (_ & _ & _ & _ & Hlatest).
  assert (Hv : v = match Json.loads
                           (Main.json_span
                              ("Here is the tour: " +:+ Scenario.paris_plan_text +:+ " Enjoy!"))
                   with Some v0 => v0 | None => VNone end).
  { apply (Hlatest [Scenario.user "hi"] reply []
             (VStr ("Here is the tour: " +:+ Scenario.paris_plan_text +:+ " Enjoy!")));
      try reflexivity.
    apply List.Forall_nil. }
  rewrite Hv. split; vm_compute; reflexivity.
Defined.

(** C1 as stated fails: the execution succeeded and the assistant output
    holds a brace span that decodes, yet what comes back has only a city:
    it is not [None] and it does not satisfy the schema. *)
Lemma generate_foodie_tour_returns_partial_object :
  let E := Scenario.succeeds_with [Scenario.assistant (Json.dq "{'city': 'Paris'}")] in
  let r := Main.generate_foodie_tour Json.loads E 31 "Paris" Scenario.sunny
             fallback_dishes [[]; []; []] Scenario.w0 in
  option_map status (executions_get E (snd r)) = Some "succeeded"
  /\ Json.loads (Main.json_span (Json.dq "{'city': 'Paris'}"))
     = Some (VDict [("city", VStr "Paris")])
  /\ fst r = Ret (VDict [("city", VStr "Paris")])
  /\ Schema.satisfies_TourPlan (VDict [("city", VStr "Paris")]) = false.
Proof. vm_compute. repeat split; reflexivity. Qed.

(** C5, as the code has it.  Both versions of [extract_dishes_from_text]
    run the same [try] block on a text that is a string (not empty, in
    final-ui.py), with a prompt that quotes the first 3000 and the first
    2000 characters of the text.  That block always returns, with 16
    rounds of fuel for its 30 seconds, and the run ends in one of the
    three ways of the polling protocol.  The dishes are the fallback list
    when the deadline passed, when a call to the service raised and when
    the execution failed.  When the execution succeeded they are what the
    loop over the reversed output returns, or the fallback list when it
    raises; going back from the latest message over the messages that
    have a role and yield no dishes, that is: the fallback list when the
    output is no list, when every message is passed over, and when the
    first message not passed over has no role; and the dishes of that
    message when it yields some.  These cases are all there are.  A
    message yields dishes exactly when it is an assistant message whose
    content is a text, not empty, that decodes to an array of three or
    more elements, and the dishes are then the first three; so a message
    whose text does not decode, or decodes to a shorter array or to
    something else, is passed over for the messages before it.  The text
    decoded is the message text stripped and, when it starts with a code
    fence, freed of the fence markers: a fenced array, with [json] after
    the fence or without, whose body holds no backquote and no
    surrounding whitespace decodes as the bare array. *)
Theorem extract_dishes_takes_latest_array
  (json_loads : string -> option value) (E : env) (fuel : nat)
  (city text prompt : string) (w : world) :
  (16 <= fuel)%nat ->
  Main.extract_dishes_from_text json_loads E fuel city (Some text) w
  = Main.extract_with_service json_loads E fuel city (Some text)
      (Main.dish_prompt city (slice_to text 3000)) w
  /\ (text <> EmptyString ->
      FinalUI.extract_dishes_from_text json_loads E fuel city (Some text) w
      = Main.extract_with_service json_loads E fuel city (Some text)
          (Main.dish_prompt city (slice_to text 2000)) w)
  /\ (exists l w' how,
        Main.extract_with_service json_loads E fuel city (Some text) prompt w
        = (Ret l, w')
        /\ ended E 30 w w' how
        /\ match how with
           | TimedOut | CallRaised => l = fallback_dishes
           | Terminal x =>
               (status x = "succeeded" \/ status x = "failed")
               /\ (status x = "failed" -> l = fallback_dishes)
               /\ (status x = "succeeded" ->
                   (Main.dishes_of_polled json_loads (Some x) = Ret l
                    \/ (exists e, Main.dishes_of_polled json_loads (Some x) = Raise e)
                       /\ l = fallback_dishes)
                   /\ ((forall messages, output x <> VList messages) ->
                       l = fallback_dishes)
                   /\ (forall messages,
                         output x = VList messages ->
                         Forall (fun m => has_role m
                                          /\ Main.dishes_of_message json_loads m = None)
                                messages ->
                         l = fallback_dishes)
                   /\ (forall earlier item later,
                         output x = VList (earlier ++ item :: later) ->
                         Forall (fun m => has_role m
                                          /\ Main.dishes_of_message json_loads m = None)
                                later ->
                         ~ has_role item ->
                         l = fallback_dishes)
                   /\ (forall earlier item later ds,
                         output x = VList (earlier ++ item :: later) ->
                         Forall (fun m => has_role m
                                          /\ Main.dishes_of_message json_loads m = None)
                                later ->
                         has_role item ->
                         Main.dishes_of_message json_loads item = Some ds ->
                         l = ds))
           end)
  /\ (forall messages : list value,
        Forall (fun m => has_role m /\ Main.dishes_of_message json_loads m = None)
               messages
        \/ exists earlier item later,
             messages = earlier ++ item :: later
             /\ Forall (fun m => has_role m
                                 /\ Main.dishes_of_message json_loads m = None) later
             /\ (~ has_role item
                 \/ exists ds,
                      has_role item
                      /\ Main.dishes_of_message json_loads item = Some ds))
  /\ (forall item dishes,
        Main.dishes_of_message json_loads item = Some dishes
        <-> exists c ds,
              getitem item "role" = Ret (VStr "assistant")
              /\ getitem item "content" = Ret (VStr c)
              /\ c <> EmptyString
              /\ json_loads (Main.clean_content c) = Some (VList ds)
              /\ (3 <= List.length ds)%nat
              /\ dishes = firstn 3 ds)
  /\ (forall body,
        lacks "`" body = true -> lstrip body = body -> rstrip body = body ->
        body <> EmptyString ->
        Main.clean_content body = body
        /\ Main.clean_content (Main.fenced "```" body) = body
        /\ Main.clean_content (Main.fenced "```json" body) = body).
Proof.
  intros Hfuel.
  split; [reflexivity|]. split.
  { intros Htext. unfold FinalUI.extract_dishes_from_text. simpl.
    apply String.eqb_neq in Htext. rewrite Htext. reflexivity. }
  split; [|split; [|split]].
  - unfold Main.extract_with_service.
    set (input := VDict _).
    set (after := fun polled : option execution => _).
    destruct (ProtocolFacts.run_ended E prompt input 30 after
                (Main.dishes_of_polled json_loads) fallback_dishes fuel w)
      as (l & w' & how & Hrun & Hend & Hres); try lia.
    { intros [x|] w1; simpl; [|reflexivity].
      destruct (String.eqb (status x) "succeeded"); [|reflexivity].
      unfold bind, lift. destruct (reversed (output x)); reflexivity. }
    { apply DishFacts.dishes_of_polled_total. }
    exists l, w', how. split; [exact Hrun|]. split; [exact Hend|].
    destruct how as [|x|]; [|destruct Hend as (n & st & p & i & _ & _ & _ & _ & _ & Ht)|];
      [eapply returned_value; [exact Hres|reflexivity]| |exact Hres].
    split; [apply terminal_status; exact Ht|]. split.
    { intros Hfail. simpl in Hres. rewrite Hfail in Hres. simpl in Hres.
      eapply returned_value; [exact Hres|reflexivity]. }
    intros Hok. split; [exact Hres|]. split; [|split; [|split]].
    + intros Hno.
      destruct (dishes_of_polled_no_list json_loads x Hok Hno) as [H|H].
      * eapply returned_value; [exact Hres|exact H].
      * eapply returned_default; [exact Hres|exact H].
    + intros messages Hout Hall.
      eapply returned_value; [exact Hres|].
      eapply DishFacts.dishes_of_polled_none; eauto.
    + intros earlier item later Hout Hall Hno.
      eapply returned_default; [exact Hres|].
      eapply dishes_of_polled_no_role; eauto.
    + intros earlier item later ds Hout Hall Hrole Hm.
      eapply returned_value; [exact Hres|].
      eapply DishFacts.dishes_of_polled_latest; eauto.
  - intros messages.
    destruct (latest_kept
                (P := fun m => has_role m /\ Main.dishes_of_message json_loads m = None)
                messages)
      as [Hall|(earlier & item & later & Hm & Hlater & Hitem)].
    { intros m. destruct (has_role_decided m) as [Hr|Hr]; [|right; tauto].
      destruct (Main.dishes_of_message json_loads m);
        [right; intros [_ H]; discriminate|left; auto]. }
    + left. exact Hall.
    + right. exists earlier, item, later. split; [exact Hm|]. split; [exact Hlater|].
      apply kept_by_dish_loop. exact Hitem.
  - intros item dishes. apply dishes_of_message_yields.
  - intros body H1 H2 H3 H4. repeat split.
    + apply FenceFacts.clean_content_bare; assumption.
    + apply FenceFacts.clean_content_plain_fence; assumption.
    + apply FenceFacts.clean_content_json_fence; assumption.
Qed.

(** A fenced array of four dishes: the first three come back. *)
Lemma extract_dishes_takes_latest_array_witness :
  let reply := Scenario.assistant
                 (Main.fenced "```json" (Json.dq "['Ramen', 'Sushi', 'Udon', 'Soba']")) in
  let text := "ramen, sushi, udon, soba" in
  exists l w',
    Main.extract_with_service Json.loads (Scenario.succeeds_with [reply]) 16
      "Tokyo" (Some text) (Main.dish_prompt "Tokyo" text) Scenario.w0 = (Ret l, w')
    /\ l = [VStr "Ramen"; VStr "Sushi"; VStr "Udon"].
Proof.
  intros reply text.
  destruct (extract_dishes_takes_latest_array Json.loads
              (Scenario.succeeds_with [reply]) 16 "Tokyo" text
              (Main.dish_prompt "Tokyo" text) Scenario.w0)
    as (_ & _ & (l & w' & how & H & Hend & Hhow) & _ & Hmsg & Hfence); [lia|].
  exists l, w'. split; [exact H|].
  rewrite (succeeds_with_ends_on_poll _ _ _ _ _ Hend) in Hhow.
  destruct Hhow as (_ & _ & Hok).
  destruct (Hok eq_refl) as (_ & _ & _ & _ & Hlatest).
  apply (Hlatest [] reply []).
  - reflexivity.
  - apply List.Forall_nil.
  - exists (VStr "assistant"). reflexivity.
  - apply Hmsg.
    exists (Main.fenced "```json" (Json.dq "['Ramen', 'Sushi', 'Udon', 'Soba']")),
      [VStr "Ramen"; VStr "Sushi"; VStr "Udon"; VStr "Soba"].
    split; [reflexivity|]. split; [reflexivity|]. split; [discriminate|].
    split; [|split; [simpl; lia|reflexivity]].
    assert (Hb : Main.clean_content
                   (Main.fenced "```json" (Json.dq "['Ramen', 'Sushi', 'Udon', 'Soba']"))
                 = Json.dq "['Ramen', 'Sushi', 'Udon', 'Soba']").
    { apply Hfence; try reflexivity. discriminate. }
    rewrite Hb. reflexivity.
Defined.

(** C5 as stated fails: the latest assistant message does not decode, and
    yet the dishes are not the fallback list but those of the assistant
    message before it. *)
Lemma extract_dishes_falls_back_to_earlier_message :
  let E := Scenario.succeeds_with
             [Scenario.assistant (Json.dq "['Ramen', 'Sushi', 'Udon']");
              Scenario.assistant "Sorry, I cannot help with that."] in
  let r := Main.extract_dishes_from_text Json.loads E 16 "Tokyo"
             (Some "ramen, sushi, udon") Scenario.w0 in
  Json.loads (Main.clean_content "Sorry, I cannot help with that.") = None
  /\ fst r = Ret [VStr "Ramen"; VStr "Sushi"; VStr "Udon"]
  /\ [VStr "Ramen"; VStr "Sushi"; VStr "Udon"] <> fallback_dishes.
Proof.
  split; [vm_compute; reflexivity|].
  split; [vm_compute; reflexivity|discriminate].
Qed.

(** A message without a role after the reply: going back from the latest
    message the loop test raises on it, outside the inner [try], and the
    reply is never read. *)
Example reply_lost_behind_message_without_role :
  let note := VDict [("content", VStr "note")] in
  let plan := Scenario.assistant (Json.dq "{'city': 'Paris'}") in
  let array := Scenario.assistant (Json.dq "['Ramen', 'Sushi', 'Udon']") in
  fst (Main.generate_foodie_tour Json.loads (Scenario.succeeds_with [plan; note]) 31
         "Paris" Scenario.sunny fallback_dishes [[]; []; []] Scenario.w0)
  = Ret VNone
  /\ fst (Main.extract_dishes_from_text Json.loads (Scenario.succeeds_with [array; note])
            16 "Tokyo" (Some "ramen, sushi, udon") Scenario.w0)
     = Ret fallback_dishes
  /\ fst (FinalUI.extract_dishes_from_text Json.loads
            (Scenario.succeeds_with [array; note])
            16 "Tokyo" (Some "ramen, sushi, udon") Scenario.w0)
     = Ret fallback_dishes.
Proof. vm_compute. repeat split; reflexivity. Qed.

End ReplyFacts.

(** ** tools.py: weather, scraping, the coordinate cache *)

Module ToolsFacts.
Import Py World.

Section WithEnv.
Variable E : env.

Lemma get_json_spec (url : string) (w : world) :
  exists r w', get_json E url w = (r, w')
    /\ calls w' = HttpGet url :: calls w
    /\ match r with
       | Ret data => http_json E w' = Some data
       | Raise _ => http_json E w' = None
       | OutOfFuel => False
       end.
Proof.
  unfold get_json, request.
  match goal with |- context [http_json E ?w1] => destruct (http_json E w1) eqn:H end;
    eexists _, _; (split; [reflexivity|]); split; auto.
Qed.

Lemma get_page_spec (url : string) (w : world) :
  exists r w', get_page E url w = (r, w')
    /\ match r with
       | Ret text => page_content E w' = Some text
       | Raise _ => page_content E w' = None
       | OutOfFuel => False
       end.
Proof.
  unfold get_page, request.
  match goal with |- context [page_content E ?w1] => destruct (page_content E w1) eqn:H end;
    eexists _, _; (split; [reflexivity|]); auto.
Qed.

(** [get_coordinates] returns, whatever the endpoint does: a tuple, or the
    [None] of the path without a [return]. *)
Lemma get_coordinates_returns (city : string) (w : world) :
  exists c w', Tools.get_coordinates E city w = (Ret c, w').
Proof.
  unfold Tools.get_coordinates, try_except, bind, lift, ret.
  destruct (get_json_spec (Tools.geocoding_url city) w) as (r & w1 & -> & _ & Hr).
  destruct r as [data|e|]; [|eauto|contradiction].
  destruct (dict_get data "results") as [found|e|] eqn:Hf; [|eauto|].
  2:{ destruct data; simpl in Hf; try discriminate.
      destruct (dict_lookup "results" d); discriminate. }
  destruct (truthy found); [|eauto].
  destruct (getitem data "results") as [results|e|] eqn:Hg; [|eauto|].
  2:{ destruct data; simpl in Hg; try discriminate.
      destruct (dict_lookup "results" d); discriminate. }
  destruct (getitem0 results) as [loc|e|] eqn:H0; [|eauto|].
  2:{ destruct results as [| | |s|l|]; simpl in H0; try discriminate;
        [destruct s|destruct l]; discriminate. }
  destruct (getitem loc "latitude") as [lat|e|] eqn:Hlat; [|eauto|].
  2:{ destruct loc; simpl in Hlat; try discriminate.
      destruct (dict_lookup "latitude" d); discriminate. }
  destruct (getitem loc "longitude") as [lon|e|] eqn:Hlon; [eauto|eauto|].
  destruct loc; simpl in Hlon; try discriminate.
  destruct (dict_lookup "longitude" d); discriminate.
Qed.

(** The loop over the URLs: it returns; what it appends are page texts of
    more than 200 characters cut to 2000, one per URL at most, and none
    when no page can be fetched. *)
Lemma scrape_urls_spec (urls : list string) :
  forall (results : list string) (w : world),
    exists added w',
      Tools.scrape_urls E urls results w = (Ret (results ++ added), w')
      /\ Forall (fun s => exists content,
                   s = slice_to content 2000 /\ 200 < len content) added
      /\ (List.length added <= List.length urls)%nat
      /\ ((forall w1, page_content E w1 = None) -> added = []).
Proof.
  induction urls as [|url urls IH]; intros results w.
  - exists [], w. simpl. rewrite app_nil_r.
    repeat split; auto.
  - cbn [Tools.scrape_urls]. unfold bind at 1. unfold try_except, bind at 1.
    destruct (get_page_spec url w) as (r & w' & -> & Hr).
    destruct r as [content|e|]; [|simpl|contradiction].
    + destruct (200 <? len content) eqn:Hlen; simpl.
      * destruct (IH (results ++ [slice_to content 2000]) w')
          as (added & w2 & -> & Hall & Hn & Hnone).
        exists (slice_to content 2000 :: added), w2.
        rewrite <- app_assoc. split; [reflexivity|]. split; [|split].
        -- apply List.Forall_cons; [|exact Hall].
           exists content. apply Z.ltb_lt in Hlen. auto.
        -- simpl. lia.
        -- intros Hp. rewrite Hp in Hr. discriminate.
      * destruct (IH results w') as (added & w2 & -> & Hall & Hn & Hnone).
        exists added, w2. repeat split; auto; simpl; lia.
    + destruct (IH results w') as (added & w2 & -> & Hall & Hn & Hnone).
      exists added, w2. repeat split; auto; simpl; lia.
Qed.

End WithEnv.

(** C2, where the code departs from it: when the geocoding answer has no
    match, [get_coordinates] ends without a [return], so what it hands
    back is [None] and not a pair, and the unpacking in [get_weather]
    raises a [TypeError] that nothing catches. *)
Theorem get_weather_raises_without_match
  (E : env) (city : string) (w w1 : world) (data found : value) :
  get_json E (Tools.geocoding_url city) w = (Ret data, w1) ->
  dict_get data "results" = Ret found ->
  truthy found = false ->
  Tools.get_coordinates E city w = (Ret None, w1)
  /\ Tools.get_weather E city w = (Raise "TypeError", w1).
Proof.
  intros Hget Hfound Hfalse.
  assert (Hc : Tools.get_coordinates E city w = (Ret None, w1)).
  { unfold Tools.get_coordinates, try_except, bind, lift, ret.
    rewrite Hget, Hfound, Hfalse. reflexivity. }
  split; [exact Hc|].
  unfold Tools.get_weather, bind. rewrite Hc. reflexivity.
Qed.

Lemma get_weather_raises_without_match_witness :
  Tools.get_coordinates (Scenario.weather_service (Some (VDict [])) None)
    "Atlantis" Scenario.w0
  = (Ret None, {| clock := 0; calls := [HttpGet (Tools.geocoding_url "Atlantis")] |})
  /\ Tools.get_weather (Scenario.weather_service (Some (VDict [])) None)
       "Atlantis" Scenario.w0
     = (Raise "TypeError",
        {| clock := 0; calls := [HttpGet (Tools.geocoding_url "Atlantis")] |}).
Proof.
  apply (get_weather_raises_without_match
           (Scenario.weather_service (Some (VDict [])) None) "Atlantis"
           Scenario.w0 _ (VDict []) VNone); reflexivity.
Defined.

(** The rest of C2 holds: a geocoding request that fails gives the pair of
    [None]s and the default reading, and so does a forecast that fails. *)
Lemma get_weather_default_on_failure (E : env) (city : string) (w : world) :
  (forall e w1, get_json E (Tools.geocoding_url city) w = (Raise e, w1) ->
     Tools.get_coordinates E city w = (Ret (Some (VNone, VNone)), w1)
     /\ Tools.get_weather E city w = (Ret Tools.default_weather, w1))
  /\ (forall lat lon w1 e w2,
        Tools.get_coordinates E city w = (Ret (Some (lat, lon)), w1) ->
        Tools.is_none lat = false ->
        get_json E (Tools.forecast_url E lat lon) w1 = (Raise e, w2) ->
        Tools.get_weather E city w = (Ret Tools.default_weather, w2)).
Proof.
  split.
  - intros e w1 Hget.
    assert (Hc : Tools.get_coordinates E city w = (Ret (Some (VNone, VNone)), w1)).
    { unfold Tools.get_coordinates, try_except, bind. rewrite Hget. reflexivity. }
    split; [exact Hc|].
    unfold Tools.get_weather, bind. rewrite Hc. reflexivity.
  - intros lat lon w1 e w2 Hc Hlat Hget.
    unfold Tools.get_weather, bind at 1. rewrite Hc.
    unfold bind at 1, lift. simpl. rewrite Hlat.
    unfold try_except, bind. rewrite Hget. reflexivity.
Qed.

(** C8.  [scrape_restaurants_for_dish] returns a list, never [None] and
    never an exception; the list is empty when the search module is
    missing, when the search yields no URL, and when no page can be
    fetched; every snippet in it is the text of a page of more than 200
    characters cut to its first 2000, so it has more than 200 and at most
    2000 characters; and there are no more snippets than the search
    yields URLs. *)
Theorem scrape_restaurants_returns_bounded_snippets
  (E : env) (city dish : string) (w : world) :
  exists results w',
    Tools.scrape_restaurants_for_dish E city dish w = (Ret results, w')
    /\ Forall (fun s => exists content,
                 s = slice_to content 2000 /\ 200 < len content) results
    /\ Forall (fun s => 200 < len s <= 2000) results
    /\ (googlesearch_installed E = false -> results = [])
    /\ ((forall w1, fst (search E w1) = []) -> results = [])
    /\ ((forall w1, page_content E w1 = None) -> results = [])
    /\ (forall n : nat,
          (forall w1, (List.length (fst (search E w1)) <= n)%nat) ->
          (List.length results <= n)%nat).
Proof.
  unfold Tools.scrape_restaurants_for_dish.
  destruct (googlesearch_installed E) eqn:Hinst; simpl.
  2:{ exists [], w. repeat split; auto; try apply List.Forall_nil.
      intros n _. simpl. lia. }
  unfold bind, request.
  match goal with |- context [search E ?w1] =>
    set (w' := w1); destruct (search E w') as [urls raises] eqn:Hsearch end.
  destruct (scrape_urls_spec E urls [] w') as (results & w2 & Hs & Hall & Hn & Hnone).
  simpl in Hs.
  exists results, w2. split; [exact Hs|].
  split; [exact Hall|].
  split.
  { eapply List.Forall_impl; [|exact Hall].
    intros s (content & -> & Hlen). rewrite StrFacts.len_slice_to by lia. lia. }
  split; [discriminate|].
  split; [|split; [exact Hnone|]].
  - intros Hno. specialize (Hno w'). rewrite Hsearch in Hno. simpl in Hno. subst urls.
    destruct results; [reflexivity|simpl in Hn; lia].
  - intros n Hbound. specialize (Hbound w'). rewrite Hsearch in Hbound.
    simpl in Hbound. lia.
Qed.

(** C10.  The first call of [get_coordinates_cached] for a city returns
    and leaves its result under the city in the cache; every call after it
    for the same city returns the same result and the same cache, asks
    nothing of the outside, and does so whatever the geocoding endpoint
    would answer by then -- also when what is stored is the pair of
    [None]s of a failed request or the [None] of an answer without a
    match. *)
Theorem cached_coordinates_are_reused
  (E E' : env) (city : string) (cache : gmap string Tools.coords) (w : world) :
  exists c cache1 w1,
    Tools.get_coordinates_cached E city cache w = (Ret (c, cache1), w1)
    /\ cache1 !! city = Some c
    /\ (forall (cache2 : gmap string Tools.coords) (w2 : world),
          cache2 !! city = Some c ->
          Tools.get_coordinates_cached E' city cache2 w2 = (Ret (c, cache2), w2))
    /\ (forall (other : string) (cache2 cache3 : gmap string Tools.coords)
               (w2 w3 : world) (c' : Tools.coords),
          cache2 !! city = Some c ->
          Tools.get_coordinates_cached E' other cache2 w2 = (Ret (c', cache3), w3) ->
          cache3 !! city = Some c).
Proof.
  assert (Hhit : forall (c : Tools.coords) (cache2 : gmap string Tools.coords) w2,
            cache2 !! city = Some c ->
            Tools.get_coordinates_cached E' city cache2 w2 = (Ret (c, cache2), w2)).
  { intros c cache2 w2 Hc. unfold Tools.get_coordinates_cached. rewrite Hc. reflexivity. }
  assert (Hkeep : forall (c : Tools.coords) other (cache2 cache3 : gmap string Tools.coords)
                         w2 w3 c',
            cache2 !! city = Some c ->
            Tools.get_coordinates_cached E' other cache2 w2 = (Ret (c', cache3), w3) ->
            cache3 !! city = Some c).
  { intros c other cache2 cache3 w2 w3 c' Hc. unfold Tools.get_coordinates_cached.
    destruct (cache2 !! other) as [c0|] eqn:Ho.
    - intros H. inversion H; subst. exact Hc.
    - unfold bind. destruct (get_coordinates_returns E' other w2) as (c1 & w4 & ->).
      intros H. inversion H; subst.
      rewrite lookup_insert_ne; [exact Hc|]. intros ->. congruence. }
  unfold Tools.get_coordinates_cached at 1.
  destruct (cache !! city) as [c|] eqn:Hc.
  - exists c, cache, w. split; [reflexivity|]. split; [exact Hc|].
    split; [apply Hhit|apply Hkeep].
  - destruct (get_coordinates_returns E city w) as (c & w1 & Hget).
    exists c, (<[city := c]> cache), w1.
    unfold bind. rewrite Hget. split; [reflexivity|].
    split; [apply lookup_insert_eq|].
    split; [apply Hhit|apply Hkeep].
Qed.

(** A request that failed once stays in the cache: the endpoint answers
    the second request, but the second call never issues it. *)
Example failed_lookup_is_cached :
  let E := Scenario.weather_service None (Some Scenario.paris_geo) in
  let r1 := Tools.get_coordinates_cached E "Paris" ∅ Scenario.w0 in
  match fst r1 with
  | Ret (c, cache1) =>
      c = Some (VNone, VNone)
      /\ fst (Tools.get_coordinates E "Paris" (snd r1))
         = Ret (Some (VNum (4885341 # 100000), VNum (23488 # 10000)))
      /\ Tools.get_coordinates_cached E "Paris" cache1 (snd r1)
         = (Ret (c, cache1), snd r1)
  | _ => False
  end.
Proof.
  simpl. split; [reflexivity|]. split; [reflexivity|].
  unfold Tools.get_coordinates_cached. rewrite lookup_insert_eq. reflexivity.
Qed.

(** C6.  When the coordinates resolved and the forecast endpoint answered
    with a numeric temperature and a numeric weather code, [get_weather]
    returns that temperature, the condition the thresholds give to the
    code, and [outdoor] exactly when the condition is [clear] and the
    temperature is above 15, [indoor] otherwise.  (The thresholds as the
    code tests them also give [cloudy] to every other code up to 3 and
    [rainy] to every code above 3 up to 67.) *)
Theorem get_weather_maps_code_and_temperature
  (E : env) (city : string) (w w1 w2 : world) (lat lon data current : value)
  (temp code : Q) :
  Tools.get_coordinates E city w = (Ret (Some (lat, lon)), w1) ->
  Tools.is_none lat = false ->
  get_json E (Tools.forecast_url E lat lon) w1 = (Ret data, w2) ->
  getitem data "current" = Ret current ->
  getitem current "temperature_2m" = Ret (VNum temp) ->
  getitem current "weather_code" = Ret (VNum code) ->
  exists r,
    Tools.get_weather E city w = (Ret r, w2)
    /\ Tools.temperature r = VNum temp
    /\ (code == 0 -> Tools.condition r = "clear")%Q
    /\ (1 <= code /\ code <= 3 -> Tools.condition r = "cloudy")%Q
    /\ (4 <= code /\ code <= 67 -> Tools.condition r = "rainy")%Q
    /\ (67 < code -> Tools.condition r = "stormy")%Q
    /\ (~ code == 0 /\ code <= 3 -> Tools.condition r = "cloudy")%Q
    /\ (3 < code /\ code <= 67 -> Tools.condition r = "rainy")%Q
    /\ (Tools.recommendation r = "outdoor"
        <-> Tools.condition r = "clear" /\ (15 < temp)%Q)
    /\ (Tools.recommendation r = "outdoor" \/ Tools.recommendation r = "indoor").
Proof.
  intros Hc Hlat Hget Hcur Htemp Hcode.
  unfold Tools.get_weather, bind at 1. rewrite Hc.
  unfold bind at 1, lift. simpl. rewrite Hlat.
  unfold try_except, bind. rewrite Hget. unfold lift.
  rewrite Hcur, Htemp, Hcode.
  unfold Tools.condition_of_code, Tools.is_outdoor, eq_num, le_num, gt_num. simpl.
  destruct (Qeq_bool code 0) eqn:H0.
  - simpl. apply Qeq_bool_iff in H0.
    destruct (Qle_bool temp 15) eqn:H15; simpl.
    + apply Qle_bool_iff in H15.
      eexists; split; [reflexivity|]; simpl.
      repeat split; auto; try (intros; lra); try discriminate;
        try (intros [_ Hlt]; lra).
    + assert (15 < temp)%Q.
      { apply Qnot_le_lt. intros Hle. apply Qle_bool_iff in Hle. congruence. }
      eexists; split; [reflexivity|]; simpl.
      repeat split; auto; try (intros; lra).
  - assert (Hne : ~ (code == 0)%Q).
    { intros Heq. apply Qeq_bool_iff in Heq. congruence. }
    destruct (Qle_bool code 3) eqn:H3; simpl.
    + apply Qle_bool_iff in H3.
      eexists; split; [reflexivity|]; simpl.
      repeat split; auto; try (intros; lra); try discriminate;
        try (intros [Hd _]; discriminate).
    + assert (3 < code)%Q.
      { apply Qnot_le_lt. intros Hle. apply Qle_bool_iff in Hle. congruence. }
      destruct (Qle_bool code 67) eqn:H67; simpl.
      * apply Qle_bool_iff in H67.
        eexists; split; [reflexivity|]; simpl.
        repeat split; auto; try (intros; lra); try discriminate;
          try (intros [Hd _]; discriminate).
      * assert (67 < code)%Q.
        { apply Qnot_le_lt. intros Hle. apply Qle_bool_iff in Hle. congruence. }
        eexists; split; [reflexivity|]; simpl.
        repeat split; auto; try (intros; lra); try discriminate;
          try (intros [Hd _]; discriminate).
Qed.

(** The scenario of the specification: Paris, weather code 0, 22 degrees. *)
Lemma get_weather_maps_code_and_temperature_witness :
  exists r w',
    Tools.get_weather
      (Scenario.weather_service (Some Scenario.paris_geo)
         (Some (Scenario.forecast_of 22 0))) "Paris" Scenario.w0 = (Ret r, w')
    /\ Tools.condition r = "clear"
    /\ Tools.recommendation r = "outdoor".
Proof.
  destruct (get_weather_maps_code_and_temperature
              (Scenario.weather_service (Some Scenario.paris_geo)
                 (Some (Scenario.forecast_of 22 0))) "Paris" Scenario.w0
              {| clock := 0; calls := [HttpGet (Tools.geocoding_url "Paris")] |}
              {| clock := 0;
                 calls := [HttpGet (Tools.forecast_url
                                      (Scenario.weather_service None None)
                                      (VNum (4885341 # 100000)) (VNum (23488 # 10000)));
                           HttpGet (Tools.geocoding_url "Paris")] |}
              (VNum (4885341 # 100000)) (VNum (23488 # 10000))
              (Scenario.forecast_of 22 0)
              (VDict [("temperature_2m", VNum 22); ("weather_code", VNum 0)])
              22 0)
    as (r & Hr & _ & Hclear & _ & _ & _ & _ & _ & Hout & _); try reflexivity.
  exists r. eexists. split; [exact Hr|].
  assert (Hcond : Tools.condition r = "clear") by (apply Hclear; reflexivity).
  split; [exact Hcond|].
  apply Hout. split; [exact Hcond|reflexivity].
Defined.

End ToolsFacts.

(** ** The restaurant context of the prompt *)

Module ContextFacts.
Import Py World Julep StrFacts.

Lemma fold_left_append (lines : list string) (acc : string) :
  fold_left (fun a line => a +:+ line) lines acc
  = acc +:+ String.concat EmptyString lines.
Proof.
  revert acc. induction lines as [|x l IH]; intros acc; simpl.
  - rewrite append_empty_r. reflexivity.
  - rewrite IH. destruct l as [|y l'].
    + simpl. rewrite append_empty_r. reflexivity.
    + rewrite append_assoc. reflexivity.
Qed.

Lemma fold_left_lines {A : Type} (line : A -> string) (l : list A) (acc : string) :
  fold_left (fun a p => a +:+ line p) l acc
  = fold_left (fun a s => a +:+ s) (map line l) acc.
Proof. revert acc. induction l as [|x l IH]; intros acc; simpl; auto. Qed.

(** C7, as the code has it.  The context is the lines of the dishes one
    after the other, a line for every dish that has a snippet list at its
    position.  In final-ui.py the line of a dish holds its first two
    snippets at most, joined with a semicolon and a space, and the phrase
    "Popular local restaurants" when the dish has none.  In main.py it
    holds the first three snippets at most, joined the same way, and
    nothing after the colon when the dish has none. *)
Theorem restaurant_context_lines
  (E : env) (dishes : list value) (restaurant_infos : list (list string)) :
  FinalUI.restaurant_context E dishes restaurant_infos
  = String.concat EmptyString
      (map (fun p => FinalUI.context_line E (fst p) (snd p))
           (combine dishes restaurant_infos))
  /\ Main.restaurant_context E dishes restaurant_infos
     = String.concat EmptyString
         (map (fun p => Main.context_line E (fst p) (snd p))
              (combine dishes restaurant_infos))
  /\ (forall dish : value,
        FinalUI.context_line E dish []
        = nl +:+ str E dish +:+ ": Popular local restaurants"
        /\ Main.context_line E dish [] = nl +:+ str E dish +:+ ": ")
  /\ (forall (dish : value) (restaurants : list string),
        restaurants <> [] ->
        FinalUI.context_line E dish restaurants
        = nl +:+ str E dish +:+ ": " +:+ join "; " (firstn 2 restaurants))
  /\ (forall (dish : value) (restaurants : list string),
        Main.context_line E dish restaurants
        = nl +:+ str E dish +:+ ": " +:+ join "; " (firstn 3 restaurants))
  /\ (forall (name : string), str E (VStr name) = name)
  /\ (forall restaurants : list string,
        (List.length (firstn 2 restaurants) <= 2)%nat
        /\ (List.length (firstn 3 restaurants) <= 3)%nat).
Proof.
  split; [|split; [|split; [|split; [|split; [|split]]]]].
  - unfold FinalUI.restaurant_context.
    rewrite (fold_left_lines (fun p => FinalUI.context_line E (fst p) (snd p))).
    rewrite fold_left_append. reflexivity.
  - unfold Main.restaurant_context.
    rewrite (fold_left_lines (fun p => Main.context_line E (fst p) (snd p))).
    rewrite fold_left_append. reflexivity.
  - intros dish. split; reflexivity.
  - intros dish [|r rs] Hne; [congruence|].
    reflexivity.
  - intros dish rs. reflexivity.
  - reflexivity.
  - intros rs. rewrite !List.length_firstn. lia.
Qed.

(** C7 as stated fails for main.py: a dish without snippets gets nothing
    after the colon, not the phrase. *)
Lemma main_context_has_no_phrase :
  Main.restaurant_context (Scenario.succeeds_with [])
    [VStr "Ramen"; VStr "Sushi"] [[]; ["Sushi Dai, Tsukiji"]]
  = nl +:+ "Ramen: " +:+ nl +:+ "Sushi: Sushi Dai, Tsukiji"
  /\ Main.context_line (Scenario.succeeds_with []) (VStr "Ramen") []
     <> nl +:+ "Ramen: Popular local restaurants".
Proof. split; [reflexivity|discriminate]. Qed.

End ContextFacts.

(** ** The pipeline on concrete answers of the outside *)

Module Runs.
Import Py World Julep Scenario.

(** The decoder on a few texts: what it accepts, and what it rejects as
    [json.loads] does (an empty text, a trailing comma, text after the
    value, a bare brace). *)
Example loads_accepts :
  Json.loads "{}" = Some (VDict [])
  /\ Json.loads " [1, 2.5, -3e2] " = Some (VList [VNum 1; VNum (25 # 10); VNum (-300)])
  /\ Json.loads (Json.dq "{'a': [true, null], 'a': 'last wins'}")
     = Some (VDict [("a", VStr "last wins")]).
Proof. repeat split; reflexivity. Qed.

Example loads_rejects :
  Json.loads "" = None
  /\ Json.loads "[1,]" = None
  /\ Json.loads "[1] and more" = None
  /\ Json.loads "}" = None
  /\ Json.loads (Json.dq "['unterminated") = None.
Proof. repeat split; reflexivity. Qed.

(** The brace span of a text, also when a brace is missing. *)
Example json_span_cases :
  Main.json_span "Sure! {1} and {2}." = "{1} and {2}"
  /\ Main.json_span "no braces" = EmptyString
  /\ Main.json_span "only { opens" = EmptyString
  /\ Main.json_span "} before {" = EmptyString.
Proof. repeat split; reflexivity. Qed.

(** Three polls, two seconds apart, then the answer. *)
Example tour_after_two_rounds :
  let E := succeeds_after 2 [assistant paris_plan_text] in
  let r := Main.generate_foodie_tour Json.loads E 31 "Paris" sunny
             fallback_dishes [[]; []; []] w0 in
  option_map Schema.satisfies_TourPlan
    (match fst r with Ret v => Some v | _ => None end) = Some true
  /\ clock (snd r) = 4000
  /\ List.map is_get (calls (snd r)) = [true; false; true; false; true; false; false].
Proof. vm_compute. repeat split; reflexivity. Qed.

(** The service fails, or never ends: no tour, and the fallback dishes. *)
Example no_tour_on_failure_or_timeout :
  fst (Main.generate_foodie_tour Json.loads fails 31 "Paris" sunny
         fallback_dishes [[]; []; []] w0) = Ret VNone
  /\ fst (FinalUI.generate_tour Json.loads keeps_running 31 "Paris" sunny
           fallback_dishes [[]; []; []] w0) = Ret VNone
  /\ fst (FinalUI.extract_dishes_from_text Json.loads keeps_running 16 "Paris"
           (Some "baguette") w0) = Ret fallback_dishes
  /\ clock (snd (FinalUI.extract_dishes_from_text Json.loads keeps_running 16 "Paris"
                   (Some "baguette") w0)) = 32000.
Proof. vm_compute. repeat split; reflexivity. Qed.

(** Too little fuel shows as such, never as a result. *)
Example thirty_rounds_are_too_few :
  fst (Main.generate_foodie_tour Json.loads keeps_running 30 "Paris" sunny
         fallback_dishes [[]; []; []] w0) = OutOfFuel.
Proof. vm_compute. reflexivity. Qed.

(** Three URLs: a page of 201 characters is kept, one that cannot be
    fetched is skipped, one of 200 characters is dropped. *)
Example scrape_keeps_long_pages :
  fst (Tools.scrape_restaurants_for_dish
         (search_service ["u1"; "u2"; "u3"]
            [("u1", page_of_length 201); ("u3", page_of_length 200)])
         "Paris" "Crepe" w0)
  = Ret [page_of_length 201].
Proof. vm_compute. reflexivity. Qed.

(** A page of 2500 characters is cut to 2000. *)
Example scrape_cuts_long_pages :
  match fst (Tools.scrape_restaurants_for_dish
               (search_service ["u1"] [("u1", page_of_length 2500)])
               "Paris" "Crepe" w0) with
  | Ret [s] => len s
  | _ => -1
  end = 2000.
Proof. vm_compute. reflexivity. Qed.

End Runs.

(** ** tools.py: every outcome of the coordinate and weather lookups *)

Module LookupFacts.
Import Py World.

(** X1.  [get_coordinates] asks the geocoding endpoint once and never raises.
    It hands back the latitude and longitude of the first match; [None]
    when the answer is an object without matches; and the pair of [None]s
    in every other case: the request failed, the answer is no object, the
    matches are no list, or the first match lacks a coordinate. *)
Theorem get_coordinates_outcomes (E : env) (city : string) (w : world) :
  exists c w',
    Tools.get_coordinates E city w = (Ret c, w')
    /\ calls w' = HttpGet (Tools.geocoding_url city) :: calls w
    /\ (http_json E w' = None -> c = Some (VNone, VNone))
    /\ (forall d loc rest lat lon,
          http_json E w' = Some (VDict d) ->
          dict_lookup "results" d = Some (VList (loc :: rest)) ->
          getitem loc "latitude" = Ret lat ->
          getitem loc "longitude" = Ret lon ->
          c = Some (lat, lon))
    /\ (c = None <->
        exists d, http_json E w' = Some (VDict d)
                  /\ match dict_lookup "results" d with
                     | Some found => truthy found = false
                     | None => True
                     end)
    /\ (forall lat lon,
          c = Some (lat, lon) ->
          (lat, lon) = (VNone, VNone)
          \/ exists d loc rest,
               http_json E w' = Some (VDict d)
               /\ dict_lookup "results" d = Some (VList (loc :: rest))
               /\ getitem loc "latitude" = Ret lat
               /\ getitem loc "longitude" = Ret lon).
Proof.
  unfold Tools.get_coordinates, try_except, bind, lift, ret.
  destruct (ToolsFacts.get_json_spec E (Tools.geocoding_url city) w)
    as (r & w' & -> & Hcalls & Hr).
  destruct r as [data|e|]; [|exists (Some (VNone, VNone)), w'|contradiction].
  2:{ split; [reflexivity|]. split; [exact Hcalls|]. split; [reflexivity|].
      split; [intros; congruence|]. split; [|intros lat lon H; left; congruence].
      split; [discriminate|]. intros (d & Hd & _). congruence. }
  destruct data as [| | | | |d];
    try (exists (Some (VNone, VNone)), w'; simpl;
         split; [reflexivity|]; split; [exact Hcalls|]; split; [reflexivity|];
         split; [intros; congruence|]; split; [|intros lat lon H; left; congruence];
         split; [discriminate|]; intros (d & Hd & _); congruence).
  cbn [dict_get getitem].
  destruct (dict_lookup "results" d) as [found|] eqn:Hfound.
  2:{ exists None, w'. cbn [truthy].
      split; [reflexivity|]. split; [exact Hcalls|]. split; [congruence|].
      split; [|split; [|discriminate]].
      - intros d0 loc rest lat lon Hd0 Hres. rewrite Hr in Hd0. inversion Hd0; subst d0.
        congruence.
      - split; [|reflexivity]. intros _. exists d. rewrite Hfound. auto. }
  destruct (truthy found) eqn:Htruthy.
  2:{ exists None, w'.
      split; [reflexivity|]. split; [exact Hcalls|]. split; [congruence|].
      split; [|split; [|discriminate]].
      - intros d0 loc rest lat lon Hd0 Hres. rewrite Hr in Hd0. inversion Hd0; subst d0.
        rewrite Hfound in Hres. inversion Hres; subst found. discriminate.
      - split; [|reflexivity]. intros _. exists d. rewrite Hfound. auto. }
  assert (Hnot_none : forall c : Tools.coords,
            c <> None ->
            (c = None <->
             exists d0, http_json E w' = Some (VDict d0)
                        /\ match dict_lookup "results" d0 with
                           | Some found0 => truthy found0 = false
                           | None => True
                           end)).
  { intros c Hc. split; [congruence|].
    intros (d0 & Hd0 & Hm). rewrite Hr in Hd0. inversion Hd0; subst d0.
    rewrite Hfound in Hm. congruence. }
  destruct (getitem0 found) as [loc|e|] eqn:Hloc.
  2:{ exists (Some (VNone, VNone)), w'.
      split; [reflexivity|]. split; [exact Hcalls|]. split; [congruence|].
      split; [|split; [apply Hnot_none; discriminate|intros lat lon H; left; congruence]].
      intros d0 loc rest lat lon Hd0 Hres. rewrite Hr in Hd0. inversion Hd0; subst d0.
      rewrite Hfound in Hres. inversion Hres; subst found. discriminate. }
  2:{ destruct found as [| | |s|l|]; simpl in Hloc; try discriminate;
        [destruct s|destruct l]; discriminate. }
  destruct (getitem loc "latitude") as [lat|e|] eqn:Hlat.
  2:{ exists (Some (VNone, VNone)), w'.
      split; [reflexivity|]. split; [exact Hcalls|]. split; [congruence|].
      split; [|split; [apply Hnot_none; discriminate|intros lat lon H; left; congruence]].
      intros d0 loc0 rest lat lon Hd0 Hres. rewrite Hr in Hd0. inversion Hd0; subst d0.
      rewrite Hfound in Hres. inversion Hres; subst found.
      simpl in Hloc. inversion Hloc; subst loc0. congruence. }
  2:{ destruct loc; simpl in Hlat; try discriminate.
      destruct (dict_lookup "latitude" d0); discriminate. }
  destruct (getitem loc "longitude") as [lon|e|] eqn:Hlon.
  2:{ exists (Some (VNone, VNone)), w'.
      split; [reflexivity|]. split; [exact Hcalls|]. split; [congruence|].
      split; [|split; [apply Hnot_none; discriminate|intros lat0 lon H; left; congruence]].
      intros d0 loc0 rest lat0 lon Hd0 Hres. rewrite Hr in Hd0. inversion Hd0; subst d0.
      rewrite Hfound in Hres. inversion Hres; subst found.
      simpl in Hloc. inversion Hloc; subst loc0. congruence. }
  2:{ destruct loc; simpl in Hlon; try discriminate.
      destruct (dict_lookup "longitude" d0); discriminate. }
  exists (Some (lat, lon)), w'.
  split; [reflexivity|]. split; [exact Hcalls|]. split; [congruence|].
  split; [|split; [apply Hnot_none; discriminate|]].
  - intros d0 loc0 rest lat0 lon0 Hd0 Hres. rewrite Hr in Hd0. inversion Hd0; subst d0.
    rewrite Hfound in Hres. inversion Hres; subst found.
    simpl in Hloc. inversion Hloc; subst loc0. congruence.
  - intros lat0 lon0 H. inversion H; subst lat0 lon0.
    destruct found as [| | |s|l|]; simpl in Hloc; try discriminate.
    + destruct s; [discriminate|]. inversion Hloc; subst loc. discriminate.
    + destruct l as [|x rest]; [discriminate|]. inversion Hloc; subst x.
      right. exists d, loc, rest. auto.
Qed.

Lemma get_coordinates_world (E : env) (city : string) (w : world) c w' :
  Tools.get_coordinates E city w = (c, w') ->
  calls w' = HttpGet (Tools.geocoding_url city) :: calls w.
Proof.
  unfold Tools.get_coordinates, try_except, bind, lift, ret.
  destruct (ToolsFacts.get_json_spec E (Tools.geocoding_url city) w)
    as (r & w1 & -> & Hcalls & _).
  destruct r as [data|e|]; [|congruence|congruence].
  destruct (dict_get data "results") as [found|e|]; [|congruence|congruence].
  destruct (truthy found); [|congruence].
  destruct (getitem data "results") as [results|e|]; [|congruence|congruence].
  destruct (getitem0 results) as [loc|e|]; [|congruence|congruence].
  destruct (getitem loc "latitude") as [lat|e|]; [|congruence|congruence].
  destruct (getitem loc "longitude") as [lon|e|]; congruence.
Qed.

Lemma getitem_returns (v : value) (key : string) : getitem v key <> OutOfFuel.
Proof.
  destruct v; simpl; try discriminate. destruct (dict_lookup key d); discriminate.
Qed.

Lemma condition_of_code_returns (code : value) :
  Tools.condition_of_code code <> OutOfFuel.
Proof.
  unfold Tools.condition_of_code, le_num.
  destruct (eq_num code 0); [discriminate|].
  destruct (as_number code) as [q|]; [|discriminate]. simpl.
  destruct (Qle_bool q 3); [discriminate|].
  destruct (Qle_bool q 67); discriminate.
Qed.

Lemma is_outdoor_returns (c : string) (temp : value) :
  Tools.is_outdoor c temp <> OutOfFuel.
Proof.
  unfold Tools.is_outdoor, gt_num.
  destruct (String.eqb c "clear"); [|discriminate].
  destruct (as_number temp); discriminate.
Qed.

Lemma condition_of_code_range (code : value) (c : string) :
  Tools.condition_of_code code = Ret c ->
  In c ["clear"; "cloudy"; "rainy"; "stormy"].
Proof.
  unfold Tools.condition_of_code, le_num.
  destruct (eq_num code 0); [intros [= <-]; simpl; auto|].
  destruct (as_number code) as [q|]; [|discriminate]. simpl.
  destruct (Qle_bool q 3); [intros [= <-]; simpl; auto|].
  destruct (Qle_bool q 67); intros [= <-]; simpl; auto.
Qed.

Lemma is_outdoor_true (c : string) (temp : value) :
  Tools.is_outdoor c temp = Ret true ->
  c = "clear" /\ exists q, as_number temp = Some q /\ (15 < q)%Q.
Proof.
  unfold Tools.is_outdoor, gt_num.
  destruct (String.eqb c "clear") eqn:Hc; [|discriminate].
  apply String.eqb_eq in Hc.
  destruct (as_number temp) as [q|]; [|discriminate].
  intros [= H]. split; [exact Hc|]. exists q. split; [reflexivity|].
  apply Qnot_le_lt. intros Hle. apply Qle_bool_iff in Hle.
  rewrite Hle in H. discriminate.
Qed.

Lemma default_is_sound : ToolsRest.sound_reading Tools.default_weather.
Proof.
  unfold ToolsRest.sound_reading. simpl. repeat split; auto 10; discriminate.
Qed.

Lemma get_weather_cases (E : env) (city : string) (w : world) :
  exists r w',
    Tools.get_weather E city w = (r, w')
    /\ match r with
       | Ret reading =>
           ToolsRest.sound_reading reading
           /\ exists lat lon w1,
                Tools.get_coordinates E city w = (Ret (Some (lat, lon)), w1)
                /\ (w' = w1
                    \/ calls w' = HttpGet (Tools.forecast_url E lat lon) :: calls w1)
       | Raise e => e = "TypeError" /\ Tools.get_coordinates E city w = (Ret None, w')
       | OutOfFuel => False
       end.
Proof.
  unfold Tools.get_weather, bind at 1.
  destruct (ToolsFacts.get_coordinates_returns E city w) as (c & w1 & Hc).
  rewrite Hc. destruct c as [[lat lon]|].
  2:{ exists (Raise "TypeError"), w1. split; [reflexivity|]. auto. }
  unfold bind at 1, lift. cbn [Tools.unpack2].
  destruct (Tools.is_none lat).
  { exists (Ret Tools.default_weather), w1. split; [reflexivity|].
    split; [apply default_is_sound|]. exists lat, lon, w1. auto. }
  unfold try_except, bind, lift, ret.
  destruct (ToolsFacts.get_json_spec E (Tools.forecast_url E lat lon) w1)
    as (r & w2 & -> & Hcalls & Hr).
  assert (Hdefault :
            exists r0 w',
              (Ret Tools.default_weather, w2) = (r0, w')
              /\ match r0 with
                 | Ret reading =>
                     ToolsRest.sound_reading reading
                     /\ exists lat0 lon0 w3,
                          (Ret (Some (lat, lon)), w1) = (Ret (Some (lat0, lon0)), w3)
                          /\ (w' = w3
                              \/ calls w' = HttpGet (Tools.forecast_url E lat0 lon0) :: calls w3)
                 | Raise e => e = "TypeError" /\ (Ret (Some (lat, lon)), w1) = (Ret None, w')
                 | OutOfFuel => False
                 end).
  { exists (Ret Tools.default_weather), w2. split; [reflexivity|].
    split; [apply default_is_sound|]. exists lat, lon, w1. auto. }
  destruct r as [data|e|]; [|exact Hdefault|contradiction].
  destruct (getitem data "current") as [current|e|] eqn:Hcur;
    [|exact Hdefault|exfalso; exact (getitem_returns _ _ Hcur)].
  destruct (getitem current "temperature_2m") as [temp|e|] eqn:Htemp;
    [|exact Hdefault|exfalso; exact (getitem_returns _ _ Htemp)].
  destruct (getitem current "weather_code") as [code|e|] eqn:Hcode;
    [|exact Hdefault|exfalso; exact (getitem_returns _ _ Hcode)].
  destruct (Tools.condition_of_code code) as [cond|e|] eqn:Hcond;
    [|exact Hdefault|exfalso; exact (condition_of_code_returns _ Hcond)].
  destruct (Tools.is_outdoor cond temp) as [outdoor|e|] eqn:Hout;
    [|exact Hdefault|exfalso; exact (is_outdoor_returns _ _ Hout)].
  eexists _, w2. split; [reflexivity|].
  split; [|exists lat, lon, w1; auto].
  pose proof (condition_of_code_range _ _ Hcond) as Hin.
  unfold ToolsRest.sound_reading. cbn [Tools.condition Tools.recommendation Tools.temperature].
  split; [simpl in *; tauto|].
  split; [destruct outdoor; simpl; auto|].
  split.
  - destruct outdoor; [|discriminate]. intros _. apply is_outdoor_true. exact Hout.
  - intros ->. simpl in Hin. repeat destruct Hin as [Hin|Hin]; try discriminate; contradiction.
Qed.

(** X2.  [get_weather] has three kinds of outcome and no other.  It raises only
    a [TypeError], and that exactly when the geocoding answer had no match,
    after the one geocoding request.  Otherwise it returns a reading whose
    condition is one of clear, cloudy, rainy, stormy and unknown, whose
    recommendation is outdoor or indoor, where outdoor comes only with a
    clear sky and a temperature above 15, and where the condition unknown
    comes only with the default reading; it has then sent the geocoding
    request and at most the one forecast request after it. *)
Theorem get_weather_outcomes (E : env) (city : string) (w : world) :
  exists r w',
    Tools.get_weather E city w = (r, w')
    /\ match r with
       | Ret reading =>
           (In (Tools.condition reading) ["clear"; "cloudy"; "rainy"; "stormy"; "unknown"]
            /\ In (Tools.recommendation reading) ["outdoor"; "indoor"]
            /\ (Tools.recommendation reading = "outdoor" ->
                Tools.condition reading = "clear"
                /\ exists q, as_number (Tools.temperature reading) = Some q /\ (15 < q)%Q)
            /\ (Tools.condition reading = "unknown" -> reading = Tools.default_weather))
           /\ (exists p w1, Tools.get_coordinates E city w = (Ret (Some p), w1))
           /\ (calls w' = HttpGet (Tools.geocoding_url city) :: calls w
               \/ exists lat lon,
                    calls w' = HttpGet (Tools.forecast_url E lat lon)
                                 :: HttpGet (Tools.geocoding_url city) :: calls w)
       | Raise e =>
           e = "TypeError"
           /\ Tools.get_coordinates E city w = (Ret None, w')
           /\ calls w' = HttpGet (Tools.geocoding_url city) :: calls w
       | OutOfFuel => False
       end.
Proof.
  destruct (get_weather_cases E city w) as (r & w' & Hrun & H).
  exists r, w'. split; [exact Hrun|].
  destruct r as [reading|e|]; [|destruct H as [-> Hc]|exact H].
  - destruct H as (Hsound & lat & lon & w1 & Hc & Hw).
    split; [exact Hsound|]. split; [eauto|].
    pose proof (get_coordinates_world _ _ _ _ _ Hc) as Hcalls.
    destruct Hw as [->|Hw]; [left; exact Hcalls|].
    right. exists lat, lon. rewrite Hw, Hcalls. reflexivity.
  - split; [reflexivity|]. split; [exact Hc|].
    apply (get_coordinates_world _ _ _ _ _ Hc).
Qed.

End LookupFacts.

(** ** Splitting, joining and stripping *)

Module TextFacts.
Import Py StrFacts.

Lemma length_app (a b : string) :
  String.length (a +:+ b) = (String.length a + String.length b)%nat.
Proof. induction a as [|x a IH]; sapp; simpl; auto. Qed.

Lemma len_app (a b : string) : len (a +:+ b) = len a + len b.
Proof. unfold len. rewrite length_app. lia. Qed.

Lemma join_cons2 (sep x y : string) (l : list string) :
  join sep (x :: y :: l) = x +:+ sep +:+ join sep (y :: l).
Proof. reflexivity. Qed.

(** A joined text is at least as long as its first piece, and as long as
    its pieces and the separators between them. *)
Lemma len_join (sep x : string) (l : list string) :
  len (join sep (x :: l))
  = len x + fold_right (fun s n => len sep + len s + n) 0 l.
Proof.
  revert x. induction l as [|y l IH]; intros x.
  - simpl. lia.
  - rewrite join_cons2, !len_app, IH. simpl. lia.
Qed.

Lemma len_join_bounds (sep x : string) (l : list string) (hi : Z) :
  Forall (fun s => len s <= hi) (x :: l) ->
  len x <= len (join sep (x :: l))
  /\ len (join sep (x :: l))
     <= (hi + len sep) * Z.of_nat (List.length (x :: l)) - len sep.
Proof.
  intros H. rewrite len_join. inversion H as [|? ? Hx Hl]; subst.
  assert (Hsep : 0 <= len sep) by (unfold len; lia).
  assert (Hfold : 0 <= fold_right (fun s n => len sep + len s + n) 0 l
                  <= (hi + len sep) * Z.of_nat (List.length l)).
  { clear Hx H. induction Hl as [|y l Hy Hl IH].
    - simpl. lia.
    - cbn [fold_right List.length].
      assert (0 <= len y) by (unfold len; lia). lia. }
  cbn [List.length]. lia.
Qed.

Lemma lacks_app (c : ascii) (a b : string) :
  lacks c (a +:+ b) = lacks c a && lacks c b.
Proof.
  induction a as [|x a IH]; sapp; [reflexivity|]. simpl.
  rewrite IH, andb_assoc. reflexivity.
Qed.

Lemma lacks_lstrip (c : ascii) (s : string) :
  lacks c s = true -> lacks c (lstrip s) = true.
Proof.
  induction s as [|x s IH]; [auto|]. intros H. cbn [lstrip].
  destruct (isspace x); [|exact H].
  simpl in H. apply andb_true_iff in H. tauto.
Qed.

Lemma lacks_rstrip (c : ascii) (s : string) :
  lacks c s = true -> lacks c (rstrip s) = true.
Proof.
  induction s as [|x s IH]; [auto|]. intros H.
  simpl in H. apply andb_true_iff in H. destruct H as [Hx Hs].
  cbn [rstrip]. specialize (IH Hs).
  destruct (rstrip s) as [|y r].
  - destruct (isspace x); simpl; [reflexivity|]. rewrite Hx. reflexivity.
  - cbn [lacks] in *. rewrite Hx, IH. reflexivity.
Qed.

Lemma lacks_strip (c : ascii) (s : string) :
  lacks c s = true -> lacks c (strip s) = true.
Proof. intros H. apply lacks_rstrip, lacks_lstrip, H. Qed.

Lemma lacks_join (c : ascii) (sep : string) (l : list string) :
  lacks c sep = true ->
  Forall (fun s => lacks c s = true) l ->
  lacks c (join sep l) = true.
Proof.
  intros Hsep H. induction H as [|x l Hx Hl IH]; [reflexivity|].
  destruct l as [|y l]; [exact Hx|].
  rewrite join_cons2, !lacks_app, Hx, Hsep, IH. reflexivity.
Qed.

(** *** [split] *)

Lemma split_on_nonempty (c : ascii) (s : string) :
  ToolsRest.split_on c s <> [].
Proof.
  destruct s as [|a r]; simpl; [discriminate|].
  destruct (Ascii.eqb a c); [discriminate|].
  destruct (ToolsRest.split_on c r); discriminate.
Qed.

(** No piece of a split holds the separator. *)
Lemma split_on_lacks (c : ascii) (s : string) :
  Forall (fun piece => lacks c piece = true) (ToolsRest.split_on c s).
Proof.
  induction s as [|a r IH]; simpl.
  - apply List.Forall_cons; [reflexivity|apply List.Forall_nil].
  - destruct (Ascii.eqb a c) eqn:Hac.
    + apply List.Forall_cons; [reflexivity|exact IH].
    + destruct (ToolsRest.split_on c r) as [|piece pieces].
      * apply List.Forall_cons; [|apply List.Forall_nil]. simpl. rewrite Hac. reflexivity.
      * inversion IH; subst. apply List.Forall_cons; [|assumption].
        simpl. rewrite Hac. assumption.
Qed.

Lemma split_on_whole (c : ascii) (s : string) :
  lacks c s = true -> ToolsRest.split_on c s = [s].
Proof.
  induction s as [|a r IH]; [reflexivity|]. intros H.
  simpl in H. apply andb_true_iff in H. destruct H as [Ha Hr].
  apply negb_true_iff in Ha. simpl. rewrite Ha, (IH Hr). reflexivity.
Qed.

Lemma split_on_app (c : ascii) (a b : string) :
  lacks c a = true ->
  ToolsRest.split_on c (a +:+ String c b) = a :: ToolsRest.split_on c b.
Proof.
  induction a as [|x a IH]; intros H; sapp.
  - cbn [ToolsRest.split_on]. rewrite Ascii.eqb_refl. reflexivity.
  - simpl in H. apply andb_true_iff in H. destruct H as [Hx Ha].
    apply negb_true_iff in Hx. cbn [ToolsRest.split_on]. rewrite Hx, (IH Ha). reflexivity.
Qed.

(** Joining pieces that lack the separator and splitting again gives the
    pieces back. *)
Lemma split_on_join (c : ascii) (x : string) (l : list string) :
  Forall (fun s => lacks c s = true) (x :: l) ->
  ToolsRest.split_on c (join (String c EmptyString) (x :: l)) = x :: l.
Proof.
  revert x. induction l as [|y l IH]; intros x H; inversion H; subst.
  - apply split_on_whole. assumption.
  - rewrite join_cons2. sapp. rewrite split_on_app by assumption.
    rewrite IH by assumption. reflexivity.
Qed.

(** Splitting and joining again gives the text back. *)
Lemma join_split_on (c : ascii) (s : string) :
  join (String c EmptyString) (ToolsRest.split_on c s) = s.
Proof.
  induction s as [|a r IH]; [reflexivity|]. cbn [ToolsRest.split_on].
  destruct (Ascii.eqb a c) eqn:Hac.
  - apply Ascii.eqb_eq in Hac. subst a.
    pose proof (split_on_nonempty c r) as Hne.
    destruct (ToolsRest.split_on c r) as [|piece pieces]; [congruence|].
    rewrite join_cons2, IH. reflexivity.
  - pose proof (split_on_nonempty c r) as Hne.
    destruct (ToolsRest.split_on c r) as [|piece pieces]; [congruence|].
    destruct pieces as [|piece' pieces].
    + simpl in *. congruence.
    + rewrite <- IH, !join_cons2. reflexivity.
Qed.

(** *** [strip] *)

Lemma rstrip_idempotent (s : string) : rstrip (rstrip s) = rstrip s.
Proof.
  induction s as [|x s IH]; [reflexivity|]. cbn [rstrip].
  destruct (rstrip s) as [|y r] eqn:Hr.
  - destruct (isspace x) eqn:Hx; [reflexivity|]. simpl. rewrite Hx. reflexivity.
  - cbn [rstrip]. cbn [rstrip] in IH. rewrite IH. reflexivity.
Qed.

(** [lstrip] leaves nothing, or a text that starts with no space. *)
Lemma lstrip_head (s : string) :
  match lstrip s with
  | EmptyString => True
  | String x _ => isspace x = false
  end.
Proof.
  induction s as [|x s IH]; simpl; [exact I|].
  destruct (isspace x) eqn:Hx; [exact IH|exact Hx].
Qed.

Lemma rstrip_head (x : ascii) (s : string) :
  isspace x = false -> exists r, rstrip (String x s) = String x r.
Proof.
  intros Hx. cbn [rstrip]. destruct (rstrip s); rewrite ?Hx; eauto.
Qed.

Lemma strip_head (s : string) :
  match strip s with
  | EmptyString => True
  | String x _ => isspace x = false
  end.
Proof.
  unfold strip. pose proof (lstrip_head s) as H.
  destruct (lstrip s) as [|x r]; [exact I|].
  destruct (rstrip_head x r H) as (r' & ->). exact H.
Qed.

Lemma strip_idempotent (s : string) : strip (strip s) = strip s.
Proof.
  pose proof (strip_head s) as H. unfold strip at 1.
  destruct (strip s) as [|x r] eqn:Hs; [reflexivity|].
  cbn [lstrip]. rewrite H. rewrite <- Hs. unfold strip. apply rstrip_idempotent.
Qed.

End TextFacts.

(** ** tools.py: the dish scrape and the two formatters *)

Module RestFacts.
Import Py World.

(** X3.  [scrape_top_dish_results] never raises, and what it returns is [None]
    or a text: the kept snippets, each a page text of more than 200
    characters cut to 2000, joined by blank lines.  It is [None] when the
    search module is missing, when the search yields no URL and when no
    page can be fetched.  A returned text has more than 200 characters, so
    the caller's test [not dish_text] is true for [None] only; and when the
    search yields at most [n] URLs the text has at most [n] snippets and
    [2002 * n - 2] characters. *)
Theorem scrape_top_dish_results_outcomes (E : env) (city : string) (w : world) :
  exists r w',
    ToolsRest.scrape_top_dish_results E city w = (Ret r, w')
    /\ (googlesearch_installed E = false -> r = None)
    /\ ((forall w1, fst (search E w1) = []) -> r = None)
    /\ ((forall w1, page_content E w1 = None) -> r = None)
    /\ (Main.no_text r = true <-> r = None)
    /\ match r with
       | None => True
       | Some text =>
           200 < len text
           /\ exists snippet snippets,
                text = join ToolsRest.paragraph_break (snippet :: snippets)
                /\ Forall (fun s => exists content,
                             s = slice_to content 2000 /\ 200 < len content)
                     (snippet :: snippets)
                /\ forall n : nat,
                     (forall w1, (List.length (fst (search E w1)) <= n)%nat) ->
                     (List.length (snippet :: snippets) <= n)%nat
                     /\ len text <= 2002 * Z.of_nat n - 2
       end.
Proof.
  unfold ToolsRest.scrape_top_dish_results.
  destruct (googlesearch_installed E) eqn:Hinst; simpl.
  2:{ exists None, w. repeat split; auto. }
  unfold bind, request.
  match goal with |- context [search E ?w1] =>
    set (w' := w1); destruct (search E w') as [urls raises] eqn:Hsearch end.
  destruct (ToolsFacts.scrape_urls_spec E urls [] w')
    as (results & w2 & Hs & Hall & Hn & Hnone).
  simpl in Hs. rewrite Hs.
  destruct results as [|snippet snippets].
  { exists None, w2. repeat split; auto. }
  set (text := join ToolsRest.paragraph_break (snippet :: snippets)).
  assert (Hbounds : Forall (fun s => len s <= 2000) (snippet :: snippets)).
  { eapply List.Forall_impl; [|exact Hall].
    intros s (content & -> & Hlen). rewrite StrFacts.len_slice_to by lia. lia. }
  destruct (TextFacts.len_join_bounds ToolsRest.paragraph_break snippet snippets 2000 Hbounds)
    as [Hlo Hhi].
  assert (Hlong : 200 < len text).
  { inversion Hall as [|? ? (content & -> & Hlen) _]; subst.
    rewrite StrFacts.len_slice_to in Hlo by lia. unfold text. lia. }
  exists (Some text), w2. split; [reflexivity|].
  split; [discriminate|].
  split.
  { intros Hno. specialize (Hno w'). rewrite Hsearch in Hno. simpl in Hno. subst urls.
    simpl in Hn. lia. }
  split.
  { intros Hno. specialize (Hnone Hno). discriminate. }
  split.
  { split; [|discriminate]. cbn [Main.no_text]. intros Hempty.
    apply String.eqb_eq in Hempty. rewrite Hempty in Hlong. unfold len in Hlong.
    simpl in Hlong. lia. }
  split; [exact Hlong|].
  exists snippet, snippets. split; [reflexivity|]. split; [exact Hall|].
  intros n Hbound. specialize (Hbound w'). rewrite Hsearch in Hbound. simpl in Hbound.
  cbn [List.length] in Hn, Hhi |- *. split; [lia|].
  fold text in Hhi. replace (len ToolsRest.paragraph_break) with 2 in Hhi by reflexivity.
  nia.
Qed.

(** X4.  On a reading of [get_weather], [format_weather_for_prompt] keeps the
    temperature and the condition and passes the recommendation on
    unchanged as the dining type, and so does the dining type that both
    tour generators put into their prompt: the test against the text
    outdoor never alters it, because a reading recommends outdoor or
    indoor and nothing else. *)
Theorem format_weather_keeps_reading
  (E : env) (city : string) (w w' : world) (reading : Tools.weather) :
  Tools.get_weather E city w = (Ret reading, w') ->
  ToolsRest.format_weather_for_prompt reading
  = VDict [("temperature", Tools.temperature reading);
           ("condition", VStr (Tools.condition reading));
           ("dining", VStr (Tools.recommendation reading))]
  /\ Main.dining_type_of reading = Tools.recommendation reading.
Proof.
  intros Hrun.
  destruct (LookupFacts.get_weather_cases E city w) as (r & w1 & Hrun' & H).
  rewrite Hrun in Hrun'. inversion Hrun'; subst r w1. clear Hrun'.
  destruct H as ((_ & Hrec & _) & _).
  unfold ToolsRest.format_weather_for_prompt, Main.dining_type_of.
  simpl in Hrec. destruct Hrec as [<-|[<-|[]]]; split; reflexivity.
Qed.

Lemma format_weather_keeps_reading_witness :
  let E := Scenario.weather_service (Some Scenario.paris_geo)
             (Some (Scenario.forecast_of 22 0)) in
  exists w',
    Tools.get_weather E "Paris" Scenario.w0 = (Ret Scenario.sunny, w')
    /\ ToolsRest.format_weather_for_prompt Scenario.sunny
       = VDict [("temperature", VNum 22); ("condition", VStr "clear");
                ("dining", VStr "outdoor")]
    /\ Main.dining_type_of Scenario.sunny = "outdoor".
Proof.
  eexists. split; [reflexivity|].
  eapply (format_weather_keeps_reading
            (Scenario.weather_service (Some Scenario.paris_geo)
               (Some (Scenario.forecast_of 22 0))) "Paris" Scenario.w0).
  reflexivity.
Defined.

(** *** One line per dish *)

Lemma in_firstn {A : Type} (n : nat) (l : list A) (x : A) :
  In x (firstn n l) -> In x l.
Proof.
  revert l. induction n as [|n IH]; intros l; simpl; [intros []|].
  destruct l as [|y l]; simpl; [intros []|]. intros [H|H]; auto.
Qed.

Lemma combine_length {A B : Type} (l : list A) (l' : list B) :
  List.length (combine l l') = Nat.min (List.length l) (List.length l').
Proof.
  revert l'. induction l as [|x l IH]; intros [|y l']; simpl; auto.
Qed.

Lemma relevant_lines_lack (c : ascii) (lines : list string) :
  Forall (fun line => lacks c line = true) lines ->
  Forall (fun line => lacks c line = true) (ToolsRest.relevant_lines lines).
Proof.
  intros H. unfold ToolsRest.relevant_lines.
  apply List.Forall_forall. intros x Hx.
  apply in_firstn in Hx. apply in_map_iff in Hx. destruct Hx as (line & <- & Hin).
  apply filter_In in Hin. destruct Hin as [Hin _].
  apply TextFacts.lacks_strip.
  rewrite List.Forall_forall in H. apply H. exact Hin.
Qed.

(** A summary is one line: it is made of lines of the scraped text. *)
Lemma restaurant_summary_one_line (restaurant_text : string) :
  lacks ToolsRest.newline (ToolsRest.restaurant_summary restaurant_text) = true.
Proof.
  unfold ToolsRest.restaurant_summary.
  apply TextFacts.lacks_join; [reflexivity|].
  apply relevant_lines_lack, TextFacts.split_on_lacks.
Qed.

Lemma formatted_entry_one_line (E : env) (dish : value) (restaurants : list string) :
  lacks ToolsRest.newline (str E dish) = true ->
  lacks ToolsRest.newline (ToolsRest.formatted_entry E dish restaurants) = true.
Proof.
  intros Hdish. unfold ToolsRest.formatted_entry.
  destruct restaurants as [|r rs].
  - rewrite TextFacts.lacks_app, Hdish. reflexivity.
  - rewrite !TextFacts.lacks_app, Hdish.
    replace (lacks ToolsRest.newline ": ") with true by reflexivity. cbn [andb].
    apply TextFacts.lacks_join; [reflexivity|].
    apply List.Forall_forall. intros x Hx.
    apply in_map_iff in Hx. destruct Hx as (t & <- & _).
    apply restaurant_summary_one_line.
Qed.

(** X5.  The text of [format_restaurant_info_for_prompt] has exactly one line
    per pair of a dish and its scraped texts, in the order of the dishes,
    whatever line breaks the scraped texts hold: when no dish name holds a
    line break and there is at least one pair, splitting the text at its
    line breaks gives the entries back, and there are as many as the
    shorter of the two lists has elements. *)
Theorem restaurant_info_has_one_line_per_dish
  (E : env) (dishes : list value) (restaurant_infos : list (list string)) :
  Forall (fun dish => lacks ToolsRest.newline (str E dish) = true) dishes ->
  dishes <> [] ->
  restaurant_infos <> [] ->
  ToolsRest.split_on ToolsRest.newline
    (ToolsRest.format_restaurant_info_for_prompt E dishes restaurant_infos)
  = ToolsRest.formatted_entries E dishes restaurant_infos
  /\ List.length (ToolsRest.formatted_entries E dishes restaurant_infos)
     = Nat.min (List.length dishes) (List.length restaurant_infos).
Proof.
  intros Hdishes Hd Hi. split.
  2:{ unfold ToolsRest.formatted_entries. rewrite List.length_map. apply combine_length. }
  unfold ToolsRest.format_restaurant_info_for_prompt.
  assert (Hall : Forall (fun s => lacks ToolsRest.newline s = true)
                   (ToolsRest.formatted_entries E dishes restaurant_infos)).
  { unfold ToolsRest.formatted_entries. apply List.Forall_forall. intros x Hx.
    apply in_map_iff in Hx. destruct Hx as ([dish rs] & <- & Hin).
    apply formatted_entry_one_line. simpl.
    apply in_combine_l in Hin. rewrite List.Forall_forall in Hdishes. auto. }
  destruct (ToolsRest.formatted_entries E dishes restaurant_infos) as [|x l] eqn:Hentries.
  - destruct dishes; [congruence|]. destruct restaurant_infos; [congruence|]. discriminate.
  - apply TextFacts.split_on_join. exact Hall.
Qed.

Lemma restaurant_info_has_one_line_per_dish_witness :
  let E := Scenario.keeps_running in
  let texts := [String "010" "Chez Sushi, 12 Rue de la Paix, open daily"
                +:+ String "010" "menu"] in
  ToolsRest.split_on ToolsRest.newline
    (ToolsRest.format_restaurant_info_for_prompt E
       [VStr "Ramen"; VStr "Sushi"] [[]; texts])
  = ["Ramen: No specific restaurants found";
     "Sushi: Chez Sushi, 12 Rue de la Paix, open daily"]
  /\ List.length (ToolsRest.formatted_entries E [VStr "Ramen"; VStr "Sushi"] [[]; texts])
     = 2%nat.
Proof.
  apply (restaurant_info_has_one_line_per_dish Scenario.keeps_running
           [VStr "Ramen"; VStr "Sushi"]
           [[]; [String "010" "Chez Sushi, 12 Rue de la Paix, open daily"
                 +:+ String "010" "menu"]]).
  - repeat (apply List.Forall_cons; [reflexivity|]). apply List.Forall_nil.
  - discriminate.
  - discriminate.
Defined.

End RestFacts.

(** ** final-ui.py: the cities typed into the input box *)

Module InputFacts.
Import Py.

(** X6.  The cities read from the input box are clean: none is empty, none has
    whitespace at either end, none holds a comma.  An input without a
    comma names one city, the input stripped, or none when it is blank. *)
Theorem selected_cities_are_clean (city_input : string) :
  Forall (fun city => city <> EmptyString
                      /\ strip city = city
                      /\ lacks "," city = true)
    (Pipeline.selected_cities city_input)
  /\ (lacks "," city_input = true ->
      Pipeline.selected_cities city_input
      = if String.eqb (strip city_input) "" then [] else [strip city_input]).
Proof.
  unfold Pipeline.selected_cities. split.
  - destruct (String.eqb city_input ""); [apply List.Forall_nil|].
    apply List.Forall_forall. intros city Hin.
    apply in_map_iff in Hin. destruct Hin as (piece & <- & Hin).
    apply filter_In in Hin. destruct Hin as [Hin Hkeep].
    apply negb_true_iff, String.eqb_neq in Hkeep.
    split; [exact Hkeep|]. split; [apply TextFacts.strip_idempotent|].
    apply TextFacts.lacks_strip.
    pose proof (TextFacts.split_on_lacks "," city_input) as Hall.
    rewrite List.Forall_forall in Hall. apply Hall. exact Hin.
  - intros Hlacks. destruct (String.eqb city_input "") eqn:Hempty.
    + apply String.eqb_eq in Hempty. subst. reflexivity.
    + rewrite TextFacts.split_on_whole by exact Hlacks. simpl.
      destruct (String.eqb (strip city_input) ""); reflexivity.
Qed.

End InputFacts.

(** ** final-ui.py: the tour generator *)

Module UITourFacts.
Import Py World Julep.

(** X7.  final-ui.py's [generate_tour] always returns, with 31 rounds of fuel
    for its 60 seconds, and more fuel changes nothing.  The run ends in one
    of the three ways of the polling protocol; the tour is [None] after a
    timeout, after a call that raised and after a failed execution; after
    a succeeded one it is what [extract_final_json_from_output] makes of
    the output, or [None] when that raises.  A tour that is not [None] is
    the value the decoder made of the span between the first opening and
    the last closing brace of the latest assistant message with content. *)
Theorem generate_tour_ends_with_decoded_span_or_none
  (json_loads : string -> option value) (E : env) (fuel : nat)
  (city : string) (weather : Tools.weather) (dishes : list value)
  (restaurant_infos : list (list string)) (w : world) :
  (31 <= fuel)%nat ->
  exists v w' how,
    FinalUI.generate_tour json_loads E fuel city weather dishes restaurant_infos w
    = (Ret v, w')
    /\ FinalUI.generate_tour json_loads E 31 city weather dishes restaurant_infos w
       = (Ret v, w')
    /\ ended E 60 w w' how
    /\ match how with
       | TimedOut | CallRaised => v = VNone
       | Terminal x =>
           (status x = "succeeded" \/ status x = "failed")
           /\ (status x = "failed" -> v = VNone)
           /\ (status x = "succeeded" ->
               FinalUI.extract_final_json_from_output json_loads (output x) = Ret v
               \/ (exists e,
                     FinalUI.extract_final_json_from_output json_loads (output x)
                     = Raise e)
                  /\ v = VNone)
       end
    /\ (v <> VNone ->
        exists x earlier item later t,
          hd_error (calls w') = Some ExecutionsGet
          /\ executions_get E w' = Some x
          /\ status x = "succeeded"
          /\ output x = VList (earlier ++ item :: later)
          /\ Forall (fun m => has_role m /\ is_reply m = false) later
          /\ getitem item "role" = Ret (VStr "assistant")
          /\ getitem item "content" = Ret (VStr t)
          /\ json_loads (Main.json_span t) = Some v).
Proof.
  intros Hfuel.
  assert (Hterm : forall x, terminal (status x) = true ->
            status x = "succeeded" \/ status x = "failed").
  { intros x Hx. unfold terminal in Hx. apply orb_true_iff in Hx.
    destruct Hx as [Hx|Hx]; apply String.eqb_eq in Hx; auto. }
  unfold FinalUI.generate_tour, FinalUI.extract_final_json_from_output.
  set (prompt := FinalUI.tour_prompt E city weather (Main.dining_type_of weather)
                   (FinalUI.restaurant_context E dishes restaurant_infos)).
  set (input := VDict _).
  destruct (TourFacts.tour_run_spec json_loads E prompt input fuel w Hfuel)
    as (v & w' & Hrun & Hvalue & _).
  set (after := fun polled : option execution => _) in *.
  destruct (ProtocolFacts.run_ended E prompt input 60 after
              (Main.tour_of_polled json_loads) VNone fuel w)
    as (v0 & w0 & how & Hrun0 & Hend & Hres); try lia.
  { intros [x|] w1; simpl; [|reflexivity].
    destruct (String.eqb (status x) "succeeded"); reflexivity. }
  { apply TourFacts.tour_of_polled_total. }
  pose proof (eq_trans (eq_sym Hrun) Hrun0) as Hsame.
  inversion Hsame; subst v0 w0. clear Hrun0 Hsame.
  exists v, w', how. split; [exact Hrun|].
  split; [rewrite <- Hrun; symmetry; apply ProtocolFacts.run_more_fuel; lia|].
  split; [exact Hend|]. split; [|exact Hvalue].
  destruct how as [|x|]; auto.
  - destruct Hres as [Hr|[_ Hr]]; [inversion Hr; reflexivity|exact Hr].
  - destruct Hend as (n & st & p & i & _ & _ & _ & _ & _ & Ht).
    split; [apply Hterm; exact Ht|]. split.
    + intros Hfail. simpl in Hres. rewrite Hfail in Hres. simpl in Hres.
      destruct Hres as [Hr|[_ Hr]]; [inversion Hr; reflexivity|exact Hr].
    + intros Hok. simpl in Hres. rewrite Hok in Hres. simpl in Hres. exact Hres.
Qed.

(** A service that fails at once: the tour is [None], after one poll. *)
Lemma generate_tour_ends_with_decoded_span_or_none_witness :
  exists w' x,
    FinalUI.generate_tour Json.loads Scenario.fails 31 "Paris"
      Scenario.sunny fallback_dishes [[]; []; []] Scenario.w0 = (Ret VNone, w')
    /\ ended Scenario.fails 60 Scenario.w0 w' (Terminal x)
    /\ status x = "failed".
Proof.
  destruct (generate_tour_ends_with_decoded_span_or_none Json.loads
              Scenario.fails 31 "Paris" Scenario.sunny fallback_dishes
              [[]; []; []] Scenario.w0)
    as (v & w' & how & H & _ & Hend & Hres & _); [lia|].
  destruct how as [|x|].
  - exfalso. destruct Hend as (n & st & p & i & _ & Hpend & Hcalls & Hn & _).
    destruct (Hpend 0%nat) as (wi & xi & _ & Hx & Hnot); [lia|].
    simpl in Hx. inversion Hx; subst xi. discriminate.
  - destruct Hres as (Hst & Hfail & _).
    assert (Hfailed : status x = "failed").
    { destruct Hend as (n & st & p & i & _ & _ & _ & _ & Hget & _).
      simpl in Hget. inversion Hget. reflexivity. }
    exists w', x. rewrite <- (Hfail Hfailed). auto.
  - exfalso. destruct Hend as (n & st & p & i & _ & _ & [[_ Hf]|[[_ Hf]|(_ & _ & Hf)]]);
      discriminate.
Defined.

End UITourFacts.

(** ** The pipelines: one city, the batch of main.py, the loop of the UI *)

Module PipelineFacts.
Import Py World Julep.

Section WithEnv.
Variable json_loads : string -> option value.
Variable E : env.

Lemma scrape_restaurants_returns (city dish : string) (w : world) :
  exists results w',
    Tools.scrape_restaurants_for_dish E city dish w = (Ret results, w')
    /\ Forall ToolsRest.bounded_snippet results
    /\ (googlesearch_installed E = false -> results = [] /\ w' = w).
Proof.
  unfold Tools.scrape_restaurants_for_dish.
  destruct (googlesearch_installed E) eqn:Hinst; simpl.
  2:{ exists [], w. repeat split; auto. }
  unfold bind, request.
  match goal with |- context [search E ?w1] =>
    set (w' := w1); destruct (search E w') as [urls raises] eqn:Hsearch end.
  destruct (ToolsFacts.scrape_urls_spec E urls [] w') as (results & w2 & Hs & Hall & _).
  simpl in Hs. exists results, w2. split; [exact Hs|]. split; [|discriminate].
  eapply List.Forall_impl; [|exact Hall].
  intros s (content & -> & Hlen). unfold ToolsRest.bounded_snippet.
  rewrite StrFacts.len_slice_to by lia. lia.
Qed.

Lemma scrape_top_dish_results_returns (city : string) (w : world) :
  exists r w', ToolsRest.scrape_top_dish_results E city w = (Ret r, w').
Proof.
  unfold ToolsRest.scrape_top_dish_results.
  destruct (googlesearch_installed E); simpl; [|eauto].
  unfold bind, request.
  match goal with |- context [search E ?w1] =>
    set (w' := w1); destruct (search E w') as [urls raises] end.
  destruct (ToolsFacts.scrape_urls_spec E urls [] w') as (results & w2 & Hs & _).
  simpl in Hs. rewrite Hs. destruct results; eauto.
Qed.

Lemma gather_scrapes (city : string) (dishes : list value) :
  forall w,
    exists infos w',
      Pipeline.gather
        (map (fun dish => Tools.scrape_restaurants_for_dish E city (str E dish)) dishes) w
      = (Ret infos, w')
      /\ List.length infos = List.length dishes
      /\ Forall (Forall ToolsRest.bounded_snippet) infos
      /\ (googlesearch_installed E = false ->
          infos = map (fun _ => []) dishes /\ w' = w).
Proof.
  induction dishes as [|dish dishes IH]; intros w.
  - exists [], w. simpl. repeat split; auto.
  - cbn [map Pipeline.gather]. unfold bind at 1.
    destruct (scrape_restaurants_returns city (str E dish) w)
      as (results & w1 & -> & Hres & Hoff).
    unfold bind at 1.
    destruct (IH w1) as (infos & w2 & -> & Hlen & Hall & Hoffs).
    exists (results :: infos), w2. split; [reflexivity|].
    split; [simpl; lia|]. split; [apply List.Forall_cons; assumption|].
    intros Hinst. destruct (Hoff Hinst) as [-> ->].
    destruct (Hoffs Hinst) as [-> ->]. auto.
Qed.

Lemma restaurant_step_spec (city : string) (dishes : list value) (w : world) :
  exists infos w',
    Pipeline.restaurant_step E city dishes w = (Ret infos, w')
    /\ Pipeline.gather
         (map (fun dish => Tools.scrape_restaurants_for_dish E city (str E dish)) dishes) w
       = (Ret infos, w')
    /\ List.length infos = List.length dishes
    /\ Forall (Forall ToolsRest.bounded_snippet) infos
    /\ (googlesearch_installed E = false ->
        infos = map (fun _ => []) dishes /\ w' = w).
Proof.
  destruct (gather_scrapes city dishes w) as (infos & w' & Hg & H).
  exists infos, w'. unfold Pipeline.restaurant_step, try_except.
  rewrite Hg. auto.
Qed.

Lemma run_workflow_dishes_returns (fuel : nat) (city : string)
  (dish_text : option string) (w : world) :
  (16 <= fuel)%nat ->
  exists l w',
    Main.run_workflow_dishes json_loads E fuel city dish_text w = (Ret l, w')
    /\ List.length l = 3%nat.
Proof.
  intros Hfuel. unfold Main.run_workflow_dishes.
  destruct (Main.no_text dish_text) eqn:Hno; [exists fallback_dishes, w; auto|].
  destruct dish_text as [t|]; [|discriminate].
  unfold Main.extract_dishes_from_text, bind, lift. simpl.
  destruct (DishFacts.extract_with_service_spec json_loads E fuel city (Some t)
              (Main.dish_prompt city (slice_to t 3000)) w Hfuel)
    as (l & w' & H & Hlen & _).
  exists l, w'. auto.
Qed.

Lemma ui_dishes_return (fuel : nat) (city : string)
  (dish_text : option string) (w : world) :
  (16 <= fuel)%nat ->
  exists l w',
    FinalUI.extract_dishes_from_text json_loads E fuel city dish_text w = (Ret l, w')
    /\ List.length l = 3%nat.
Proof.
  intros Hfuel. unfold FinalUI.extract_dishes_from_text.
  destruct (Main.no_text dish_text) eqn:Hno; [exists fallback_dishes, w; auto|].
  destruct dish_text as [t|]; [|discriminate].
  unfold bind, lift. simpl.
  destruct (DishFacts.extract_with_service_spec json_loads E fuel city (Some t)
              (Main.dish_prompt city (slice_to t 2000)) w Hfuel)
    as (l & w' & H & Hlen & _).
  exists l, w'. auto.
Qed.

Lemma generate_foodie_tour_returns (fuel : nat) (city : string)
  (weather : Tools.weather) (dishes : list value)
  (restaurant_infos : list (list string)) (w : world) :
  (31 <= fuel)%nat ->
  exists v w',
    Main.generate_foodie_tour json_loads E fuel city weather dishes restaurant_infos w
    = (Ret v, w').
Proof.
  intros Hfuel. unfold Main.generate_foodie_tour.
  destruct (TourFacts.tour_run_spec json_loads E
              (Main.tour_prompt E city weather (Main.dining_type_of weather)
                 (Main.restaurant_context E dishes restaurant_infos))
              (VDict [("city", VStr city);
                      ("temperature", Tools.temperature weather);
                      ("condition", VStr (Tools.condition weather));
                      ("dining_type", VStr (Main.dining_type_of weather));
                      ("dishes", VList dishes);
                      ("restaurant_infos",
                       VList (map (fun l => VList (map VStr l)) restaurant_infos))])
              fuel w Hfuel) as (v & w' & H & _).
  exists v, w'. exact H.
Qed.

Lemma generate_tour_returns (fuel : nat) (city : string)
  (weather : Tools.weather) (dishes : list value)
  (restaurant_infos : list (list string)) (w : world) :
  (31 <= fuel)%nat ->
  exists v w',
    FinalUI.generate_tour json_loads E fuel city weather dishes restaurant_infos w
    = (Ret v, w').
Proof.
  intros Hfuel. unfold FinalUI.generate_tour, FinalUI.extract_final_json_from_output.
  destruct (TourFacts.tour_run_spec json_loads E
              (FinalUI.tour_prompt E city weather (Main.dining_type_of weather)
                 (FinalUI.restaurant_context E dishes restaurant_infos))
              (VDict [("city", VStr city);
                      ("temperature", Tools.temperature weather);
                      ("condition", VStr (Tools.condition weather));
                      ("dining_type", VStr (Main.dining_type_of weather))])
              fuel w Hfuel) as (v & w' & H & _).
  exists v, w'. exact H.
Qed.

Lemma run_workflow_cases (fuel : nat) (city : string) (w : world) :
  (31 <= fuel)%nat ->
  exists r w',
    Pipeline.run_workflow json_loads E fuel city w = (r, w')
    /\ match r with
       | Ret v =>
           exists tour,
             Pipeline.staged E (Main.run_workflow_dishes json_loads E fuel city)
               (Main.generate_foodie_tour json_loads E fuel city) city w w' tour
             /\ v = (if truthy tour then tour else VNone)
       | Raise e =>
           e = "TypeError" /\ Tools.get_coordinates E city w = (Ret None, w')
       | OutOfFuel => False
       end.
Proof.
  intros Hfuel. unfold Pipeline.run_workflow, bind at 1.
  destruct (LookupFacts.get_weather_cases E city w) as (r & w1 & Hw & Hcase).
  rewrite Hw. destruct r as [weather|e|]; [|eauto|contradiction].
  unfold bind at 1.
  destruct (scrape_top_dish_results_returns city w1) as (dish_text & w2 & Hd).
  rewrite Hd. unfold bind at 1.
  destruct (run_workflow_dishes_returns fuel city dish_text w2) as (dishes & w3 & Hl & Hlen);
    [lia|].
  rewrite Hl. unfold bind at 1.
  destruct (restaurant_step_spec city dishes w3) as (infos & w4 & Hs & _ & Hilen & Hall & _).
  rewrite Hs. unfold bind at 1.
  destruct (generate_foodie_tour_returns fuel city weather dishes infos w4 Hfuel)
    as (tour & w5 & Ht).
  rewrite Ht.
  exists (Ret (if truthy tour then tour else VNone)), w5.
  split; [destruct (truthy tour); reflexivity|].
  exists tour. split; [|reflexivity].
  exists weather, dish_text, dishes, infos, w1, w2, w3, w4.
  repeat split; auto; congruence.
Qed.

Lemma process_city_cases (fuel : nat) (city : string) (w : world) :
  (31 <= fuel)%nat ->
  exists r w',
    Pipeline.process_city json_loads E fuel city w = (r, w')
    /\ match r with
       | Ret v =>
           Pipeline.staged E (FinalUI.extract_dishes_from_text json_loads E fuel city)
             (FinalUI.generate_tour json_loads E fuel city) city w w' v
       | Raise e =>
           e = "TypeError" /\ Tools.get_coordinates E city w = (Ret None, w')
       | OutOfFuel => False
       end.
Proof.
  intros Hfuel. unfold Pipeline.process_city, bind at 1.
  destruct (LookupFacts.get_weather_cases E city w) as (r & w1 & Hw & Hcase).
  rewrite Hw. destruct r as [weather|e|]; [|eauto|contradiction].
  unfold bind at 1.
  destruct (scrape_top_dish_results_returns city w1) as (dish_text & w2 & Hd).
  rewrite Hd. unfold bind at 1.
  destruct (ui_dishes_return fuel city dish_text w2) as (dishes & w3 & Hl & Hlen);
    [lia|].
  rewrite Hl. unfold bind at 1.
  destruct (restaurant_step_spec city dishes w3) as (infos & w4 & Hs & _ & Hilen & Hall & _).
  rewrite Hs.
  destruct (generate_tour_returns fuel city weather dishes infos w4 Hfuel)
    as (tour & w5 & Ht).
  exists (Ret tour), w5. split; [exact Ht|].
  exists weather, dish_text, dishes, infos, w1, w2, w3, w4.
  repeat split; auto; congruence.
Qed.

Lemma no_match_raises (city : string) (w w1 : world) :
  Tools.get_coordinates E city w = (Ret None, w1) ->
  Tools.get_weather E city w = (Raise "TypeError", w1).
Proof. intros H. unfold Tools.get_weather, bind. rewrite H. reflexivity. Qed.

Lemma run_cities_spec (fuel : nat) (cities : list string) :
  (31 <= fuel)%nat ->
  forall results w,
    exists r w',
      Pipeline.run_cities json_loads E fuel cities results w = (r, w')
      /\ match r with
         | Ret results' =>
             exists added,
               results' = results ++ added
               /\ (List.length added <= List.length cities)%nat
               /\ Forall (fun tour => truthy tour = true) added
         | Raise e => e = "TypeError"
         | OutOfFuel => False
         end.
Proof.
  intros Hfuel. induction cities as [|city cities IH]; intros results w.
  - exists (Ret results), w. split; [reflexivity|].
    exists []. rewrite app_nil_r. repeat split; auto; apply List.Forall_nil.
  - cbn [Pipeline.run_cities]. unfold bind.
    destruct (run_workflow_cases fuel city w Hfuel) as (r & w1 & -> & Hcase).
    destruct r as [v|e|];
      [|destruct Hcase as [-> _]; exists (Raise "TypeError"), w1; auto|contradiction].
    destruct (truthy v) eqn:Hv.
    + destruct (IH (results ++ [v]) w1) as (r & w2 & Hrun & Hr).
      exists r, w2. split; [exact Hrun|].
      destruct r as [results'|e|]; auto.
      destruct Hr as (added & -> & Hlen & Hall).
      exists (v :: added). rewrite <- app_assoc. split; [reflexivity|].
      split; [simpl; lia|]. apply List.Forall_cons; assumption.
    + destruct (IH results w1) as (r & w2 & Hrun & Hr).
      exists r, w2. split; [exact Hrun|].
      destruct r as [results'|e|]; auto.
      destruct Hr as (added & -> & Hlen & Hall).
      exists added. repeat split; auto; simpl; lia.
Qed.

Lemma generate_tours_spec (fuel : nat) (selected : list string) :
  (31 <= fuel)%nat ->
  forall tour_results w,
    exists added w',
      Pipeline.generate_tours json_loads E fuel selected tour_results w
      = (Ret (tour_results ++ added), w')
      /\ (List.length added <= List.length selected)%nat
      /\ Forall (fun tour => truthy tour = true) added.
Proof.
  intros Hfuel. induction selected as [|city selected IH]; intros tour_results w.
  - exists [], w. rewrite app_nil_r. repeat split; auto; apply List.Forall_nil.
  - cbn [Pipeline.generate_tours]. unfold bind at 1, try_except, bind at 1.
    destruct (process_city_cases fuel city w Hfuel) as (r & w1 & -> & Hcase).
    destruct r as [v|e|]; [|simpl|contradiction].
    + destruct (truthy v) eqn:Hv; simpl; unfold bind at 1, time_sleep.
      * match goal with |- context [Pipeline.generate_tours _ _ _ _ _ ?w2] =>
          destruct (IH (tour_results ++ [v]) w2) as (added & w' & -> & Hlen & Hall) end.
        exists (v :: added), w'. rewrite <- app_assoc. split; [reflexivity|].
        split; [simpl; lia|]. apply List.Forall_cons; assumption.
      * match goal with |- context [Pipeline.generate_tours _ _ _ _ _ ?w2] =>
          destruct (IH tour_results w2) as (added & w' & -> & Hlen & Hall) end.
        exists added, w'. repeat split; auto; simpl; lia.
    + unfold bind at 1, time_sleep.
      match goal with |- context [Pipeline.generate_tours _ _ _ _ _ ?w2] =>
        destruct (IH tour_results w2) as (added & w' & -> & Hlen & Hall) end.
      exists added, w'. repeat split; auto; simpl; lia.
Qed.

End WithEnv.

(** X8.  The restaurant step of both pipelines always yields one list per
    dish, in the order of the dishes, each holding snippets of more than
    200 and at most 2000 characters: the scrapes it gathers never raise,
    so its handler, which would put an empty list for every dish, never
    runs.  When the search module is missing every list is empty and
    nothing is asked of the outside. *)
Theorem restaurant_step_gives_one_list_per_dish
  (E : env) (city : string) (dishes : list value) (w : world) :
  exists restaurant_infos w',
    Pipeline.restaurant_step E city dishes w = (Ret restaurant_infos, w')
    /\ Pipeline.gather
         (map (fun dish => Tools.scrape_restaurants_for_dish E city (str E dish)) dishes) w
       = (Ret restaurant_infos, w')
    /\ List.length restaurant_infos = List.length dishes
    /\ Forall (Forall (fun snippet => 200 < len snippet <= 2000)) restaurant_infos
    /\ (googlesearch_installed E = false ->
        restaurant_infos = map (fun _ => []) dishes /\ w' = w).
Proof. apply restaurant_step_spec. Qed.

(** X9.  [run_workflow] of main.py, with 31 rounds of fuel, has three kinds of
    outcome.  It raises only a [TypeError], exactly when the geocoding
    answer had no match, with nothing but the geocoding request sent.
    Otherwise every stage ran -- the weather, the dish scrape, three
    dishes, three restaurant lists, the tour generator -- and the result is
    the generator's tour when that is truthy and [None] otherwise: an
    empty object from the service counts as no tour. *)
Theorem run_workflow_outcomes
  (json_loads : string -> option value) (E : env) (fuel : nat)
  (city : string) (w : world) :
  (31 <= fuel)%nat ->
  exists r w',
    Pipeline.run_workflow json_loads E fuel city w = (r, w')
    /\ match r with
       | Ret v =>
           (v = VNone \/ truthy v = true)
           /\ exists tour,
                Pipeline.staged E (Main.run_workflow_dishes json_loads E fuel city)
                  (Main.generate_foodie_tour json_loads E fuel city) city w w' tour
                /\ v = (if truthy tour then tour else VNone)
       | Raise e =>
           e = "TypeError"
           /\ Tools.get_coordinates E city w = (Ret None, w')
           /\ calls w' = HttpGet (Tools.geocoding_url city) :: calls w
       | OutOfFuel => False
       end.
Proof.
  intros Hfuel.
  destruct (run_workflow_cases json_loads E fuel city w Hfuel) as (r & w' & Hrun & H).
  exists r, w'. split; [exact Hrun|].
  destruct r as [v|e|]; [|destruct H as [-> Hc]|exact H].
  - split; [|exact H]. destruct H as (tour & _ & ->).
    destruct (truthy tour) eqn:Ht; auto.
  - split; [reflexivity|]. split; [exact Hc|].
    apply (LookupFacts.get_coordinates_world _ _ _ _ _ Hc).
Qed.

(** Nothing answers: default weather, fallback dishes, no restaurants, and
    a service that never finishes. *)
Lemma run_workflow_outcomes_witness :
  exists v w',
    Pipeline.run_workflow Json.loads Scenario.keeps_running 31 "Paris" Scenario.w0
    = (Ret v, w')
    /\ (v = VNone \/ truthy v = true).
Proof.
  destruct (run_workflow_outcomes Json.loads Scenario.keeps_running 31 "Paris"
              Scenario.w0) as (r & w' & Hrun & H); [lia|].
  destruct r as [v|e|].
  - exists v, w'. split; [exact Hrun|]. destruct H as [H _]. exact H.
  - exfalso. destruct H as (_ & Hc & _). vm_compute in Hc. discriminate.
  - contradiction.
Defined.

(** X10.  [process_city] of final-ui.py, with 31 rounds of fuel: it raises only
    a [TypeError], exactly when the geocoding answer had no match, with
    nothing but the geocoding request sent; otherwise every stage ran, with
    three dishes and three restaurant lists, and the result is whatever
    [generate_tour] returned, unfiltered. *)
Theorem process_city_outcomes
  (json_loads : string -> option value) (E : env) (fuel : nat)
  (city : string) (w : world) :
  (31 <= fuel)%nat ->
  exists r w',
    Pipeline.process_city json_loads E fuel city w = (r, w')
    /\ match r with
       | Ret v =>
           Pipeline.staged E (FinalUI.extract_dishes_from_text json_loads E fuel city)
             (FinalUI.generate_tour json_loads E fuel city) city w w' v
       | Raise e =>
           e = "TypeError"
           /\ Tools.get_coordinates E city w = (Ret None, w')
           /\ calls w' = HttpGet (Tools.geocoding_url city) :: calls w
       | OutOfFuel => False
       end.
Proof.
  intros Hfuel.
  destruct (process_city_cases json_loads E fuel city w Hfuel) as (r & w' & Hrun & H).
  exists r, w'. split; [exact Hrun|].
  destruct r as [v|e|]; [exact H|destruct H as [-> Hc]|exact H].
  split; [reflexivity|]. split; [exact Hc|].
  apply (LookupFacts.get_coordinates_world _ _ _ _ _ Hc).
Qed.

(** A geocoding answer without a match: the city raises. *)
Lemma process_city_outcomes_witness :
  let E := Scenario.weather_service (Some (VDict [("results", VList [])])) None in
  exists w',
    Pipeline.process_city Json.loads E 31 "Atlantis" Scenario.w0
    = (Raise "TypeError", w')
    /\ calls w' = [HttpGet (Tools.geocoding_url "Atlantis")].
Proof.
  intros E.
  destruct (process_city_outcomes Json.loads E 31 "Atlantis" Scenario.w0)
    as (r & w' & Hrun & H); [lia|].
  destruct r as [v|e|].
  - exfalso. destruct H as (weather & t & ds & infos & w1 & w2 & w3 & w4 & Hw & _).
    vm_compute in Hw. discriminate.
  - destruct H as (-> & _ & Hcalls). exists w'. split; [exact Hrun|exact Hcalls].
  - contradiction.
Defined.

(** X11.  The batch of main.py, with 31 rounds of fuel: what it saves is an
    object with the tours under [foodie_tours], at least one and at most
    three of them, every one truthy; with no tour nothing is saved.  The
    batch has no handler of its own, so it raises the [TypeError] of a city
    whose geocoding answer has no match: when that city is the first one,
    the batch ends there, after the one request. *)
Theorem run_all_saves_tours_or_raises
  (json_loads : string -> option value) (E : env) (fuel : nat) (w : world) :
  (31 <= fuel)%nat ->
  (exists r w',
      Pipeline.run_all json_loads E fuel w = (r, w')
      /\ match r with
         | Ret (Some saved) =>
             exists tours,
               saved = VDict [("foodie_tours", VList tours)]
               /\ tours <> []
               /\ (List.length tours <= 3)%nat
               /\ Forall (fun tour => truthy tour = true) tours
         | Ret None => True
         | Raise e => e = "TypeError"
         | OutOfFuel => False
         end)
  /\ (forall w1,
        Tools.get_coordinates E "London" w = (Ret None, w1) ->
        Pipeline.run_all json_loads E fuel w = (Raise "TypeError", w1)).
Proof.
  intros Hfuel. split.
  - unfold Pipeline.run_all, bind.
    destruct (run_cities_spec json_loads E fuel Pipeline.cities Hfuel [] w)
      as (r & w' & -> & Hr).
    destruct r as [results|e|]; [|exists (Raise e), w'; auto|contradiction].
    destruct Hr as (added & Hres & Hlen & Hall). simpl in Hres. subst added.
    destruct results as [|tour tours]; [exists (Ret None), w'; auto|].
    eexists _, w'. split; [reflexivity|].
    exists (tour :: tours). repeat split; auto; discriminate.
  - intros w1 Hc. unfold Pipeline.run_all, Pipeline.cities.
    cbn [Pipeline.run_cities]. unfold bind, Pipeline.run_workflow, bind.
    rewrite (no_match_raises E _ _ _ Hc). reflexivity.
Qed.

Lemma run_all_saves_tours_or_raises_witness :
  let E := Scenario.weather_service (Some (VDict [("results", VList [])])) None in
  Pipeline.run_all Json.loads E 31 Scenario.w0
  = (Raise "TypeError",
     {| clock := 0; calls := [HttpGet (Tools.geocoding_url "London")] |}).
Proof.
  intros E.
  destruct (run_all_saves_tours_or_raises Json.loads E 31 Scenario.w0) as [_ H]; [lia|].
  apply H. reflexivity.
Defined.

(** X12.  The loop behind the button of final-ui.py, with 31 rounds of fuel,
    never raises, whatever the cities and whatever the outside answers: a
    city that raises costs its own tour only.  The tours it leaves in the
    session are truthy, in the order of the cities, one per city at most;
    and after a city whose geocoding answer has no match the loop sleeps
    its second and goes on with the cities that follow. *)
Theorem generate_tours_never_raises
  (json_loads : string -> option value) (E : env) (fuel : nat)
  (selected : list string) (w : world) :
  (31 <= fuel)%nat ->
  (exists tours w',
      Pipeline.generate_tours json_loads E fuel selected [] w = (Ret tours, w')
      /\ (List.length tours <= List.length selected)%nat
      /\ Forall (fun tour => truthy tour = true) tours)
  /\ (forall city rest w1,
        selected = city :: rest ->
        Tools.get_coordinates E city w = (Ret None, w1) ->
        Pipeline.generate_tours json_loads E fuel selected [] w
        = Pipeline.generate_tours json_loads E fuel rest []
            (snd (time_sleep E 1 w1))).
Proof.
  intros Hfuel. split.
  - destruct (generate_tours_spec json_loads E fuel selected Hfuel [] w)
      as (added & w' & Hrun & Hlen & Hall).
    exists added, w'. auto.
  - intros city rest w1 -> Hc. cbn [Pipeline.generate_tours].
    unfold bind at 1, try_except, bind at 1, Pipeline.process_city, bind at 1.
    rewrite (no_match_raises E _ _ _ Hc). reflexivity.
Qed.

Lemma generate_tours_never_raises_witness :
  let E := Scenario.weather_service (Some (VDict [("results", VList [])])) None in
  exists w',
    Pipeline.generate_tours Json.loads E 31 ["Atlantis"; "El Dorado"] [] Scenario.w0
    = (Ret [], w').
Proof.
  intros E.
  destruct (generate_tours_never_raises Json.loads E 31 ["Atlantis"; "El Dorado"]
              Scenario.w0) as [(tours & w' & Hrun & Hlen & _) Hskip]; [lia|].
  exists w'. rewrite Hrun. f_equal.
  rewrite (Hskip "Atlantis" ["El Dorado"] _ eq_refl eq_refl) in Hrun.
  vm_compute in Hrun. inversion Hrun. reflexivity.
Defined.

End PipelineFacts.

(** ** final-ui.py: the downloads *)

Module RenderFacts.
Import Py World.
Local Open Scope py_scope.

Lemma field_getitem (d : list (string * value)) (key : string) (test : value -> bool) :
  Schema.field d key test = true ->
  exists v, getitem (VDict d) key = Ret v /\ test v = true.
Proof.
  unfold Schema.field. simpl. destruct (dict_lookup key d) as [v|]; [|discriminate].
  intros H. exists v. auto.
Qed.

Lemma field_str (d : list (string * value)) (key : string) :
  Schema.field d key Schema.is_str = true ->
  exists s, getitem (VDict d) key = Ret (VStr s).
Proof.
  intros H. destruct (field_getitem _ _ _ H) as (v & Hv & Hs).
  destruct v; try discriminate. eauto.
Qed.

(** The two kinds of loop: every pass returns, or the first pass that
    raises ends the loop with its exception. *)
Lemma extend_each_returns {A : Type} (f : A -> pyres (list string)) (k : nat) (l : list A) :
  Forall (fun x => exists more, f x = Ret more /\ List.length more = k) l ->
  forall lines,
    exists added,
      Render.extend_each f l lines = Ret (lines ++ added)
      /\ List.length added = (k * List.length l)%nat.
Proof.
  induction 1 as [|x l (more & Hx & Hk) _ IH]; intros lines.
  - exists []. rewrite app_nil_r. simpl. split; [reflexivity|lia].
  - cbn [Render.extend_each]. rewrite Hx. cbn [pbind].
    destruct (IH (lines ++ more)) as (added & -> & Hlen).
    exists (more ++ added). rewrite app_assoc. split; [reflexivity|].
    rewrite List.length_app. simpl. lia.
Qed.

Lemma extend_each_raises {A : Type} (f : A -> pyres (list string))
  (before : list A) (x : A) (after : list A) (e : string) :
  Forall (fun y => exists more, f y = Ret more) before ->
  f x = Raise e ->
  forall lines, Render.extend_each f (before ++ x :: after) lines = Raise e.
Proof.
  intros Hbefore Hx. induction Hbefore as [|y before (more & Hy) _ IH]; intros lines.
  - simpl. rewrite Hx. reflexivity.
  - simpl. rewrite Hy. cbn [pbind]. apply IH.
Qed.

Lemma append_each_returns {A : Type} (f : A -> pyres string) (l : list A) :
  Forall (fun x => exists more, f x = Ret more) l ->
  forall text, exists added, Render.append_each f l text = Ret (text +:+ added).
Proof.
  induction 1 as [|x l (more & Hx) _ IH]; intros text.
  - exists EmptyString. rewrite StrFacts.append_empty_r. reflexivity.
  - cbn [Render.append_each]. rewrite Hx. cbn [pbind].
    destruct (IH (text +:+ more)) as (added & ->).
    exists (more +:+ added). rewrite StrFacts.append_assoc. reflexivity.
Qed.

Lemma append_each_raises {A : Type} (f : A -> pyres string)
  (before : list A) (x : A) (after : list A) (e : string) :
  Forall (fun y => exists more, f y = Ret more) before ->
  f x = Raise e ->
  forall text, Render.append_each f (before ++ x :: after) text = Raise e.
Proof.
  intros Hbefore Hx. induction Hbefore as [|y before (more & Hy) _ IH]; intros text.
  - simpl. rewrite Hx. reflexivity.
  - simpl. rewrite Hy. cbn [pbind]. apply IH.
Qed.

Section WithEnv.
Variable capitalize : string -> string.
Variable generated_on : string.
Variable E : env.

Lemma meal_readable (d : list (string * value)) (meal_type : string) :
  Schema.field d meal_type Schema.is_meal = true ->
  exists meal r a dish t c,
    getitem (VDict d) meal_type = Ret meal
    /\ getitem meal "restaurant" = Ret (VStr r)
    /\ getitem meal "address" = Ret (VStr a)
    /\ getitem meal "dish" = Ret (VStr dish)
    /\ getitem meal "description" = Ret (VStr t)
    /\ getitem meal "weather_consideration" = Ret (VStr c).
Proof.
  intros H. destruct (field_getitem _ _ _ H) as (meal & Hmeal & Hok).
  destruct meal as [| | | | |dm]; try discriminate. simpl in Hok.
  repeat (apply andb_true_iff in Hok; destruct Hok as [Hok ?]).
  destruct (field_str dm "restaurant") as (r & Hr); [assumption|].
  destruct (field_str dm "address") as (a & Ha); [assumption|].
  destruct (field_str dm "dish") as (dish & Hd); [assumption|].
  destruct (field_str dm "description") as (t & Ht); [assumption|].
  destruct (field_str dm "weather_consideration") as (c & Hc); [assumption|].
  exists (VDict dm), r, a, dish, t, c. auto 10.
Qed.

Lemma plan_is_readable (tour : value) :
  Schema.satisfies_TourPlan tour = true -> Render.readable tour.
Proof.
  destruct tour as [| | | | |d]; try discriminate. simpl. intros H.
  repeat (apply andb_true_iff in H; destruct H as [H ?]).
  split.
  - apply field_str. assumption.
  - destruct (field_getitem d "weather" Schema.is_weather) as (weather & Hw & Hok);
      [assumption|].
    destruct weather as [| | | | |dw]; try discriminate. simpl in Hok.
    repeat (apply andb_true_iff in Hok; destruct Hok as [Hok ?]).
    destruct (field_getitem dw "temperature" Schema.is_num) as (t & Ht & _); [assumption|].
    destruct (field_str dw "condition") as (c & Hc); [assumption|].
    destruct (field_str dw "dining") as (g & Hg); [assumption|].
    exists (VDict dw), t, c, g. auto.
  - destruct (field_getitem d "iconic_dishes" Schema.is_three_strings)
      as (dishes & Hd & Hok); [assumption|].
    destruct dishes as [| | | |l|]; try discriminate.
    destruct l as [|a [|b [|c [|? ?]]]]; try discriminate. simpl in Hok.
    repeat (apply andb_true_iff in Hok; destruct Hok as [Hok ?]).
    destruct a; try discriminate. destruct b; try discriminate.
    destruct c; try discriminate. eauto.
  - destruct (field_getitem d "tour" Schema.is_tour) as (meals & Hm & Hok); [assumption|].
    destruct meals as [| | | | |dm]; try discriminate. simpl in Hok.
    repeat (apply andb_true_iff in Hok; destruct Hok as [Hok ?]).
    exists (VDict dm). split; [exact Hm|].
    unfold Render.meal_types.
    repeat (apply List.Forall_cons; [apply meal_readable; assumption|]).
    apply List.Forall_nil.
Qed.

Lemma text_tour_lines_returns (tour : value) :
  Render.readable tour ->
  exists lines,
    Render.text_tour_lines capitalize E tour = Ret lines
    /\ List.length lines = 23%nat.
Proof.
  intros [(city & Hcity) (weather & t & c & g & Hw & Ht & Hc & Hg)
            (a & b & c3 & Hd) (meals & Hm & Hmeals)].
  unfold Render.text_tour_lines.
  rewrite Hcity, Hw, Hd. cbn [pbind].
  rewrite Hc, Ht, Hg. cbn [pbind Render.capitalized Render.join_value Render.iterate
                             Render.strings_of].
  destruct (extend_each_returns (Render.text_meal_lines capitalize E tour) 6
              Render.meal_types) with (lines := @nil string) as (added & -> & Hlen).
  { eapply List.Forall_impl; [|exact Hmeals].
    intros meal_type (meal & r & ad & dish & desc & cons & H1 & H2 & H3 & H4 & H5 & H6).
    unfold Render.text_meal_lines. rewrite Hm. cbn [pbind].
    rewrite H1. cbn [pbind]. rewrite H2, H3, H4, H5, H6. cbn [pbind].
    eexists. split; reflexivity. }
  cbn [pbind]. eexists. split; [reflexivity|].
  cbn [app List.length]. rewrite List.length_app, Hlen. reflexivity.
Qed.

Lemma markdown_tour_returns (tour : value) :
  Render.readable tour ->
  exists text, Render.markdown_tour capitalize E tour = Ret text.
Proof.
  intros [(city & Hcity) (weather & t & c & g & Hw & Ht & Hc & Hg)
            (a & b & c3 & Hd) (meals & Hm & Hmeals)].
  unfold Render.markdown_tour.
  rewrite Hcity, Hw, Hd. cbn [pbind].
  rewrite Ht, Hc, Hg. cbn [pbind Render.capitalized Render.iterate].
  match goal with |- context [Render.append_each _ _ ?header] =>
    destruct (append_each_returns (Render.markdown_meal capitalize E tour)
                Render.meal_types) with (text := header) as (added & ->) end.
  { eapply List.Forall_impl; [|exact Hmeals].
    intros meal_type (meal & r & ad & dish & desc & cons & H1 & H2 & H3 & H4 & H5 & H6).
    unfold Render.markdown_meal. rewrite Hm. cbn [pbind].
    rewrite H1. cbn [pbind]. rewrite H2, H3, H4, H5, H6. cbn [pbind].
    eexists. reflexivity. }
  eexists. reflexivity.
Qed.

End WithEnv.

(** X13.  Tours that satisfy the TourPlan schema can always be downloaded: both
    renderers return on every list of them.  The plain text is a list of
    lines joined by line breaks, one heading and 23 entries per tour. *)
Theorem renderers_accept_tour_plans
  (capitalize : string -> string) (generated_on : string) (E : env)
  (tours : list value) :
  Forall (fun tour => Schema.satisfies_TourPlan tour = true) tours ->
  (exists lines,
      Render.create_text_content capitalize generated_on E tours
      = Ret (join Render.nl lines)
      /\ List.length lines = (1 + 23 * List.length tours)%nat)
  /\ (exists heading body,
         Render.create_markdown_content capitalize generated_on E nil = Ret heading
         /\ Render.create_markdown_content capitalize generated_on E tours
            = Ret (heading +:+ body)).
Proof.
  intros Hall. split.
  - unfold Render.create_text_content.
    match goal with |- context [Render.extend_each _ _ ?first] =>
      destruct (extend_each_returns (Render.text_tour_lines capitalize E) 23 tours)
        with (lines := first) as (added & -> & Hlen) end.
    { eapply List.Forall_impl; [|exact Hall].
      intros tour Htour. apply text_tour_lines_returns, plan_is_readable, Htour. }
    cbn [pbind]. eexists. split; [reflexivity|].
    rewrite List.length_app, Hlen. simpl. lia.
  - unfold Render.create_markdown_content. cbn [Render.append_each].
    eexists.
    match goal with |- context [Render.append_each _ tours ?first] =>
      destruct (append_each_returns (Render.markdown_tour capitalize E) tours)
        with (text := first) as (added & ->) end.
    { eapply List.Forall_impl; [|exact Hall].
      intros tour Htour. apply markdown_tour_returns, plan_is_readable, Htour. }
    exists added. split; reflexivity.
Qed.

Lemma renderers_accept_tour_plans_witness :
  let plan := match Json.loads Scenario.paris_plan_text with
              | Some v => v
              | None => VNone
              end in
  exists lines,
    Render.create_text_content (fun s => s) "November 03, 2026"
      Scenario.keeps_running [plan; plan]
    = Ret (join Render.nl lines)
    /\ List.length lines = 47%nat.
Proof.
  intros plan.
  destruct (renderers_accept_tour_plans (fun s => s) "November 03, 2026"
              Scenario.keeps_running [plan; plan]) as [H _].
  - repeat (apply List.Forall_cons; [vm_compute; reflexivity|]). apply List.Forall_nil.
  - exact H.
Defined.

(** X14.  A tour that lacks one of the keys [city], [weather] and
    [iconic_dishes] cannot be downloaded: when the tours before it satisfy
    the schema, both renderers raise [KeyError], whatever else the tour
    holds and whatever follows it. *)
Theorem renderers_raise_on_missing_key
  (capitalize : string -> string) (generated_on : string) (E : env)
  (before after : list value) (d : list (string * value)) :
  Forall (fun tour => Schema.satisfies_TourPlan tour = true) before ->
  dict_lookup "city" d = None
  \/ dict_lookup "weather" d = None
  \/ dict_lookup "iconic_dishes" d = None ->
  Render.create_text_content capitalize generated_on E (before ++ VDict d :: after)
  = Raise "KeyError"
  /\ Render.create_markdown_content capitalize generated_on E (before ++ VDict d :: after)
     = Raise "KeyError".
Proof.
  intros Hall Hmissing.
  assert (Htext : Render.text_tour_lines capitalize E (VDict d) = Raise "KeyError").
  { unfold Render.text_tour_lines. cbn [getitem].
    destruct (dict_lookup "city" d); [|reflexivity]. cbn [pbind].
    destruct (dict_lookup "weather" d); [|reflexivity]. cbn [pbind].
    destruct (dict_lookup "iconic_dishes" d); [|reflexivity].
    destruct Hmissing as [H|[H|H]]; discriminate. }
  assert (Hmark : Render.markdown_tour capitalize E (VDict d) = Raise "KeyError").
  { unfold Render.markdown_tour. cbn [getitem].
    destruct (dict_lookup "city" d); [|reflexivity]. cbn [pbind].
    destruct (dict_lookup "weather" d); [|reflexivity]. cbn [pbind].
    destruct (dict_lookup "iconic_dishes" d); [|reflexivity].
    destruct Hmissing as [H|[H|H]]; discriminate. }
  split.
  - unfold Render.create_text_content.
    rewrite (extend_each_raises _ before (VDict d) after "KeyError"); auto.
    eapply List.Forall_impl; [|exact Hall].
    intros tour Htour.
    destruct (text_tour_lines_returns capitalize E tour (plan_is_readable tour Htour))
      as (lines & H & _). eauto.
  - unfold Render.create_markdown_content.
    rewrite (append_each_raises _ before (VDict d) after "KeyError"); auto.
    eapply List.Forall_impl; [|exact Hall].
    intros tour Htour. apply markdown_tour_returns, plan_is_readable, Htour.
Qed.

(** The object of one key that the tour generator can return is such a
    tour. *)
Lemma renderers_raise_on_missing_key_witness :
  let partial := VDict [("city", VStr "Paris")] in
  truthy partial = true
  /\ Render.create_text_content (fun s => s) "November 03, 2026"
       Scenario.keeps_running [partial] = Raise "KeyError"
  /\ Render.create_markdown_content (fun s => s) "November 03, 2026"
       Scenario.keeps_running [partial] = Raise "KeyError".
Proof.
  intros partial. split; [reflexivity|].
  apply (renderers_raise_on_missing_key (fun s => s) "November 03, 2026"
           Scenario.keeps_running [] [] [("city", VStr "Paris")]).
  - apply List.Forall_nil.
  - right. left. reflexivity.
Defined.

End RenderFacts.

(** ** The span between the braces *)

Module SpanFacts.
Import Py StrFacts.

Lemma prefix_char (c a : ascii) (r : string) :
  String.prefix (String c EmptyString) (String a r) = Ascii.eqb a c.
Proof.
  simpl. destruct (ascii_dec c a) as [->|Hne].
  - rewrite Ascii.eqb_refl. destruct r; reflexivity.
  - symmetry. apply Ascii.eqb_neq. congruence.
Qed.

Lemma find_from_lacks (c : ascii) (s : string) (i : Z) :
  lacks c s = true -> find_from (String c EmptyString) s i = -1.
Proof.
  revert i. induction s as [|a r IH]; intros i H; [reflexivity|].
  simpl in H. apply andb_true_iff in H. destruct H as [Ha Hr].
  apply negb_true_iff in Ha.
  cbn [find_from]. rewrite prefix_char, Ha. apply IH. exact Hr.
Qed.

Lemma find_from_app (c : ascii) (p rest : string) (i : Z) :
  lacks c p = true ->
  find_from (String c EmptyString) (p +:+ String c rest) i = i + len p.
Proof.
  revert i. induction p as [|a p IH]; intros i H; sapp.
  - cbn [find_from]. rewrite prefix_char, Ascii.eqb_refl. unfold len. simpl. lia.
  - simpl in H. apply andb_true_iff in H. destruct H as [Ha Hp].
    apply negb_true_iff in Ha.
    cbn [find_from]. rewrite prefix_char, Ha, IH by exact Hp.
    unfold len. simpl String.length. lia.
Qed.

Lemma rfind_from_lacks (c : ascii) (s : string) (i : Z) :
  lacks c s = true -> rfind_from (String c EmptyString) s i = -1.
Proof.
  revert i. induction s as [|a r IH]; intros i H; [reflexivity|].
  simpl in H. apply andb_true_iff in H. destruct H as [Ha Hr].
  apply negb_true_iff in Ha.
  cbn [rfind_from]. rewrite IH by exact Hr. cbn [Z.leb Z.compare].
  rewrite prefix_char, Ha. reflexivity.
Qed.

Lemma rfind_from_app (c : ascii) (s suffix : string) (i : Z) :
  0 <= i ->
  lacks c suffix = true ->
  rfind_from (String c EmptyString) (s +:+ String c suffix) i = i + len s.
Proof.
  revert i. induction s as [|a s IH]; intros i Hi H; sapp.
  - cbn [rfind_from]. rewrite rfind_from_lacks by exact H. cbn [Z.leb Z.compare].
    rewrite prefix_char, Ascii.eqb_refl. unfold len. simpl. lia.
  - cbn [rfind_from]. rewrite IH by (try lia; exact H).
    assert (Hlen : 0 <= len s) by (unfold len; lia).
    destruct (0 <=? i + 1 + len s) eqn:Hle; [|apply Z.leb_gt in Hle; lia].
    unfold len. simpl String.length. lia.
Qed.

(** Where [rfind] points there is the character. *)
Lemma rfind_from_points (c : ascii) (s : string) (i : Z) :
  0 <= i ->
  let r := rfind_from (String c EmptyString) s i in
  r = -1
  \/ i <= r < i + len s
     /\ String.get (Z.to_nat (r - i)) s = Some c.
Proof.
  revert i. induction s as [|a s IH]; intros i Hi; [left; reflexivity|].
  cbn [rfind_from]. cbv zeta.
  destruct (IH (i + 1)) as [Hnone|[Hrange Hget]]; [lia| |].
  - rewrite Hnone. cbn [Z.leb Z.compare]. rewrite prefix_char.
    destruct (Ascii.eqb a c) eqn:Hac; [|left; reflexivity].
    right. apply Ascii.eqb_eq in Hac. subst a.
    unfold len. simpl String.length. split; [lia|].
    replace (Z.to_nat (i - i)) with 0%nat by lia. reflexivity.
  - set (r := rfind_from (String c EmptyString) s (i + 1)) in *.
    destruct (0 <=? r) eqn:Hle; [|apply Z.leb_gt in Hle; lia].
    right. unfold len in *. simpl String.length. split; [lia|].
    replace (Z.to_nat (r - i)) with (S (Z.to_nat (r - (i + 1)))) by lia.
    exact Hget.
Qed.

Lemma substring_none (n : nat) (s : string) : String.substring n 0 s = EmptyString.
Proof.
  revert s. induction n as [|n IH]; intros [|a s]; simpl; auto.
Qed.

Lemma substring_one (n : nat) (s : string) (c : ascii) :
  String.get n s = Some c -> String.substring n 1 s = String c EmptyString.
Proof.
  revert s. induction n as [|n IH]; intros [|a s]; simpl; try discriminate.
  - intros [= ->]. destruct s; reflexivity.
  - apply IH.
Qed.

Lemma substring_skip (p s : string) (k : nat) :
  String.substring (String.length p) k (p +:+ s) = String.substring 0 k s.
Proof. induction p as [|a p IH]; sapp; simpl; auto. Qed.

Lemma substring_take (s t : string) :
  String.substring 0 (String.length s) (s +:+ t) = s.
Proof.
  induction s as [|a s IH]; sapp; simpl.
  - destruct t; reflexivity.
  - rewrite IH. reflexivity.
Qed.

(** X15.  [extract_final_json_from_output] of both files hands the decoder the
    object and nothing around it: of a text made of words without an
    opening brace, an object in braces, and words without a closing brace,
    the span is the object.  Of a text without any opening brace the span
    is empty or the lone closing brace the text ends with, neither of
    which is a JSON text. *)
Theorem json_span_is_the_object_between_the_braces :
  (forall before body after : string,
      lacks "{" before = true ->
      lacks "}" after = true ->
      Main.json_span (before +:+ "{" +:+ body +:+ "}" +:+ after)
      = "{" +:+ body +:+ "}")
  /\ (forall text : string,
        lacks "{" text = true ->
        Main.json_span text = EmptyString \/ Main.json_span text = "}").
Proof.
  split.
  - intros before body after Hbefore Hafter.
    unfold Main.json_span, find, rfind.
    assert (Hfind : find_from "{" (before +:+ "{" +:+ body +:+ "}" +:+ after) 0
                    = len before).
    { rewrite append_cons, append_nil.
      rewrite (find_from_app "{" before _ 0 Hbefore). lia. }
    assert (Hrfind : rfind_from "}" (before +:+ "{" +:+ body +:+ "}" +:+ after) 0
                     = len before + 1 + len body).
    { replace (before +:+ "{" +:+ body +:+ "}" +:+ after)
        with ((before +:+ "{" +:+ body) +:+ String "}" after)
        by (rewrite !append_assoc; reflexivity).
      rewrite (rfind_from_app "}" _ after 0) by (try lia; exact Hafter).
      rewrite !TextFacts.len_app. unfold len. simpl. lia. }
    rewrite Hfind, Hrfind. unfold slice, clamp.
    set (text := before +:+ "{" +:+ body +:+ "}" +:+ after).
    assert (Hn : len text = len before + 1 + len body + 1 + len after).
    { unfold text. rewrite !TextFacts.len_app. unfold len. simpl. lia. }
    assert (0 <= len before) by (unfold len; lia).
    assert (0 <= len body) by (unfold len; lia).
    assert (0 <= len after) by (unfold len; lia).
    destruct (len before <? 0) eqn:Hneg1; [apply Z.ltb_lt in Hneg1; lia|].
    destruct (len before + 1 + len body + 1 <? 0) eqn:Hneg2;
      [apply Z.ltb_lt in Hneg2; lia|].
    replace (Z.to_nat (Z.max 0 (Z.min (len text) (len before))))
      with (String.length before) by (unfold len in *; lia).
    replace (Z.to_nat (Z.max 0 (Z.min (len text) (len before + 1 + len body + 1))
                       - Z.max 0 (Z.min (len text) (len before))))
      with (String.length ("{" +:+ body +:+ "}"))
      by (rewrite !TextFacts.length_app; unfold len in *; simpl; lia).
    unfold text. rewrite substring_skip.
    replace ("{" +:+ body +:+ "}" +:+ after) with (("{" +:+ body +:+ "}") +:+ after)
      by (rewrite !append_assoc; reflexivity).
    apply substring_take.
  - intros text Hlacks. unfold Main.json_span, find, rfind.
    rewrite find_from_lacks by exact Hlacks.
    destruct text as [|a t]; [left; reflexivity|].
    pose proof (rfind_from_points "}" (String a t) 0 (Z.le_refl 0)) as Hr.
    cbv zeta in Hr. set (r := rfind_from "}" (String a t) 0) in *.
    unfold slice, clamp. set (n := len (String a t)).
    assert (Hn : 1 <= n) by (unfold n, len; simpl; lia).
    replace (-1 <? 0) with true by reflexivity.
    replace (Z.max 0 (Z.min n (-1 + n))) with (n - 1) by lia.
    destruct Hr as [->|[Hrange Hget]].
    + change (-1 + 1) with 0. change (0 <? 0) with false. cbv iota.
      replace (Z.to_nat (Z.max 0 (Z.min n 0) - (n - 1))) with 0%nat by lia.
      left. apply substring_none.
    + fold n in Hrange.
      destruct (r + 1 <? 0) eqn:Hneg; [apply Z.ltb_lt in Hneg; lia|].
      replace (Z.max 0 (Z.min n (r + 1))) with (r + 1) by lia.
      destruct (Z.eq_dec r (n - 1)) as [Hlast|Hearlier].
      * right. replace (Z.to_nat (r + 1 - (n - 1))) with 1%nat by lia.
        apply substring_one. rewrite <- Hget. f_equal. lia.
      * left. replace (Z.to_nat (r + 1 - (n - 1))) with 0%nat by lia.
        apply substring_none.
Qed.

End SpanFacts.
